(** * Pos_Printer: a shallow embedding of src/Pos_Printer.cpp

    The driver turns print requests into bytes for a thermal receipt printer
    on a serial line.  Every method of [Pos_Printer] is translated below as a
    function on a [World]: the object's fields, the log of what the method did
    to the outside (bytes written to the stream, polls, reads, delays) and the
    receive side of the stream. *)

From Stdlib Require Import ZArith List Bool Lia Ascii.
Import ListNotations.
Local Open Scope Z_scope.

(** ** Machine integers

    Unsigned C++ integers are [Z] values reduced on conversion;
    [unsigned long] is 32 bits wide on the Arduino targets of the library.
    [int] values are plain [Z]: signed overflow is undefined in C++, so the
    model speaks about the runs in which it does not occur.  Where the source
    hands an unsigned value to an [int] parameter the value is converted
    ([to_int]): it is reduced modulo [2 ^ bits] into the range of the type,
    as GCC defines the conversion. *)

Definition uint8 (z : Z) : Z := z mod 256.
Definition uint16 (z : Z) : Z := z mod 65536.
Definition ulong (z : Z) : Z := z mod 4294967296.

Definition to_int (bits z : Z) : Z :=
  let r := z mod 2 ^ bits in
  if r <? 2 ^ (bits - 1) then r else r - 2 ^ bits.

(** A character literal, as its code. *)
Definition chr (a : ascii) : Z := Z.of_N (N_of_ascii a).

(** [!x] of C, on an integer. *)
Definition lnot_int (z : Z) : bool := z =? 0.

(** ** Constants of the source file *)

Definition BAUDRATE : Z := 19200.

Definition ASCII_TAB : Z := 9.
Definition ASCII_LF : Z := 10.
Definition ASCII_FF : Z := 12.
Definition ASCII_CR : Z := 13.
Definition ASCII_DC2 : Z := 18.
Definition ASCII_ESC : Z := 27.
Definition ASCII_FS : Z := 28.
Definition ASCII_GS : Z := 29.

Definition BYTE_TIME : Z :=
  Z.quot ((11 * 1000000) + Z.quot BAUDRATE 2) BAUDRATE.

Definition INVERSE_MASK : Z := Z.shiftl 1 1.
Definition UPDOWN_MASK : Z := Z.shiftl 1 2.
Definition BOLD_MASK : Z := Z.shiftl 1 3.
Definition DOUBLE_HEIGHT_MASK : Z := Z.shiftl 1 4.
Definition DOUBLE_WIDTH_MASK : Z := Z.shiftl 1 5.
Definition STRIKE_MASK : Z := Z.shiftl 1 6.

(** ** The object and its surroundings *)

(** The fields of the class.  Pos_Printer.h, which declares them, is not among
    the sources.  They are taken as in the Adafruit library the file says it
    is based on: bytes ([uint8_t]) but for the two dot times, which are
    [unsigned long].  The code agrees: the byte fields receive [uint8_t]
    values ([prevByte = c], [barcodeHeight = val]), are sent through
    [writeBytes(uint8_t ...)], masked with an 8-bit constant ([tab]) or
    compared with 255 ([dtrPin]); the dot times receive the [unsigned long]
    arguments of [setTimes].  The constructor initialises [dtrPin] and
    [dtrEnabled] only. *)
Record Pos_Printer : Type := mkPrinter {
  printMode : Z;
  prevByte : Z;
  column : Z;
  maxColumn : Z;
  charHeight : Z;
  lineSpacing : Z;
  barcodeHeight : Z;
  maxChunkHeight : Z;
  dtrPin : Z;
  dtrEnabled : bool;
  dotPrintTime : Z;
  dotFeedTime : Z
}.

(** What a method does to the outside, in order. *)
Inductive event : Type :=
| Tx (b : Z)          (* stream->write(b) *)
| Avail (r : bool)    (* stream->available(), and whether it was non-zero *)
| Rx (v : Z)          (* stream->read(), and what it returned *)
| Delay (ms : Z)      (* delay(ms) *)
| PinMode (pin : Z).  (* pinMode(pin, INPUT_PULLUP) *)

(** [incoming] are the bytes the printer sends back, each with the time (in
    ms) from which it can be read; [clock] is the time spent in [delay]. *)
Record World : Type := mkWorld {
  pp : Pos_Printer;
  log : list event;
  clock : Z;
  incoming : list (Z * Z)
}.

Definition Op : Type := World -> World.

Definition seq_op (f g : Op) : Op := fun w => g (f w).
Notation "f ;; g" := (seq_op f g) (at level 61, left associativity).

Definition skip : Op := fun w => w.

Definition upd (f : Pos_Printer -> Pos_Printer) : Op :=
  fun w => mkWorld (f (pp w)) (log w) (clock w) (incoming w).

Definition emit (e : event) : Op :=
  fun w => mkWorld (pp w) (log w ++ [e]) (clock w) (incoming w).

(** Field assignments; a value stored in a one-byte field is reduced. *)

Definition set_printMode (v : Z) (p : Pos_Printer) : Pos_Printer :=
  mkPrinter (uint8 v) (prevByte p) (column p) (maxColumn p) (charHeight p)
    (lineSpacing p) (barcodeHeight p) (maxChunkHeight p) (dtrPin p)
    (dtrEnabled p) (dotPrintTime p) (dotFeedTime p).

Definition set_prevByte (v : Z) (p : Pos_Printer) : Pos_Printer :=
  mkPrinter (printMode p) (uint8 v) (column p) (maxColumn p) (charHeight p)
    (lineSpacing p) (barcodeHeight p) (maxChunkHeight p) (dtrPin p)
    (dtrEnabled p) (dotPrintTime p) (dotFeedTime p).

Definition set_column (v : Z) (p : Pos_Printer) : Pos_Printer :=
  mkPrinter (printMode p) (prevByte p) (uint8 v) (maxColumn p) (charHeight p)
    (lineSpacing p) (barcodeHeight p) (maxChunkHeight p) (dtrPin p)
    (dtrEnabled p) (dotPrintTime p) (dotFeedTime p).

Definition set_maxColumn (v : Z) (p : Pos_Printer) : Pos_Printer :=
  mkPrinter (printMode p) (prevByte p) (column p) (uint8 v) (charHeight p)
    (lineSpacing p) (barcodeHeight p) (maxChunkHeight p) (dtrPin p)
    (dtrEnabled p) (dotPrintTime p) (dotFeedTime p).

Definition set_charHeight (v : Z) (p : Pos_Printer) : Pos_Printer :=
  mkPrinter (printMode p) (prevByte p) (column p) (maxColumn p) (uint8 v)
    (lineSpacing p) (barcodeHeight p) (maxChunkHeight p) (dtrPin p)
    (dtrEnabled p) (dotPrintTime p) (dotFeedTime p).

Definition set_lineSpacing (v : Z) (p : Pos_Printer) : Pos_Printer :=
  mkPrinter (printMode p) (prevByte p) (column p) (maxColumn p) (charHeight p)
    (uint8 v) (barcodeHeight p) (maxChunkHeight p) (dtrPin p)
    (dtrEnabled p) (dotPrintTime p) (dotFeedTime p).

Definition set_barcodeHeight (v : Z) (p : Pos_Printer) : Pos_Printer :=
  mkPrinter (printMode p) (prevByte p) (column p) (maxColumn p) (charHeight p)
    (lineSpacing p) (uint8 v) (maxChunkHeight p) (dtrPin p)
    (dtrEnabled p) (dotPrintTime p) (dotFeedTime p).

Definition set_maxChunkHeight (v : Z) (p : Pos_Printer) : Pos_Printer :=
  mkPrinter (printMode p) (prevByte p) (column p) (maxColumn p) (charHeight p)
    (lineSpacing p) (barcodeHeight p) (uint8 v) (dtrPin p)
    (dtrEnabled p) (dotPrintTime p) (dotFeedTime p).

Definition set_dtrEnabled (v : bool) (p : Pos_Printer) : Pos_Printer :=
  mkPrinter (printMode p) (prevByte p) (column p) (maxColumn p) (charHeight p)
    (lineSpacing p) (barcodeHeight p) (maxChunkHeight p) (dtrPin p)
    v (dotPrintTime p) (dotFeedTime p).

Definition set_dotPrintTime (v : Z) (p : Pos_Printer) : Pos_Printer :=
  mkPrinter (printMode p) (prevByte p) (column p) (maxColumn p) (charHeight p)
    (lineSpacing p) (barcodeHeight p) (maxChunkHeight p) (dtrPin p)
    (dtrEnabled p) (ulong v) (dotFeedTime p).

Definition set_dotFeedTime (v : Z) (p : Pos_Printer) : Pos_Printer :=
  mkPrinter (printMode p) (prevByte p) (column p) (maxColumn p) (charHeight p)
    (lineSpacing p) (barcodeHeight p) (maxChunkHeight p) (dtrPin p)
    (dtrEnabled p) (dotPrintTime p) (ulong v).

(** The bytes written to the stream so far, oldest first. *)
Fixpoint sent_of (l : list event) : list Z :=
  match l with
  | [] => []
  | Tx b :: l' => b :: sent_of l'
  | _ :: l' => sent_of l'
  end.

Definition sent (w : World) : list Z := sent_of (log w).

(** ** The stream and the clock *)

(** [stream->write(b)], [b] converted to a byte. *)
Definition stream_write (b : Z) : Op := emit (Tx (uint8 b)).

(** [stream->available()]: a byte is there once its time has come. *)
Definition stream_available (w : World) : bool * World :=
  let r := match incoming w with
           | (t, _) :: _ => t <=? clock w
           | [] => false
           end in
  (r, emit (Avail r) w).

(** [stream->read()]: the next byte, or -1 when none is there yet. *)
Definition stream_read (w : World) : Z * World :=
  match incoming w with
  | (t, b) :: rest =>
      if t <=? clock w
      then (b, mkWorld (pp w) (log w ++ [Rx b]) (clock w) rest)
      else (-1, emit (Rx (-1)) w)
  | [] => (-1, emit (Rx (-1)) w)
  end.

Definition delay (ms : Z) : Op :=
  fun w => mkWorld (pp w) (log w ++ [Delay ms]) (clock w + ms) (incoming w).

Definition pinMode_pullup (pin : Z) : Op := emit (PinMode pin).

(** A counted loop [for (i = 0; i < n; i++) body(i)]. *)
Definition for_lt (n : Z) (body : Z -> Op) : Op :=
  fun w => fold_left (fun acc i => body (Z.of_nat i) acc)
                     (seq 0 (Z.to_nat n)) w.

(** The same with the locals the loop body updates (the running index [i]
    of the bitmap loops). *)
Definition for_lt_with {A : Type} (n : Z) (body : Z -> A * World -> A * World)
    (s : A * World) : A * World :=
  fold_left (fun acc i => body (Z.of_nat i) acc) (seq 0 (Z.to_nat n)) s.

(** [toupper] of <ctype.h>, in the C locale. *)
Definition toupper (c : Z) : Z :=
  if (chr "a" <=? c) && (c <=? chr "z") then c - 32 else c.

(** ** The methods *)

Section Driver.

(** Macros of Pos_Printer.h, which is not among the sources: the firmware
    revision that selects between the two encodings of some commands, whether
    the Danish transliteration of [write] is compiled in, and the default
    character set and code page. *)
Variable PRINTER_FIRMWARE : Z.
Variable DENMARK : bool.
Variable CHARSET_DENMARK1 : Z.
Variable CODEPAGE_ISO_8859_1 : Z.

(** The width of [int], which the language leaves to the target: 16 bits on
    the AVR boards, 32 on the ARM and ESP boards. *)
Variable INT_BITS : Z.

(** The constructor: everything but [dtrPin] and [dtrEnabled] keeps whatever
    the memory held ([junk]). *)
Definition Pos_Printer_new (junk : Pos_Printer) (dtr : Z) : Pos_Printer :=
  mkPrinter (printMode junk) (prevByte junk) (column junk) (maxColumn junk)
    (charHeight junk) (lineSpacing junk) (barcodeHeight junk)
    (maxChunkHeight junk) (uint8 dtr) false (dotPrintTime junk)
    (dotFeedTime junk).

Definition setTimes (p f : Z) : Op :=
  upd (set_dotPrintTime p) ;; upd (set_dotFeedTime f).

Definition writeBytes1 (a : Z) : Op := stream_write a.

Definition writeBytes2 (a b : Z) : Op := stream_write a ;; stream_write b.

Definition writeBytes3 (a b c : Z) : Op :=
  stream_write a ;; stream_write b ;; stream_write c.

Definition writeBytes4 (a b c d : Z) : Op :=
  stream_write a ;; stream_write b ;; stream_write c ;; stream_write d.

Definition writeBytes8 (a b c d e f g h : Z) : Op :=
  stream_write a ;; stream_write b ;; stream_write c ;; stream_write d ;;
  stream_write e ;; stream_write f ;; stream_write g ;; stream_write h.

(** The substitutions of [write] under [#ifdef DENMARK], one [if] after the
    other as in the source. *)
Definition remap_denmark (c : Z) : Z :=
  let c := if c =? 0xC3 then 0x00 else c in
  let c := if c =? 0xA5 then chr "}" else c in
  let c := if c =? 0xB8 then chr "|" else c in
  let c := if c =? 0xA6 then chr "{" else c in
  let c := if c =? 0x85 then chr "]" else c in
  let c := if c =? 0x98 then chr "\" else c in
  let c := if c =? 0x86 then chr "[" else c in
  c.

(** The time the line takes that a newline or a wrap completes: the value added
    to [d] in [write].  [charHeight + lineSpacing] is an [int]; the products
    with the [unsigned long] dot times and their sum are [unsigned long]. *)
Definition settle_time (p : Pos_Printer) : Z :=
  if prevByte p =? ASCII_LF
  then ulong ((charHeight p + lineSpacing p) * dotFeedTime p)
  else ulong (ulong (charHeight p * dotPrintTime p)
              + ulong (lineSpacing p * dotFeedTime p)).

(** The block of [write] guarded by [c != 0x13].  It returns, with the world,
    the final value of the local [unsigned long d]: the source computes it and
    then drops it. *)
Definition write_block (c : Z) (w : World) : Z * World :=
  let c := if DENMARK then remap_denmark c else c in
  let w := stream_write c w in
  let d := BYTE_TIME in
  if (c =? ASCII_LF) || (column (pp w) =? maxColumn (pp w))
  then
    let d := ulong (d + settle_time (pp w)) in
    let w := upd (set_column 0) w in
    let c := ASCII_LF in
    (d, upd (set_prevByte c) w)
  else
    let w := upd (set_column (column (pp w) + 1)) w in
    (d, upd (set_prevByte c) w).

(** [write(uint8_t c)]: the delay computed, if the block ran, and the world.
    The method itself returns 1 in every case ([write] below). *)
Definition write_run (c : Z) (w : World) : option Z * World :=
  let c := uint8 c in
  if negb (c =? 0x13)
  then let (d, w') := write_block c w in (Some d, w')
  else (None, w).

Definition write (c : Z) (w : World) : Z * World := (1, snd (write_run c w)).

Definition write_ (c : Z) : Op := fun w => snd (write c w).

(** [print] and [println] of the Arduino core's [Print] class, which send
    each character through [write]; [println] ends with CR LF. *)
Definition print (s : list Z) : Op :=
  fun w => fold_left (fun acc c => write_ c acc) s w.

Definition println (s : list Z) : Op := print s ;; print [ASCII_CR; ASCII_LF].

Definition reset : Op :=
  writeBytes2 ASCII_ESC (chr "@") ;;
  upd (set_prevByte ASCII_LF) ;;
  upd (set_column 0) ;;
  upd (set_maxColumn 32) ;;
  upd (set_charHeight 24) ;;
  upd (set_lineSpacing 6) ;;
  upd (set_barcodeHeight 50) ;;
  (if 264 <=? PRINTER_FIRMWARE
   then writeBytes2 ASCII_ESC (chr "D") ;; writeBytes4 4 8 12 16
   else skip).

Definition testPage : Op := writeBytes2 ASCII_DC2 (chr "T").

Definition setBarcodeHeight (val : Z) : Op :=
  let val := uint8 val in
  let val := if val <? 1 then 1 else val in
  upd (set_barcodeHeight val) ;;
  writeBytes3 ASCII_GS (chr "h") val.

Definition writePrintMode : Op :=
  fun w => writeBytes3 ASCII_ESC (chr "!") (printMode (pp w)) w.

(** The two assignments that end [setPrintMode] and [unsetPrintMode]. *)
Definition update_geometry : Op :=
  (fun w => upd (set_charHeight
            (if negb (Z.land (printMode (pp w)) DOUBLE_HEIGHT_MASK =? 0)
             then 48 else 24)) w) ;;
  (fun w => upd (set_maxColumn
            (if negb (Z.land (printMode (pp w)) DOUBLE_WIDTH_MASK =? 0)
             then 16 else 32)) w).

Definition setPrintMode (mask : Z) : Op :=
  let mask := uint8 mask in
  (fun w => upd (set_printMode (Z.lor (printMode (pp w)) mask)) w) ;;
  writePrintMode ;;
  update_geometry.

Definition unsetPrintMode (mask : Z) : Op :=
  let mask := uint8 mask in
  (fun w => upd (set_printMode (Z.land (printMode (pp w)) (Z.lnot mask))) w) ;;
  writePrintMode ;;
  update_geometry.

Definition normal : Op := upd (set_printMode 0) ;; writePrintMode.

Definition inverseOn : Op :=
  if 268 <=? PRINTER_FIRMWARE
  then writeBytes3 ASCII_GS (chr "B") 1
  else setPrintMode INVERSE_MASK.

Definition inverseOff : Op :=
  if 268 <=? PRINTER_FIRMWARE
  then writeBytes3 ASCII_GS (chr "B") 0
  else unsetPrintMode INVERSE_MASK.

Definition upsideDownOn : Op := setPrintMode UPDOWN_MASK.
Definition upsideDownOff : Op := unsetPrintMode UPDOWN_MASK.
Definition doubleHeightOn : Op := setPrintMode DOUBLE_HEIGHT_MASK.
Definition doubleHeightOff : Op := unsetPrintMode DOUBLE_HEIGHT_MASK.
Definition doubleWidthOn : Op := setPrintMode DOUBLE_WIDTH_MASK.
Definition doubleWidthOff : Op := unsetPrintMode DOUBLE_WIDTH_MASK.
Definition strikeOn : Op := setPrintMode STRIKE_MASK.
Definition strikeOff : Op := unsetPrintMode STRIKE_MASK.
Definition boldOn : Op := setPrintMode BOLD_MASK.
Definition boldOff : Op := unsetPrintMode BOLD_MASK.

Definition justify (value : Z) : Op :=
  let pos := 0 in
  let pos :=
    let u := toupper value in
    if u =? chr "L" then 0
    else if u =? chr "C" then 1
    else if u =? chr "R" then 2
    else pos in
  writeBytes3 ASCII_ESC (chr "a") pos.

(** [while (x--) write('\n')], [x] a byte. *)
Fixpoint feed_manually (x : nat) : Op :=
  match x with
  | O => skip
  | S x' => write_ ASCII_LF ;; feed_manually x'
  end.

Definition feed (x : Z) : Op :=
  let x := uint8 x in
  if 264 <=? PRINTER_FIRMWARE
  then writeBytes3 ASCII_ESC (chr "d") x ;;
       upd (set_prevByte ASCII_LF) ;;
       upd (set_column 0)
  else feed_manually (Z.to_nat x).

Definition feedRows (rows : Z) : Op :=
  writeBytes3 ASCII_ESC (chr "J") rows ;;
  upd (set_prevByte ASCII_LF) ;;
  upd (set_column 0).

Definition flush : Op := writeBytes1 ASCII_FF.

Definition setSize (value : Z) : Op :=
  let u := toupper value in
  let size :=
    if u =? chr "M" then 0x01 else if u =? chr "L" then 0x11 else 0x00 in
  (if u =? chr "M" then upd (set_charHeight 48) ;; upd (set_maxColumn 32)
   else if u =? chr "L" then upd (set_charHeight 48) ;; upd (set_maxColumn 16)
   else upd (set_charHeight 24) ;; upd (set_maxColumn 32)) ;;
  writeBytes3 ASCII_GS (chr "!") size ;;
  upd (set_prevByte ASCII_LF).

Definition underlineOn (weight : Z) : Op :=
  let weight := uint8 weight in
  let weight := if weight >? 2 then 2 else weight in
  writeBytes3 ASCII_ESC (chr "-") weight.

Definition underlineOff : Op := writeBytes3 ASCII_ESC (chr "-") 0.

(** [test]: the text goes through [println], then two lines are fed. *)
Definition hello_world : list Z :=
  map chr ["H"; "e"; "l"; "l"; "o"; " "; "W"; "o"; "r"; "l"; "d"; "!"]%char.

Definition test : Op := println hello_world ;; feed 2.

(** A C string is the list of its characters before the NUL; [text[i]] for
    [i] up to its length: *)
Definition char_at (text : list Z) (i : Z) : Z := nth (Z.to_nat i) text 0.

Definition strlen (text : list Z) : Z := Z.of_nat (length text).

(** The [do { writeBytes(c = text[i++]); } while (c);] of [printBarcode] on
    older firmware.  [i] is a byte: on a text of 256 characters or more it
    wraps before the NUL is met and the loop never ends ([None]); 256 rounds
    tell. *)
Fixpoint barcode_copy (fuel : nat) (text : list Z) (i : Z) (w : World)
    : option World :=
  match fuel with
  | O => None
  | S fuel' =>
      let c := uint8 (char_at text i) in
      let w := writeBytes1 c w in
      let i := uint8 (i + 1) in
      if negb (c =? 0) then barcode_copy fuel' text i w else Some w
  end.

Definition printBarcode (text : list Z) (type : Z) (w : World) : option World :=
  let w := (feed 1 ;;
            writeBytes3 ASCII_GS (chr "H") 2 ;;
            writeBytes3 ASCII_GS (chr "w") 3 ;;
            writeBytes3 ASCII_GS (chr "k") type) w in
  let r :=
    if 264 <=? PRINTER_FIRMWARE then
      let len := strlen text in
      let len := if len >? 255 then 255 else len in
      Some ((writeBytes1 len ;;
             for_lt len (fun i => writeBytes1 (char_at text i))) w)
    else barcode_copy 256 text 0 w in
  option_map (upd (set_prevByte ASCII_LF)) r.

(** An image in memory, [bitmap i] being [*(bitmap + i)]; reading it from
    program memory or from RAM gives the same byte. *)
Definition image : Type := Z -> Z.

(** The two nested loops that send [rows] times [cols] bytes from index [i]
    on; they return the index reached. *)
Definition send_rows (rows cols : Z) (bitmap : image) (s : Z * World)
    : Z * World :=
  for_lt_with rows (fun _ =>
    for_lt_with cols (fun _ '(i, w) => (i + 1, writeBytes1 (bitmap i) w))) s.

Definition printBitmap (w h : Z) (bitmap : image) (fromProgMem : bool) : Op :=
  fun wd =>
  let rowBytes := Z.quot (w + 7) 8 in
  let wd := writeBytes8 ASCII_GS (chr "v") (chr "0") 0
              (Z.rem rowBytes 256) (Z.quot rowBytes 256)
              (Z.rem h 256) (Z.quot h 256) wd in
  let '(_, wd) := send_rows h rowBytes bitmap (0, wd) in
  upd (set_prevByte ASCII_LF) wd.

Definition defineBitImage (w h : Z) (bitmap : image) : Op :=
  fun wd =>
  let rowBytes := Z.quot (w + 7) 8 in
  let colBytes := Z.quot (h + 7) 8 in
  let wd := writeBytes4 0x1D 0x2A rowBytes colBytes wd in
  let '(_, wd) := send_rows h rowBytes bitmap (0, wd) in
  upd (set_prevByte ASCII_LF) wd.

Definition printDefinedBitImage (mode : Z) : Op := writeBytes3 0x1D 0x2F mode.

Definition defineNVBitmap (w h : Z) (bitmap : image) : Op :=
  fun wd =>
  let rowBytes := Z.quot w 8 in
  let colBytes := Z.quot (h + 7) 8 in
  let wd := writeBytes3 0x1C 0x71 1 wd in
  let wd := writeBytes4 (Z.rem rowBytes 256) (Z.quot rowBytes 256)
              (Z.rem colBytes 256) (Z.quot colBytes 256) wd in
  snd (send_rows colBytes w bitmap (0, wd)).

Definition defineNVBitmap2 (w1 h1 : Z) (bitmap1 : image)
    (w2 h2 : Z) (bitmap2 : image) : Op :=
  fun wd =>
  let rowBytes := Z.quot w1 8 in
  let colBytes := Z.quot (h1 + 7) 8 in
  let wd := writeBytes3 0x1C 0x71 2 wd in
  let wd := writeBytes4 (Z.rem rowBytes 256) (Z.quot rowBytes 256)
              (Z.rem colBytes 256) (Z.quot colBytes 256) wd in
  let '(_, wd) := send_rows colBytes (rowBytes * 8) bitmap1 (0, wd) in
  let rowBytes := Z.quot w2 8 in
  let colBytes := Z.quot (h2 + 7) 8 in
  let wd := writeBytes4 (Z.rem rowBytes 256) (Z.quot rowBytes 256)
              (Z.rem colBytes 256) (Z.quot colBytes 256) wd in
  snd (send_rows colBytes (rowBytes * 8) bitmap2 (0, wd)).

Definition printNVBitmap (n mode : Z) : Op := writeBytes4 0x1C 0x70 n mode.

(** *** The chunked bitmap print *)

Definition ada_rowBytes (w : Z) : Z := Z.quot (w + 7) 8.

Definition ada_rowBytesClipped (w : Z) : Z :=
  let rowBytes := ada_rowBytes w in
  if rowBytes >=? 48 then 48 else rowBytes.

(** The rows written at once.  Without the handshake the source divides by
    [rowBytesClipped]; a division by zero is undefined ([None]). *)
Definition ada_chunkHeightLimit (w : Z) (p : Pos_Printer) : option Z :=
  let rowBytesClipped := ada_rowBytesClipped w in
  if dtrEnabled p then Some 255
  else if rowBytesClipped =? 0 then None
  else
    let chunkHeightLimit := Z.quot 256 rowBytesClipped in
    Some (if chunkHeightLimit >? maxChunkHeight p then maxChunkHeight p
          else if chunkHeightLimit <? 1 then 1
          else chunkHeightLimit).

(** The rows of one chunk, read from memory: [rowBytesClipped] bytes of each
    row are sent, the rest of the row is stepped over. *)
Definition ada_send_chunk (chunkHeight rowBytes rowBytesClipped : Z)
    (bitmap : image) (s : Z * World) : Z * World :=
  for_lt_with chunkHeight (fun _ s =>
    let '(i, wd) :=
      for_lt_with rowBytesClipped
        (fun _ '(i, wd) => (i + 1, stream_write (bitmap i) wd)) s in
    (i + (rowBytes - rowBytesClipped), wd)) s.

(** The loop over the chunks,
    [for (...; rowStart < h; rowStart += chunkHeightLimit)], one round per
    unit of [fuel]; [None] when the fuel does not reach the end.  Besides the
    world it returns the [chunkHeight] of every round, in order. *)
Fixpoint ada_chunks (fuel : nat) (h rowBytes rowBytesClipped chunkHeightLimit : Z)
    (bitmap : image) (i rowStart : Z) (wd : World) : option (list Z * World) :=
  if rowStart <? h then
    match fuel with
    | O => None
    | S fuel' =>
        let chunkHeight := h - rowStart in
        let chunkHeight :=
          if chunkHeight >? chunkHeightLimit then chunkHeightLimit
          else chunkHeight in
        let wd := writeBytes4 ASCII_ESC (chr "*") chunkHeight rowBytesClipped wd in
        let '(i, wd) :=
          ada_send_chunk chunkHeight rowBytes rowBytesClipped bitmap (i, wd) in
        match ada_chunks fuel' h rowBytes rowBytesClipped chunkHeightLimit
                bitmap i (rowStart + chunkHeightLimit) wd with
        | Some (hs, wd) => Some (chunkHeight :: hs, wd)
        | None => None
        end
    end
  else Some ([], wd).

(** [printBitmap_ada(w, h, bitmap, fromProgMem)].  The loop ends within [h]
    rounds whenever it ends at all ([ada_chunks_diverge] and [ada_chunks_fuel]
    below), so [h] units of fuel lose nothing. *)
Definition printBitmap_ada (w h : Z) (bitmap : image) (fromProgMem : bool)
    (wd : World) : option (list Z * World) :=
  let rowBytes := ada_rowBytes w in
  let rowBytesClipped := ada_rowBytesClipped w in
  match ada_chunkHeightLimit w (pp wd) with
  | None => None
  | Some chunkHeightLimit =>
      match ada_chunks (Z.to_nat h) h rowBytes rowBytesClipped chunkHeightLimit
              bitmap 0 0 wd with
      | Some (hs, wd) => Some (hs, upd (set_prevByte ASCII_LF) wd)
      | None => None
      end
  end.

(** A stream to read an image from is the list of what its successive
    [read()] calls return: a byte, or -1 when nothing has come yet; once the
    list is used up nothing comes any more. *)
Definition source : Type := list Z.

Definition source_read (src : source) : Z * source :=
  match src with
  | [] => (-1, [])
  | c :: rest => (c, rest)
  end.

(** [while ((c = fromStream->read()) < 0);] it never ends on a stream that
    has nothing more to give ([None]). *)
Fixpoint read_blocking (src : source) : option (Z * source) :=
  match src with
  | [] => None
  | c :: rest => if c <? 0 then read_blocking rest else Some (c, rest)
  end.

Definition for_lt_opt {A : Type} (n : Z) (body : Z -> A -> option A) (s : A)
    : option A :=
  fold_left (fun acc i => match acc with
                          | Some a => body (Z.of_nat i) a
                          | None => None
                          end)
            (seq 0 (Z.to_nat n)) (Some s).

Definition ada_stream_chunk (chunkHeight rowBytes rowBytesClipped : Z)
    (s : source * World) : option (source * World) :=
  for_lt_opt chunkHeight (fun _ s =>
    match for_lt_opt rowBytesClipped
            (fun _ '(src, wd) =>
               match read_blocking src with
               | Some (c, src) => Some (src, stream_write c wd)
               | None => None
               end) s with
    | Some s =>
        for_lt_opt (rowBytes - rowBytesClipped)
          (fun _ '(src, wd) =>
             match read_blocking src with
             | Some (_, src) => Some (src, wd)
             | None => None
             end) s
    | None => None
    end) s.

Fixpoint ada_stream_chunks (fuel : nat)
    (h rowBytes rowBytesClipped chunkHeightLimit : Z)
    (src : source) (rowStart : Z) (wd : World) : option World :=
  if rowStart <? h then
    match fuel with
    | O => None
    | S fuel' =>
        let chunkHeight := h - rowStart in
        let chunkHeight :=
          if chunkHeight >? chunkHeightLimit then chunkHeightLimit
          else chunkHeight in
        let wd := writeBytes4 ASCII_ESC (chr "*") chunkHeight rowBytesClipped wd in
        match ada_stream_chunk chunkHeight rowBytes rowBytesClipped (src, wd) with
        | Some (src, wd) =>
            ada_stream_chunks fuel' h rowBytes rowBytesClipped chunkHeightLimit
              src (rowStart + chunkHeightLimit) wd
        | None => None
        end
    end
  else Some wd.

(** [printBitmap_ada(w, h, fromStream)]. *)
Definition printBitmap_ada_stream (w h : Z) (fromStream : source) (wd : World)
    : option World :=
  let rowBytes := ada_rowBytes w in
  let rowBytesClipped := ada_rowBytesClipped w in
  match ada_chunkHeightLimit w (pp wd) with
  | None => None
  | Some chunkHeightLimit =>
      option_map (upd (set_prevByte ASCII_LF))
        (ada_stream_chunks (Z.to_nat h) h rowBytes rowBytesClipped
           chunkHeightLimit fromStream 0 wd)
  end.

(** [printBitmap_ada(fromStream)]: width and height come first, low byte
    first, read without waiting.  They are [uint16_t] and go to the [int]
    parameters of the variant above. *)
Definition printBitmap_ada_header (fromStream : source) (wd : World)
    : option World :=
  let '(r, src) := source_read fromStream in
  let tmp := uint8 r in
  let '(r, src) := source_read src in
  let width := uint16 (Z.shiftl r 8 + tmp) in
  let '(r, src) := source_read src in
  let tmp := uint8 r in
  let '(r, src) := source_read src in
  let height := uint16 (Z.shiftl r 8 + tmp) in
  printBitmap_ada_stream (to_int INT_BITS width) (to_int INT_BITS height)
    src wd.

(** *** Session *)

Definition offline : Op := writeBytes3 ASCII_ESC (chr "=") 0.

Definition online : Op := writeBytes3 ASCII_ESC (chr "=") 1.

Definition sleepAfter (seconds : Z) : Op :=
  let seconds := uint16 seconds in
  if 264 <=? PRINTER_FIRMWARE
  then writeBytes4 ASCII_ESC (chr "8") seconds (Z.shiftr seconds 8)
  else writeBytes3 ASCII_ESC (chr "8") seconds.

Definition sleep : Op := sleepAfter 1.

Definition wake : Op :=
  writeBytes1 255 ;;
  (if 264 <=? PRINTER_FIRMWARE
   then delay 50 ;; writeBytes4 ASCII_ESC (chr "8") 0 0
   else for_lt 10 (fun _ => writeBytes1 0)).

(** The loop of [hasPaper], [n] rounds left: it returns the value of
    [status], -1 when no round found a byte. *)
Fixpoint hasPaper_poll (n : nat) (w : World) : Z * World :=
  match n with
  | O => (-1, w)
  | S n' =>
      let (a, w) := stream_available w in
      if a then stream_read w
      else hasPaper_poll n' (delay 100 w)
  end.

Definition hasPaper (w : World) : bool * World :=
  let w := writeBytes3 0x10 0x04 4 w in
  let (status, w) := hasPaper_poll 10 w in
  (lnot_int (Z.land status 4), w).

Definition setLineHeight (val : Z) : Op :=
  let val := if val <? 24 then 24 else val in
  upd (set_lineSpacing (val - 24)) ;;
  writeBytes3 ASCII_ESC (chr "3") val.

Definition setMaxChunkHeight (val : Z) : Op := upd (set_maxChunkHeight val).

Definition setCharset (val : Z) : Op :=
  let val := uint8 val in
  let val := if val >? 15 then 15 else val in
  writeBytes3 ASCII_ESC (chr "R") val.

Definition setCodePage (val : Z) : Op :=
  let val := uint8 val in
  let val := if val >? 47 then 47 else val in
  writeBytes3 ASCII_ESC (chr "t") val.

Definition tab : Op :=
  writeBytes1 ASCII_TAB ;;
  (fun w => upd (set_column (Z.land (column (pp w) + 4) 252)) w).

Definition setCharSpacing (spacing : Z) : Op :=
  writeBytes3 ASCII_ESC (chr " ") spacing.

Definition cut : Op := writeBytes3 ASCII_GS (chr "V") 0.

Definition beep : Op := writeBytes2 ASCII_ESC (chr "o").

Definition setBeep (sec : Z) : Op := writeBytes3 ASCII_GS (chr "o") sec.

Definition reprintQRcode (timeoutQR : Z) : Op :=
  writeBytes4 ASCII_GS (chr "(") (chr "k") 3 ;;
  writeBytes4 0 49 81 48 ;;
  upd (set_prevByte ASCII_LF).

Definition printQRcode (text : list Z) (errCorrect moduleSize model timeoutQR : Z)
    : Op :=
  let errCorrect := uint8 errCorrect in
  let moduleSize := uint8 moduleSize in
  let model := uint8 model in
  let model := if (model <? 49) || (model >? 51) then 50 else model in
  writeBytes4 ASCII_GS (chr "(") (chr "k") 4 ;;
  writeBytes4 0 49 65 model ;;
  writeBytes1 0 ;;
  (let moduleSize :=
     if (moduleSize <? 1) || (moduleSize >? 16) then 3 else moduleSize in
   writeBytes3 ASCII_GS (chr "(") (chr "k") ;;
   writeBytes4 3 0 49 67 ;;
   writeBytes1 moduleSize) ;;
  (let errCorrect :=
     if (errCorrect <? 48) || (errCorrect >? 51) then 48 else errCorrect in
   writeBytes3 ASCII_GS (chr "(") (chr "k") ;;
   writeBytes4 3 0 49 69 ;;
   writeBytes1 errCorrect) ;;
  writeBytes3 ASCII_GS (chr "(") (chr "k") ;;
  (let len := uint16 (strlen text) in
   writeBytes2 (uint8 (Z.rem (len + 3) 256)) (uint8 (Z.quot (len + 3) 256)) ;;
   writeBytes3 49 80 48 ;;
   for_lt len (fun i => writeBytes1 (char_at text i))) ;;
  reprintQRcode timeoutQR.

Definition setDefault : Op :=
  online ;;
  justify (chr "L") ;;
  inverseOff ;;
  doubleHeightOff ;;
  setLineHeight 30 ;;
  boldOff ;;
  underlineOff ;;
  setBarcodeHeight 50 ;;
  setSize (chr "s") ;;
  setCharset CHARSET_DENMARK1 ;;
  setCodePage CODEPAGE_ISO_8859_1.

Definition begin (heatTime : Z) : Op :=
  wake ;;
  reset ;;
  writeBytes2 ASCII_ESC (chr "7") ;;
  writeBytes3 11 heatTime 40 ;;
  (fun w =>
     if dtrPin (pp w) <? 255
     then (pinMode_pullup (dtrPin (pp w)) ;;
           writeBytes3 ASCII_GS (chr "a") (Z.shiftl 1 5) ;;
           upd (set_dtrEnabled true)) w
     else w) ;;
  upd (set_dotPrintTime 1) ;;
  upd (set_dotFeedTime 1) ;;
  upd (set_maxChunkHeight 255) ;;
  setDefault.

(** ** The operations of the class, as data *)

Inductive op : Type :=
| OsetTimes (p f : Z)
| Owrite (c : Z)
| Obegin (heatTime : Z)
| Oreset
| OsetDefault
| Otest
| OtestPage
| OsetBarcodeHeight (val : Z)
| OprintBarcode (text : list Z) (type : Z)
| OsetPrintMode (mask : Z)
| OunsetPrintMode (mask : Z)
| OwritePrintMode
| Onormal
| OinverseOn | OinverseOff
| OupsideDownOn | OupsideDownOff
| OdoubleHeightOn | OdoubleHeightOff
| OdoubleWidthOn | OdoubleWidthOff
| OstrikeOn | OstrikeOff
| OboldOn | OboldOff
| Ojustify (value : Z)
| Ofeed (x : Z)
| OfeedRows (rows : Z)
| Oflush
| OsetSize (value : Z)
| OunderlineOn (weight : Z)
| OunderlineOff
| OprintBitmap (w h : Z) (bitmap : image) (fromProgMem : bool)
| OdefineBitImage (w h : Z) (bitmap : image)
| OprintDefinedBitImage (mode : Z)
| OdefineNVBitmap (w h : Z) (bitmap : image)
| OdefineNVBitmap2 (w1 h1 : Z) (bitmap1 : image) (w2 h2 : Z) (bitmap2 : image)
| OprintNVBitmap (n mode : Z)
| OprintBitmap_ada (w h : Z) (bitmap : image) (fromProgMem : bool)
| OprintBitmap_ada_stream (w h : Z) (fromStream : source)
| OprintBitmap_ada_header (fromStream : source)
| Ooffline | Oonline
| Osleep
| OsleepAfter (seconds : Z)
| Owake
| OhasPaper
| OsetLineHeight (val : Z)
| OsetMaxChunkHeight (val : Z)
| OsetCharset (val : Z)
| OsetCodePage (val : Z)
| Otab
| OsetCharSpacing (spacing : Z)
| Ocut
| Obeep
| OsetBeep (sec : Z)
| OprintQRcode (text : list Z) (errCorrect moduleSize model timeoutQR : Z)
| OreprintQRcode (timeoutQR : Z).

(** One call; [None] when the call does not return. *)
Definition step (o : op) (w : World) : option World :=
  match o with
  | OsetTimes p f => Some (setTimes p f w)
  | Owrite c => Some (snd (write c w))
  | Obegin heatTime => Some (begin heatTime w)
  | Oreset => Some (reset w)
  | OsetDefault => Some (setDefault w)
  | Otest => Some (test w)
  | OtestPage => Some (testPage w)
  | OsetBarcodeHeight val => Some (setBarcodeHeight val w)
  | OprintBarcode text type => printBarcode text type w
  | OsetPrintMode mask => Some (setPrintMode mask w)
  | OunsetPrintMode mask => Some (unsetPrintMode mask w)
  | OwritePrintMode => Some (writePrintMode w)
  | Onormal => Some (normal w)
  | OinverseOn => Some (inverseOn w)
  | OinverseOff => Some (inverseOff w)
  | OupsideDownOn => Some (upsideDownOn w)
  | OupsideDownOff => Some (upsideDownOff w)
  | OdoubleHeightOn => Some (doubleHeightOn w)
  | OdoubleHeightOff => Some (doubleHeightOff w)
  | OdoubleWidthOn => Some (doubleWidthOn w)
  | OdoubleWidthOff => Some (doubleWidthOff w)
  | OstrikeOn => Some (strikeOn w)
  | OstrikeOff => Some (strikeOff w)
  | OboldOn => Some (boldOn w)
  | OboldOff => Some (boldOff w)
  | Ojustify value => Some (justify value w)
  | Ofeed x => Some (feed x w)
  | OfeedRows rows => Some (feedRows rows w)
  | Oflush => Some (flush w)
  | OsetSize value => Some (setSize value w)
  | OunderlineOn weight => Some (underlineOn weight w)
  | OunderlineOff => Some (underlineOff w)
  | OprintBitmap wi h bitmap fromProgMem =>
      Some (printBitmap wi h bitmap fromProgMem w)
  | OdefineBitImage wi h bitmap => Some (defineBitImage wi h bitmap w)
  | OprintDefinedBitImage mode => Some (printDefinedBitImage mode w)
  | OdefineNVBitmap wi h bitmap => Some (defineNVBitmap wi h bitmap w)
  | OdefineNVBitmap2 w1 h1 bitmap1 w2 h2 bitmap2 =>
      Some (defineNVBitmap2 w1 h1 bitmap1 w2 h2 bitmap2 w)
  | OprintNVBitmap n mode => Some (printNVBitmap n mode w)
  | OprintBitmap_ada wi h bitmap fromProgMem =>
      option_map snd (printBitmap_ada wi h bitmap fromProgMem w)
  | OprintBitmap_ada_stream wi h fromStream =>
      printBitmap_ada_stream wi h fromStream w
  | OprintBitmap_ada_header fromStream => printBitmap_ada_header fromStream w
  | Ooffline => Some (offline w)
  | Oonline => Some (online w)
  | Osleep => Some (sleep w)
  | OsleepAfter seconds => Some (sleepAfter seconds w)
  | Owake => Some (wake w)
  | OhasPaper => Some (snd (hasPaper w))
  | OsetLineHeight val => Some (setLineHeight val w)
  | OsetMaxChunkHeight val => Some (setMaxChunkHeight val w)
  | OsetCharset val => Some (setCharset val w)
  | OsetCodePage val => Some (setCodePage val w)
  | Otab => Some (tab w)
  | OsetCharSpacing spacing => Some (setCharSpacing spacing w)
  | Ocut => Some (cut w)
  | Obeep => Some (beep w)
  | OsetBeep sec => Some (setBeep sec w)
  | OprintQRcode text errCorrect moduleSize model timeoutQR =>
      Some (printQRcode text errCorrect moduleSize model timeoutQR w)
  | OreprintQRcode timeoutQR => Some (reprintQRcode timeoutQR w)
  end.

(** A sequence of calls. *)
Fixpoint run (os : list op) (w : World) : option World :=
  match os with
  | [] => Some w
  | o :: os' =>
      match step o w with
      | Some w' => run os' w'
      | None => None
      end
  end.

(** ** Predicates of the specification *)

(** Every field holds a value of its type. *)
Definition in_range (p : Pos_Printer) : Prop :=
  0 <= printMode p < 256 /\ 0 <= prevByte p < 256 /\
  0 <= column p < 256 /\ 0 <= maxColumn p < 256 /\
  0 <= charHeight p < 256 /\ 0 <= lineSpacing p < 256 /\
  0 <= barcodeHeight p < 256 /\ 0 <= maxChunkHeight p < 256 /\
  0 <= dtrPin p < 256 /\
  0 <= dotPrintTime p < 4294967296 /\ 0 <= dotFeedTime p < 4294967296.

(** The column invariant of the specification. *)
Definition column_inv (p : Pos_Printer) : Prop :=
  0 <= column p <= maxColumn p.

Definition column_invb (p : Pos_Printer) : bool :=
  (0 <=? column p) && (column p <=? maxColumn p).

(** The geometry agrees with the double-height and double-width flags. *)
Definition double_height (p : Pos_Printer) : bool :=
  Z.testbit (printMode p) 4.

Definition double_width (p : Pos_Printer) : bool :=
  Z.testbit (printMode p) 5.

Definition geometry_consistent (p : Pos_Printer) : Prop :=
  charHeight p = (if double_height p then 48 else 24) /\
  maxColumn p = (if double_width p then 16 else 32).

Definition geometry_consistentb (p : Pos_Printer) : bool :=
  (charHeight p =? (if double_height p then 48 else 24)) &&
  (maxColumn p =? (if double_width p then 16 else 32)).

(** Memory filled with zeros, and the world around a printer just
    constructed on pin [dtr]: nothing sent, nothing to receive. *)
Definition zero_printer : Pos_Printer :=
  mkPrinter 0 0 0 0 0 0 0 0 0 false 0 0.

Definition new_world (dtr : Z) : World :=
  mkWorld (Pos_Printer_new zero_printer dtr) [] 0 [].

(** The byte [write] puts on the line for [c]. *)
Definition written_byte (c : Z) : Z :=
  if DENMARK then remap_denmark (uint8 c) else uint8 c.

(** The value of [d] at the end of [write], when it was computed. *)
Definition write_delay (c : Z) (w : World) : option Z := fst (write_run c w).

(** What [hasPaper] logs in a round that finds nothing: a poll, then 100 ms
    of waiting; and [k] such rounds. *)
Definition idle_round : list event := [Avail false; Delay 100].

Fixpoint idle_rounds (k : nat) : list event :=
  match k with
  | O => []
  | S k' => idle_round ++ idle_rounds k'
  end.

(** The state [begin] leaves a printer in that was constructed on pin [dtr]
    in zeroed memory ([begin_ready] below), and a world around it. *)
Definition ready_printer (dtr : Z) : Pos_Printer :=
  mkPrinter 0 ASCII_LF 0 32 24 6 50 255 (uint8 dtr) (uint8 dtr <? 255) 1 1.

Definition ready_world (dtr : Z) : World :=
  mkWorld (ready_printer dtr) [] 0 [].

(** An operation that keeps [maxColumn], and the column within it. *)
Definition keeps_columns (f : Op) : Prop :=
  forall w, maxColumn (pp (f w)) = maxColumn (pp w) /\
            (column_inv (pp w) -> column_inv (pp (f w))).

(** Worlds of the examples below: the slowest dot times [setTimes] takes; a
    line of 20 characters, then double width, then 235 characters more; the
    handshake in use and chunks capped at 5 rows. *)
Definition slowest_world : World :=
  setTimes 4294967295 4294967295 (ready_world 255).

Definition long_line_world : World :=
  print (repeat 65 235)
    (doubleWidthOn (print (repeat 65 20) (ready_world 255))).

Definition handshake_world : World := setMaxChunkHeight 5 (ready_world 2).

Definition black : image := fun _ => 255.



(** The [n] bytes of an image from [bitmap i] on, as they are sent. *)
Definition image_bytes (bitmap : image) (i : Z) (n : nat) : list Z :=
  map (fun k => uint8 (bitmap (i + Z.of_nat k))) (seq 0 n).

(** A 16-bit value from its low and high byte. *)
Definition le16 (lo hi : Z) : Z := lo + 256 * hi.

(** What follows the count byte of FS q for one image: its two sizes, low
    byte first, and [colBytes] rows of [cols] bytes. *)
Definition nv_image_bytes (rowBytes colBytes cols : Z) (bitmap : image)
    : list Z :=
  [uint8 (Z.rem rowBytes 256); uint8 (Z.quot rowBytes 256);
   uint8 (Z.rem colBytes 256); uint8 (Z.quot colBytes 256)]
  ++ image_bytes bitmap 0 (Z.to_nat colBytes * Z.to_nat cols).


(** The step of a loop that may not return. *)
Definition and_then {A : Type} (f : A -> option A) (acc : option A)
    : option A :=
  match acc with
  | Some a => f a
  | None => None
  end.

(** The bodies of the loops over one row: a byte taken from the stream and
    sent, a byte taken and dropped, a byte of the image in memory sent. *)
Definition take_byte (s : source * World) : option (source * World) :=
  let '(src, wd) := s in
  match read_blocking src with
  | Some (c, src) => Some (src, stream_write c wd)
  | None => None
  end.

Definition drop_byte (s : source * World) : option (source * World) :=
  let '(src, wd) := s in
  match read_blocking src with
  | Some (_, src) => Some (src, wd)
  | None => None
  end.


(** One row of [printBitmap_ada]: read from the stream, and read from the
    image [data] holds. *)
Definition stream_row (rowBytes rowBytesClipped : Z) (s : source * World)
    : option (source * World) :=
  and_then (for_lt_opt (rowBytes - rowBytesClipped) (fun _ => drop_byte))
    (for_lt_opt rowBytesClipped (fun _ => take_byte) s).



(** How many bytes a stream still has to give. *)
Definition available (src : source) : nat :=
  length (filter (fun b => 0 <=? b) src).



(** The bytes [print] puts on the line for a text: every character but
    0x13, as [write] sends it. *)
Definition printed (s : list Z) : list Z :=
  map written_byte (filter (fun c => negb (uint8 c =? 0x13)) s).

(** The values the geometry takes: characters 24 or 48 dots high, lines of
    16 or 32 columns. *)
Definition geometry_values (p : Pos_Printer) : Prop :=
  (charHeight p = 24 \/ charHeight p = 48) /\
  (maxColumn p = 16 \/ maxColumn p = 32).

(** An operation that leaves the geometry as it is. *)
Definition keeps_geometry (f : Op) : Prop :=
  forall w, charHeight (pp (f w)) = charHeight (pp w) /\
            maxColumn (pp (f w)) = maxColumn (pp w).

(** How the printer is wired and paced: the handshake pin and whether it is
    in use, the cap on the rows of a chunk, and the two dot times; and the
    calls that assign any of them. *)
Definition wiring (p : Pos_Printer) : Z * bool * Z * Z * Z :=
  (dtrPin p, dtrEnabled p, maxChunkHeight p, dotPrintTime p, dotFeedTime p).

Definition sets_wiring (o : op) : bool :=
  match o with
  | Obegin _ | OsetTimes _ _ | OsetMaxChunkHeight _ => true
  | _ => false
  end.

(** An operation that leaves the wiring as it is. *)
Definition same_wiring (f : Op) : Prop :=
  forall w, wiring (pp (f w)) = wiring (pp w).




(** The calls that assign the geometry without the flags, or the flags
    without the geometry. *)
Definition sets_geometry_alone (o : op) : bool :=
  match o with
  | OsetSize _ | Onormal | Oreset | Obegin _ | OsetDefault => true
  | _ => false
  end.

(** * Properties *)

(** ** Bytes and the log *)

Lemma uint8_range (z : Z) : 0 <= uint8 z < 256.
Proof. unfold uint8. apply Z.mod_pos_bound. lia. Qed.

Lemma uint8_small (z : Z) : 0 <= z < 256 -> uint8 z = z.
Proof. intros H. unfold uint8. apply Z.mod_small. exact H. Qed.

Lemma uint8_idem (z : Z) : uint8 (uint8 z) = uint8 z.
Proof. apply uint8_small, uint8_range. Qed.

Lemma ulong_range (z : Z) : 0 <= ulong z < 4294967296.
Proof. unfold ulong. apply Z.mod_pos_bound. lia. Qed.

Lemma ulong_small (z : Z) : 0 <= z < 4294967296 -> ulong z = z.
Proof. intros H. unfold ulong. apply Z.mod_small. exact H. Qed.

Lemma sent_of_app (l1 l2 : list event) :
  sent_of (l1 ++ l2) = sent_of l1 ++ sent_of l2.
Proof.
  induction l1 as [|e l1 IH]; simpl; [reflexivity|].
  destruct e; simpl; rewrite IH; reflexivity.
Qed.

Lemma sent_stream_write (b : Z) (w : World) :
  sent (stream_write b w) = sent w ++ [uint8 b].
Proof. unfold sent, stream_write, emit. simpl. apply sent_of_app. Qed.

Lemma sent_upd (f : Pos_Printer -> Pos_Printer) (w : World) :
  sent (upd f w) = sent w.
Proof. reflexivity. Qed.

Lemma pp_stream_write (b : Z) (w : World) : pp (stream_write b w) = pp w.
Proof. reflexivity. Qed.

Lemma sent_writeBytes1 (a : Z) (w : World) :
  sent (writeBytes1 a w) = sent w ++ [uint8 a].
Proof. apply sent_stream_write. Qed.

Lemma sent_writeBytes2 (a b : Z) (w : World) :
  sent (writeBytes2 a b w) = sent w ++ [uint8 a; uint8 b].
Proof.
  unfold writeBytes2, seq_op. rewrite !sent_stream_write, <- !app_assoc.
  reflexivity.
Qed.

Lemma sent_writeBytes3 (a b c : Z) (w : World) :
  sent (writeBytes3 a b c w) = sent w ++ [uint8 a; uint8 b; uint8 c].
Proof.
  unfold writeBytes3, seq_op. rewrite !sent_stream_write, <- !app_assoc.
  reflexivity.
Qed.

Lemma sent_writeBytes4 (a b c d : Z) (w : World) :
  sent (writeBytes4 a b c d w)
  = sent w ++ [uint8 a; uint8 b; uint8 c; uint8 d].
Proof.
  unfold writeBytes4, seq_op. rewrite !sent_stream_write, <- !app_assoc.
  reflexivity.
Qed.

Lemma pp_writeBytes3 (a b c : Z) (w : World) : pp (writeBytes3 a b c w) = pp w.
Proof. reflexivity. Qed.

(** A loop that writes one byte per round. *)
Lemma sent_for_lt_write (f : Z -> Z) (n : Z) (w : World) :
  sent (for_lt n (fun i => writeBytes1 (f i)) w)
  = sent w ++ map (fun i => uint8 (f (Z.of_nat i))) (seq 0 (Z.to_nat n)).
Proof.
  unfold for_lt. generalize (seq 0 (Z.to_nat n)) as l. intros l. revert w.
  induction l as [|i l IH]; intros w; simpl.
  - symmetry. apply app_nil_r.
  - rewrite IH, sent_writeBytes1, <- app_assoc. reflexivity.
Qed.

Lemma pp_for_lt_write (f : Z -> Z) (n : Z) (w : World) :
  pp (for_lt n (fun i => writeBytes1 (f i)) w) = pp w.
Proof.
  unfold for_lt. generalize (seq 0 (Z.to_nat n)) as l. intros l. revert w.
  induction l as [|i l IH]; intros w; simpl; [reflexivity|].
  rewrite IH. reflexivity.
Qed.

(** ** The character write path *)

Lemma substitute_range (c k t : Z) :
  0 <= t < 256 -> 0 <= c < 256 -> 0 <= (if c =? k then t else c) < 256.
Proof. intros Ht Hc. destruct (c =? k); assumption. Qed.

Lemma remap_denmark_range (c : Z) :
  0 <= c < 256 -> 0 <= remap_denmark c < 256.
Proof.
  intros H. unfold remap_denmark. cbv zeta.
  repeat (apply substitute_range; [vm_compute; split; [discriminate | reflexivity]|]).
  exact H.
Qed.

Lemma written_byte_range (c : Z) : 0 <= written_byte c < 256.
Proof.
  unfold written_byte. destruct DENMARK.
  - apply remap_denmark_range, uint8_range.
  - apply uint8_range.
Qed.

Lemma write_run_unfold (c : Z) (w : World) :
  (uint8 c =? 0x13) = false ->
  write_run c w =
  (let b := written_byte c in
   let p := pp w in
   if (b =? ASCII_LF) || (column p =? maxColumn p)
   then (Some (ulong (BYTE_TIME + settle_time p)),
         upd (set_prevByte ASCII_LF) (upd (set_column 0) (stream_write b w)))
   else (Some BYTE_TIME,
         upd (set_prevByte b)
           (upd (set_column (column p + 1)) (stream_write b w)))).
Proof.
  intros H. unfold write_run, write_block, written_byte. rewrite H. simpl.
  destruct ((if DENMARK then remap_denmark (uint8 c) else uint8 c) =? ASCII_LF);
    simpl; [reflexivity|].
  destruct (column (pp w) =? maxColumn (pp w)); reflexivity.
Qed.

(** The accounting of [write].  For a byte other than 0x13, [write] sends
    the byte, computes one byte time, and on a line feed or at [column ==
    maxColumn] adds the settle time, [(charHeight + lineSpacing) *
    dotFeedTime] after a newline and [charHeight * dotPrintTime + lineSpacing
    * dotFeedTime] otherwise, sets the column to 0 and records a newline;
    in every other case the column goes up by one and the byte is recorded.
    The delay is an [unsigned long] and the column a byte: the sums and
    products are taken modulo 2^32 and the increment modulo 256. *)
Lemma write_accounting (c : Z) (w : World) :
  uint8 c <> 0x13 ->
  let b := written_byte c in
  let p := pp w in
  let w' := snd (write c w) in
  fst (write c w) = 1 /\
  sent w' = sent w ++ [b] /\
  if (b =? ASCII_LF) || (column p =? maxColumn p)
  then
    write_delay c w =
      Some (ulong (BYTE_TIME +
                   (if prevByte p =? ASCII_LF
                    then ulong ((charHeight p + lineSpacing p) * dotFeedTime p)
                    else ulong (ulong (charHeight p * dotPrintTime p)
                                + ulong (lineSpacing p * dotFeedTime p)))))
    /\ column (pp w') = 0
    /\ prevByte (pp w') = ASCII_LF
    /\ pp w' = set_prevByte ASCII_LF (set_column 0 p)
  else
    write_delay c w = Some BYTE_TIME
    /\ column (pp w') = uint8 (column p + 1)
    /\ prevByte (pp w') = b
    /\ pp w' = set_prevByte b (set_column (column p + 1) p).
Proof.
  intros Hc b p w'.
  assert (E : (uint8 c =? 0x13) = false) by (apply Z.eqb_neq; exact Hc).
  pose proof (write_run_unfold c w E) as R. cbv zeta in R. fold b p in R.
  subst w'. unfold write, write_delay. simpl fst at 1. simpl snd.
  split; [reflexivity|].
  destruct ((b =? ASCII_LF) || (column p =? maxColumn p)); rewrite R;
    cbn [fst snd]; rewrite !sent_upd, sent_stream_write,
      (uint8_small b) by apply written_byte_range.
  - repeat split.
  - repeat split. simpl. apply uint8_small, written_byte_range.
Qed.

(** Where nothing wraps the values are those of plain arithmetic. *)
Lemma write_accounting_exact (c : Z) (w : World) :
  uint8 c <> 0x13 ->
  in_range (pp w) ->
  let b := written_byte c in
  let p := pp w in
  if (b =? ASCII_LF) || (column p =? maxColumn p)
  then
    BYTE_TIME + (charHeight p + lineSpacing p) * dotFeedTime p < 4294967296 ->
    BYTE_TIME + charHeight p * dotPrintTime p + lineSpacing p * dotFeedTime p
      < 4294967296 ->
    write_delay c w =
      Some (BYTE_TIME +
            (if prevByte p =? ASCII_LF
             then (charHeight p + lineSpacing p) * dotFeedTime p
             else charHeight p * dotPrintTime p + lineSpacing p * dotFeedTime p))
  else
    column p < 255 ->
    column (pp (snd (write c w))) = column p + 1.
Proof.
  intros Hc R b p.
  assert (E : (uint8 c =? 0x13) = false) by (apply Z.eqb_neq; exact Hc).
  pose proof (write_run_unfold c w E) as U. cbv zeta in U. fold b p in U.
  unfold write_delay, write. simpl snd.
  destruct R as (_ & _ & Rc & _ & Rh & Rl & _ & _ & _ & Rp & Rf).
  fold p in Rc, Rh, Rl, Rp, Rf.
  assert (BT : BYTE_TIME = 573) by reflexivity.
  destruct ((b =? ASCII_LF) || (column p =? maxColumn p)); rewrite U;
    cbn [fst snd].
  - intros B1 B2. unfold settle_time. fold p. rewrite BT in *.
    assert (P1 : 0 <= (charHeight p + lineSpacing p) * dotFeedTime p)
      by (apply Z.mul_nonneg_nonneg; lia).
    assert (P2 : 0 <= charHeight p * dotPrintTime p)
      by (apply Z.mul_nonneg_nonneg; lia).
    assert (P3 : 0 <= lineSpacing p * dotFeedTime p)
      by (apply Z.mul_nonneg_nonneg; lia).
    destruct (prevByte p =? ASCII_LF).
    + rewrite (ulong_small ((charHeight p + lineSpacing p) * dotFeedTime p))
        by lia.
      rewrite ulong_small by lia. reflexivity.
    + rewrite (ulong_small (charHeight p * dotPrintTime p)) by lia.
      rewrite (ulong_small (lineSpacing p * dotFeedTime p)) by lia.
      rewrite (ulong_small (charHeight p * dotPrintTime p + _)) by lia.
      rewrite ulong_small by lia. reflexivity.
  - intros B. unfold upd, set_prevByte, set_column; cbn [pp column].
    apply uint8_small. lia.
Qed.

(** C5, on the code: a carriage return (0x0D) is not stripped.  It is sent,
    and it is counted as a printed column or as a wrap. *)
Theorem write_carriage_return_sent (w : World) :
  let w' := snd (write ASCII_CR w) in
  sent w' = sent w ++ [ASCII_CR] /\
  write_delay ASCII_CR w <> None /\
  (column (pp w) <> maxColumn (pp w) ->
   column (pp w') = uint8 (column (pp w) + 1) /\ prevByte (pp w') = ASCII_CR).
Proof.
  intros w'.
  assert (E : (uint8 ASCII_CR =? 0x13) = false) by reflexivity.
  pose proof (write_run_unfold ASCII_CR w E) as U. cbv zeta in U.
  assert (B : written_byte ASCII_CR = ASCII_CR).
  { unfold written_byte. destruct DENMARK; reflexivity. }
  rewrite B in U. subst w'. unfold write, write_delay. simpl snd.
  change (ASCII_CR =? ASCII_LF) with false in U. simpl orb in U.
  destruct (column (pp w) =? maxColumn (pp w)) eqn:Ec; rewrite U;
    cbn [fst snd]; rewrite !sent_upd, sent_stream_write.
  - split; [reflexivity|]. split; [discriminate|].
    intros N. apply Z.eqb_eq in Ec. contradiction.
  - split; [reflexivity|]. split; [discriminate|].
    intros _. split; reflexivity.
Qed.

(** The byte the test of [write] lets through nothing for is 0x13 (DC3). *)
Lemma write_dc3_stripped (w : World) :
  write 0x13 w = (1, w) /\ write_delay 0x13 w = None.
Proof. split; reflexivity. Qed.

(** C1, on the code: the delay is computed and dropped.  For a byte that
    passes its test [write] works out in its local [d] the time the claim
    states, one byte time and, on a line feed or at [column == maxColumn],
    the settle time, and does nothing with it.  The call returns 1; it waits
    for nothing and logs nothing but the byte; of the object it changes the
    column and the previous byte; and the world it leaves is the same
    whatever the dot times are that the settle time is made of. *)
Theorem write_delay_dropped (c : Z) (w : World) :
  let b := written_byte c in
  let p := pp w in
  let newline := (b =? ASCII_LF) || (column p =? maxColumn p) in
  (uint8 c <> 0x13 ->
   write_delay c w
   = Some (if newline
           then ulong (BYTE_TIME
                       + (if prevByte p =? ASCII_LF
                          then ulong ((charHeight p + lineSpacing p)
                                      * dotFeedTime p)
                          else ulong (ulong (charHeight p * dotPrintTime p)
                                      + ulong (lineSpacing p * dotFeedTime p))))
           else BYTE_TIME)) /\
  BYTE_TIME = 573 /\
  fst (write c w) = 1 /\
  clock (snd (write c w)) = clock w /\
  incoming (snd (write c w)) = incoming w /\
  log (snd (write c w))
  = log w ++ (if uint8 c =? 0x13 then [] else [Tx b]) /\
  (uint8 c <> 0x13 ->
   pp (snd (write c w))
   = if newline then set_prevByte ASCII_LF (set_column 0 p)
     else set_prevByte b (set_column (column p + 1) p)) /\
  (forall dp df,
     snd (write c (setTimes dp df w)) = setTimes dp df (snd (write c w))).
Proof.
  intros b p newline.
  assert (U : uint8 b = b) by apply uint8_small, written_byte_range.
  destruct (uint8 c =? 0x13) eqn:E.
  - assert (W : forall w0, write c w0 = (1, w0)).
    { intros w0. unfold write, write_run. rewrite E. reflexivity. }
    apply Z.eqb_eq in E.
    split; [intros N; contradiction|]. split; [reflexivity|].
    rewrite !W. cbn [fst snd]. rewrite app_nil_r.
    repeat (split; [reflexivity|]).
    split; [intros N; contradiction|]. intros dp df. rewrite W. reflexivity.
  - assert (R : forall w0,
               write c w0
               = (1, snd (let p0 := pp w0 in
                          if (b =? ASCII_LF) || (column p0 =? maxColumn p0)
                          then (Some (ulong (BYTE_TIME + settle_time p0)),
                                upd (set_prevByte ASCII_LF)
                                  (upd (set_column 0) (stream_write b w0)))
                          else (Some BYTE_TIME,
                                upd (set_prevByte b)
                                  (upd (set_column (column p0 + 1))
                                     (stream_write b w0)))))).
    { intros w0. unfold write. rewrite (write_run_unfold c w0 E).
      reflexivity. }
    split.
    { intros _. unfold write_delay. rewrite (write_run_unfold c w E).
      cbv zeta. fold b p newline. destruct newline; reflexivity. }
    split; [reflexivity|].
    rewrite !R. cbv zeta. cbn [fst snd]. fold p newline.
    split; [reflexivity|].
    split; [destruct newline; reflexivity|].
    split; [destruct newline; reflexivity|].
    split.
    { destruct newline; cbn [snd upd log stream_write emit]; rewrite U;
        reflexivity. }
    split.
    { intros _. destruct newline; reflexivity. }
    intros dp df. rewrite R. cbv zeta. cbn [snd].
    change (column (pp (setTimes dp df w))) with (column p).
    change (maxColumn (pp (setTimes dp df w))) with (maxColumn p).
    fold newline. destruct newline; reflexivity.
Qed.

(** ** Parameters out of range *)

(** C10.  A character whose upper-case form is none of L, C and R is taken
    for L: [justify] sends ESC a 0, as [justify('L')] does. *)
Theorem justify_unrecognised (value : Z) (w : World) :
  toupper value <> chr "L" ->
  toupper value <> chr "C" ->
  toupper value <> chr "R" ->
  justify value w = justify (chr "L") w /\
  sent (justify value w) = sent w ++ [ASCII_ESC; chr "a"; 0].
Proof.
  intros HL HC HR. unfold justify.
  apply Z.eqb_neq in HL, HC, HR. rewrite HL, HC, HR.
  split; [reflexivity|]. apply sent_writeBytes3.
Qed.

(** Replace [uint8 k], [k] a literal, by its value. *)
Ltac eval_bytes :=
  repeat match goal with
         | |- context [uint8 ?k] =>
             lazymatch k with
             | Z0 => idtac
             | Zpos _ => idtac
             | chr _ => idtac
             | ASCII_GS => idtac
             | ASCII_ESC => idtac
             end;
             let v := eval vm_compute in (uint8 k) in
             change (uint8 k) with v
         end.

Lemma uint8_if (b : bool) (k x : Z) :
  0 <= k < 256 ->
  uint8 (if b then k else uint8 x) = if b then k else uint8 x.
Proof. intros H. destruct b; [apply uint8_small, H | apply uint8_idem]. Qed.

(** The bytes of [printQRcode], command by command. *)
Lemma sent_printQRcode (text : list Z) (errCorrect moduleSize model timeoutQR : Z)
    (w : World) :
  sent (printQRcode text errCorrect moduleSize model timeoutQR w)
  = sent w
    ++ [29; 40; 107; 4; 0; 49; 65;
        if (uint8 model <? 49) || (uint8 model >? 51) then 50 else uint8 model]
    ++ [0]
    ++ [29; 40; 107; 3; 0; 49; 67;
        if (uint8 moduleSize <? 1) || (uint8 moduleSize >? 16)
        then 3 else uint8 moduleSize]
    ++ [29; 40; 107; 3; 0; 49; 69;
        if (uint8 errCorrect <? 48) || (uint8 errCorrect >? 51)
        then 48 else uint8 errCorrect]
    ++ [29; 40; 107;
        uint8 (Z.rem (uint16 (strlen text) + 3) 256);
        uint8 (Z.quot (uint16 (strlen text) + 3) 256);
        49; 80; 48]
    ++ map (fun i => uint8 (char_at text (Z.of_nat i)))
         (seq 0 (Z.to_nat (uint16 (strlen text))))
    ++ [29; 40; 107; 3; 0; 49; 81; 48].
Proof.
  unfold printQRcode, reprintQRcode, seq_op.
  rewrite sent_upd.
  repeat first [ rewrite sent_writeBytes4 | rewrite sent_writeBytes3
               | rewrite sent_writeBytes2 | rewrite sent_writeBytes1
               | rewrite sent_for_lt_write ].
  rewrite <- !app_assoc. cbn [app].
  rewrite !uint8_if by (split; [discriminate | reflexivity]).
  rewrite !uint8_idem. eval_bytes. reflexivity.
Qed.

(** C6.  An underline weight above 2 is taken for 2, a barcode height of 0
    for 1, and an error-correction level outside 48..51 for 48: the bytes
    sent and the state reached are those of the call with the clamped value,
    and the error-correction command of the QR code carries 48.  The methods
    return nothing: no error is reported. *)
Theorem clamped_parameters (weight errCorrect : Z) (text : list Z)
    (moduleSize model timeoutQR : Z) (w : World) :
  2 < weight < 256 ->
  0 <= errCorrect < 256 ->
  ~ (48 <= errCorrect <= 51) ->
  underlineOn weight w = underlineOn 2 w /\
  setBarcodeHeight 0 w = setBarcodeHeight 1 w /\
  printQRcode text errCorrect moduleSize model timeoutQR w
  = printQRcode text 48 moduleSize model timeoutQR w /\
  exists before after,
    sent (printQRcode text errCorrect moduleSize model timeoutQR w)
    = sent w ++ before ++ [29; 40; 107; 3; 0; 49; 69; 48] ++ after /\
    length before = 17%nat.
Proof.
  intros Hw He Hn. split; [|split; [|split]].
  - unfold underlineOn. rewrite (uint8_small weight) by lia.
    replace (weight >? 2) with true by (symmetry; apply Z.gtb_lt; lia).
    reflexivity.
  - reflexivity.
  - unfold printQRcode. rewrite (uint8_small errCorrect) by lia.
    replace ((errCorrect <? 48) || (errCorrect >? 51)) with true; [reflexivity|].
    symmetry. apply orb_true_iff.
    destruct (Z.ltb_spec errCorrect 48); [left; reflexivity|].
    right. apply Z.gtb_lt. lia.
  - rewrite sent_printQRcode. rewrite (uint8_small errCorrect) by lia.
    replace ((errCorrect <? 48) || (errCorrect >? 51)) with true.
    + exists [29; 40; 107; 4; 0; 49; 65;
              if (uint8 model <? 49) || (uint8 model >? 51)
              then 50 else uint8 model;
              0; 29; 40; 107; 3; 0; 49; 67;
              if (uint8 moduleSize <? 1) || (uint8 moduleSize >? 16)
              then 3 else uint8 moduleSize].
      exists ([29; 40; 107;
               uint8 (Z.rem (uint16 (strlen text) + 3) 256);
               uint8 (Z.quot (uint16 (strlen text) + 3) 256);
               49; 80; 48]
              ++ map (fun i => uint8 (char_at text (Z.of_nat i)))
                   (seq 0 (Z.to_nat (uint16 (strlen text))))
              ++ [29; 40; 107; 3; 0; 49; 81; 48]).
      split; [cbn [app]; reflexivity | reflexivity].
    + symmetry. apply orb_true_iff.
      destruct (Z.ltb_spec errCorrect 48); [left; reflexivity|].
      right. apply Z.gtb_lt. lia.
Qed.

(** C7, as far as the code clamps.  Below 24 the line height becomes 24;
    up to 255 the value sent is the clamped one, within 24..255, and the line
    spacing is that value less 24. *)
Theorem setLineHeight_encoding (val : Z) (w : World) :
  val <= 255 ->
  let v := if val <? 24 then 24 else val in
  24 <= v <= 255 /\
  sent (setLineHeight val w) = sent w ++ [ASCII_ESC; chr "3"; v] /\
  lineSpacing (pp (setLineHeight val w)) = v - 24.
Proof.
  intros H v.
  assert (R : 24 <= v <= 255).
  { subst v. destruct (Z.ltb_spec val 24); lia. }
  split; [exact R|]. unfold setLineHeight, seq_op. fold v. split.
  - rewrite sent_writeBytes3, sent_upd, (uint8_small v) by lia. reflexivity.
  - rewrite pp_writeBytes3. unfold upd, set_lineSpacing. cbn [pp lineSpacing].
    apply uint8_small. lia.
Qed.

(** C9.  [sleep] is [sleepAfter(1)]: the seconds it sends are 1, low byte
    first, never 0. *)
Theorem sleep_never_zero (w : World) :
  sleep w = sleepAfter 1 w /\
  sent (sleep w)
  = sent w ++ (if 264 <=? PRINTER_FIRMWARE
               then [ASCII_ESC; chr "8"; 1; 0]
               else [ASCII_ESC; chr "8"; 1]).
Proof.
  split; [reflexivity|]. unfold sleep, sleepAfter.
  destruct (264 <=? PRINTER_FIRMWARE).
  - apply sent_writeBytes4.
  - apply sent_writeBytes3.
Qed.

(** ** The paper status poll *)

(** No byte in time for any of the [n] rounds: [n] idle rounds, status -1. *)
Lemma hasPaper_poll_miss (n : nat) (w : World) :
  match incoming w with
  | (t, _) :: _ => clock w + 100 * Z.of_nat n - 100 < t
  | [] => True
  end ->
  hasPaper_poll n w
  = (-1, mkWorld (pp w) (log w ++ idle_rounds n)
           (clock w + 100 * Z.of_nat n) (incoming w)).
Proof.
  revert w. induction n as [|n IH]; intros w H.
  - simpl. rewrite app_nil_r, Z.add_0_r. destruct w; reflexivity.
  - cbn [hasPaper_poll]. unfold stream_available.
    assert (A : match incoming w with
                | (t, _) :: _ => t <=? clock w
                | [] => false
                end = false).
    { destruct (incoming w) as [|[t b] rest]; [reflexivity|].
      apply Z.leb_gt. lia. }
    rewrite A. rewrite IH.
    + unfold delay, emit. cbn [pp log clock incoming].
      f_equal. f_equal.
      * rewrite <- !app_assoc. reflexivity.
      * lia.
    + unfold delay, emit. cbn [pp log clock incoming].
      destruct (incoming w) as [|[t b] rest]; [exact I|]. lia.
Qed.

(** A byte in time for one of [n + 1] rounds: some idle rounds, at most [n],
    then the poll that finds it and the read that takes it. *)
Lemma hasPaper_poll_hit (n : nat) (w : World) (t b : Z) (rest : list (Z * Z)) :
  incoming w = (t, b) :: rest ->
  t <= clock w + 100 * Z.of_nat n ->
  exists k, (k <= n)%nat /\
    hasPaper_poll (S n) w
    = (b, mkWorld (pp w) (log w ++ idle_rounds k ++ [Avail true; Rx b])
            (clock w + 100 * Z.of_nat k) rest).
Proof.
  revert w. induction n as [|n IH]; intros w Hi Ht.
  - exists 0%nat. split; [lia|].
    cbn [hasPaper_poll]. unfold stream_available. rewrite Hi.
    replace (t <=? clock w) with true by (symmetry; apply Z.leb_le; lia).
    unfold stream_read, emit. cbn [pp log clock incoming]. rewrite Hi.
    replace (t <=? clock w) with true by (symmetry; apply Z.leb_le; lia).
    cbn [idle_rounds app]. rewrite <- app_assoc, Z.add_0_r. reflexivity.
  - remember (S n) as m eqn:Em.
    cbn [hasPaper_poll]. unfold stream_available. rewrite Hi.
    destruct (t <=? clock w) eqn:E.
    + exists 0%nat. split; [lia|].
      unfold stream_read, emit. cbn [pp log clock incoming]. rewrite Hi, E.
      cbn [idle_rounds app]. rewrite <- app_assoc, Z.add_0_r. reflexivity.
    + apply Z.leb_gt in E. subst m.
      destruct (IH (delay 100 (emit (Avail false) w))) as (k & Hk & R).
      * exact Hi.
      * unfold delay, emit. cbn [pp log clock incoming]. lia.
      * exists (S k). split; [lia|]. rewrite R.
        unfold delay, emit. cbn [pp log clock incoming].
        f_equal. f_equal.
        -- cbn [idle_rounds]. unfold idle_round.
           rewrite <- !app_assoc. reflexivity.
        -- lia.
Qed.


(** ** Print mode and geometry *)

Lemma land_pow2 (x n : Z) :
  0 <= n -> Z.land x (2 ^ n) = if Z.testbit x n then 2 ^ n else 0.
Proof.
  intros Hn. apply Z.bits_inj'. intros m Hm.
  rewrite Z.land_spec, Z.pow2_bits_eqb by exact Hn.
  destruct (Z.eqb_spec n m) as [->|Hne].
  - rewrite andb_true_r. destruct (Z.testbit x m) eqn:E.
    + rewrite Z.pow2_bits_true by exact Hm. reflexivity.
    + rewrite Z.bits_0. reflexivity.
  - rewrite andb_false_r. destruct (Z.testbit x n).
    + rewrite Z.pow2_bits_false by lia. reflexivity.
    + rewrite Z.bits_0. reflexivity.
Qed.

Lemma height_test (x : Z) :
  negb (Z.land x DOUBLE_HEIGHT_MASK =? 0) = Z.testbit x 4.
Proof.
  change DOUBLE_HEIGHT_MASK with (2 ^ 4). rewrite land_pow2 by lia.
  destruct (Z.testbit x 4); reflexivity.
Qed.

Lemma width_test (x : Z) :
  negb (Z.land x DOUBLE_WIDTH_MASK =? 0) = Z.testbit x 5.
Proof.
  change DOUBLE_WIDTH_MASK with (2 ^ 5). rewrite land_pow2 by lia.
  destruct (Z.testbit x 5); reflexivity.
Qed.

Lemma uint8_testbit (x n : Z) :
  0 <= n < 8 -> Z.testbit (uint8 x) n = Z.testbit x n.
Proof.
  intros H. unfold uint8. change 256 with (2 ^ 8).
  apply Z.mod_pow2_bits_low. lia.
Qed.

(** What [update_geometry] leaves, in terms of the flags. *)
Lemma update_geometry_pp (w : World) :
  pp (update_geometry w)
  = set_maxColumn (if double_width (pp w) then 16 else 32)
      (set_charHeight (if double_height (pp w) then 48 else 24) (pp w)).
Proof.
  unfold update_geometry, seq_op, upd. cbn [pp printMode set_charHeight].
  rewrite height_test, width_test. reflexivity.
Qed.

Lemma update_geometry_consistent (w : World) :
  geometry_consistent (pp (update_geometry w)).
Proof.
  rewrite update_geometry_pp. unfold geometry_consistent, double_height,
    double_width, set_maxColumn, set_charHeight.
  cbn [charHeight maxColumn printMode].
  destruct (Z.testbit (printMode (pp w)) 4), (Z.testbit (printMode (pp w)) 5);
    split; reflexivity.
Qed.

Lemma setPrintMode_pp (mask : Z) (w : World) :
  pp (setPrintMode mask w)
  = pp (update_geometry
          (upd (set_printMode (Z.lor (printMode (pp w)) (uint8 mask))) w)).
Proof. reflexivity. Qed.

Lemma unsetPrintMode_pp (mask : Z) (w : World) :
  pp (unsetPrintMode mask w)
  = pp (update_geometry
          (upd (set_printMode
                  (Z.land (printMode (pp w)) (Z.lnot (uint8 mask)))) w)).
Proof. reflexivity. Qed.

(** In a consistent state [update_geometry] changes nothing. *)
Lemma update_geometry_fixed (w : World) :
  geometry_consistent (pp w) -> pp (update_geometry w) = pp w.
Proof.
  intros [Hh Hw]. rewrite update_geometry_pp.
  unfold set_maxColumn, set_charHeight. cbn [printMode prevByte column maxColumn
    charHeight lineSpacing barcodeHeight maxChunkHeight dtrPin dtrEnabled
    dotPrintTime dotFeedTime].
  rewrite <- Hh, <- Hw.
  assert (E1 : uint8 (charHeight (pp w)) = charHeight (pp w)).
  { rewrite Hh. destruct (double_height (pp w)); reflexivity. }
  assert (E2 : uint8 (maxColumn (pp w)) = maxColumn (pp w)).
  { rewrite Hw. destruct (double_width (pp w)); reflexivity. }
  rewrite E1, E2. destruct (pp w); reflexivity.
Qed.

Lemma lor_absorb (a m : Z) : Z.land a m = m -> Z.lor a m = a.
Proof.
  intros H. apply Z.bits_inj'. intros i Hi.
  rewrite Z.lor_spec, <- H, Z.land_spec.
  destruct (Z.testbit a i), (Z.testbit m i); reflexivity.
Qed.

Lemma land_lnot_absorb (a m : Z) : Z.land a m = 0 -> Z.land a (Z.lnot m) = a.
Proof.
  intros H. apply Z.bits_inj'. intros i Hi.
  assert (B : Z.testbit (Z.land a m) i = false) by (rewrite H; apply Z.bits_0).
  rewrite Z.land_spec in B.
  rewrite Z.land_spec, Z.lnot_spec by exact Hi.
  destruct (Z.testbit a i), (Z.testbit m i); try reflexivity; discriminate.
Qed.

Lemma upd_set_printMode_same (w : World) :
  0 <= printMode (pp w) < 256 ->
  pp (upd (set_printMode (printMode (pp w))) w) = pp w.
Proof.
  intros H. unfold upd, set_printMode. cbn [pp].
  rewrite uint8_small by exact H. destruct (pp w); reflexivity.
Qed.

Lemma update_geometry_congr (w1 w2 : World) :
  pp w1 = pp w2 -> pp (update_geometry w1) = pp (update_geometry w2).
Proof. intros H. rewrite !update_geometry_pp, H. reflexivity. Qed.

Lemma setPrintMode_already_set (mask : Z) (w : World) :
  0 <= printMode (pp w) < 256 ->
  geometry_consistent (pp w) ->
  Z.land (printMode (pp w)) (uint8 mask) = uint8 mask ->
  pp (setPrintMode mask w) = pp w.
Proof.
  intros R G H. rewrite setPrintMode_pp, (lor_absorb _ _ H).
  rewrite (update_geometry_congr _ w (upd_set_printMode_same w R)).
  apply update_geometry_fixed, G.
Qed.

Lemma unsetPrintMode_already_clear (mask : Z) (w : World) :
  0 <= printMode (pp w) < 256 ->
  geometry_consistent (pp w) ->
  Z.land (printMode (pp w)) (uint8 mask) = 0 ->
  pp (unsetPrintMode mask w) = pp w.
Proof.
  intros R G H. rewrite unsetPrintMode_pp, (land_lnot_absorb _ _ H).
  rewrite (update_geometry_congr _ w (upd_set_printMode_same w R)).
  apply update_geometry_fixed, G.
Qed.

Lemma uint8_testbit_high (x n : Z) : 8 <= n -> Z.testbit (uint8 x) n = false.
Proof.
  intros H. unfold uint8. change 256 with (2 ^ 8).
  apply Z.mod_pow2_bits_high. lia.
Qed.

Lemma printMode_setPrintMode (mask : Z) (w : World) :
  printMode (pp (setPrintMode mask w))
  = uint8 (Z.lor (printMode (pp w)) (uint8 mask)).
Proof. rewrite setPrintMode_pp, update_geometry_pp. reflexivity. Qed.

Lemma printMode_unsetPrintMode (mask : Z) (w : World) :
  printMode (pp (unsetPrintMode mask w))
  = uint8 (Z.land (printMode (pp w)) (Z.lnot (uint8 mask))).
Proof. rewrite unsetPrintMode_pp, update_geometry_pp. reflexivity. Qed.

Lemma setPrintMode_consistent (mask : Z) (w : World) :
  geometry_consistent (pp (setPrintMode mask w)).
Proof. rewrite setPrintMode_pp. apply update_geometry_consistent. Qed.

Lemma unsetPrintMode_consistent (mask : Z) (w : World) :
  geometry_consistent (pp (unsetPrintMode mask w)).
Proof. rewrite unsetPrintMode_pp. apply update_geometry_consistent. Qed.

(** The flag calls and [setSize].  After [setPrintMode] and
    [unsetPrintMode], which every flag operation goes through, [charHeight]
    is 48 exactly when the double-height flag is set (24 otherwise) and
    [maxColumn] is 16 exactly when the double-width flag is set (32
    otherwise); the call sets, or clears, the flags of its mask and keeps the
    others; calling it again, or calling it on flags already as asked in a
    consistent state, leaves the print state as it is.  [setSize] keeps the
    flags and sets the geometry from its argument alone. *)
Lemma flag_calls_geometry (mask value : Z) (w : World) :
  0 <= printMode (pp w) < 256 ->
  let s := pp (setPrintMode mask w) in
  let u := pp (unsetPrintMode mask w) in
  let z := pp (setSize value w) in
  (geometry_consistent s /\ geometry_consistent u) /\
  (forall n, 0 <= n < 8 ->
     Z.testbit (printMode s) n
     = Z.testbit (printMode (pp w)) n || Z.testbit (uint8 mask) n) /\
  (forall n, 0 <= n < 8 ->
     Z.testbit (printMode u) n
     = Z.testbit (printMode (pp w)) n && negb (Z.testbit (uint8 mask) n)) /\
  (pp (setPrintMode mask (setPrintMode mask w)) = s /\
   pp (unsetPrintMode mask (unsetPrintMode mask w)) = u) /\
  (geometry_consistent (pp w) ->
   (Z.land (printMode (pp w)) (uint8 mask) = uint8 mask -> s = pp w) /\
   (Z.land (printMode (pp w)) (uint8 mask) = 0 -> u = pp w)) /\
  (printMode z = printMode (pp w) /\
   charHeight z
   = (if (toupper value =? chr "M") || (toupper value =? chr "L")
      then 48 else 24) /\
   maxColumn z = (if toupper value =? chr "L" then 16 else 32)).
Proof.
  intros R s u z. subst s u z.
  split; [split; [apply setPrintMode_consistent
                 | apply unsetPrintMode_consistent]|].
  split.
  { intros n Hn. rewrite printMode_setPrintMode, uint8_testbit by exact Hn.
    apply Z.lor_spec. }
  split.
  { intros n Hn. rewrite printMode_unsetPrintMode, uint8_testbit by exact Hn.
    rewrite Z.land_spec, Z.lnot_spec by lia. reflexivity. }
  split.
  { split.
    - apply setPrintMode_already_set.
      + rewrite printMode_setPrintMode. apply uint8_range.
      + apply setPrintMode_consistent.
      + rewrite printMode_setPrintMode. apply Z.bits_inj'. intros i Hi.
        rewrite Z.land_spec. destruct (Z.lt_ge_cases i 8) as [Hlo|Hhi].
        * rewrite (uint8_testbit (Z.lor _ _)), Z.lor_spec by lia.
          destruct (Z.testbit (printMode (pp w)) i),
            (Z.testbit (uint8 mask) i); reflexivity.
        * rewrite (uint8_testbit_high mask) by exact Hhi.
          apply andb_false_r.
    - apply unsetPrintMode_already_clear.
      + rewrite printMode_unsetPrintMode. apply uint8_range.
      + apply unsetPrintMode_consistent.
      + rewrite printMode_unsetPrintMode. apply Z.bits_inj'. intros i Hi.
        rewrite Z.land_spec, Z.bits_0.
        destruct (Z.lt_ge_cases i 8) as [Hlo|Hhi].
        * rewrite (uint8_testbit (Z.land _ _)), Z.land_spec, Z.lnot_spec by lia.
          destruct (Z.testbit (printMode (pp w)) i),
            (Z.testbit (uint8 mask) i); reflexivity.
        * rewrite (uint8_testbit_high mask) by exact Hhi.
          apply andb_false_r. }
  split.
  { intros G. split; intros H.
    - apply setPrintMode_already_set; assumption.
    - apply unsetPrintMode_already_clear; assumption. }
  unfold setSize.
  destruct (toupper value =? chr "M") eqn:EM.
  - apply Z.eqb_eq in EM. rewrite EM. repeat split.
  - destruct (toupper value =? chr "L"); repeat split.
Qed.

(** ** What the loops leave of the print state *)

Lemma for_lt_with_inv {A : Type} (P : A * World -> Prop) (n : Z)
    (body : Z -> A * World -> A * World) (s : A * World) :
  P s -> (forall i s', P s' -> P (body i s')) -> P (for_lt_with n body s).
Proof.
  intros H0 Hb. unfold for_lt_with.
  generalize (seq 0 (Z.to_nat n)) as l. intros l. revert s H0.
  induction l as [|i l IH]; intros s H0; simpl; [exact H0|].
  apply IH, Hb, H0.
Qed.

Lemma pp_send_rows (rows cols : Z) (bitmap : image) (i : Z) (w : World) :
  pp (snd (send_rows rows cols bitmap (i, w))) = pp w.
Proof.
  unfold send_rows.
  apply (for_lt_with_inv (fun s => pp (snd s) = pp w)); [reflexivity|].
  intros _ s Hs.
  apply (for_lt_with_inv (fun s => pp (snd s) = pp w)); [exact Hs|].
  intros _ [j w'] Hw. exact Hw.
Qed.

Lemma pp_ada_send_chunk (chunkHeight rowBytes rowBytesClipped : Z)
    (bitmap : image) (i : Z) (w : World) :
  pp (snd (ada_send_chunk chunkHeight rowBytes rowBytesClipped bitmap (i, w)))
  = pp w.
Proof.
  unfold ada_send_chunk.
  apply (for_lt_with_inv (fun s => pp (snd s) = pp w)); [reflexivity|].
  intros _ s Hs.
  assert (H : pp (snd (for_lt_with rowBytesClipped
                         (fun _ '(i, wd) => (i + 1, stream_write (bitmap i) wd))
                         s)) = pp w).
  { apply (for_lt_with_inv (fun s => pp (snd s) = pp w)); [exact Hs|].
    intros _ [j w'] Hw. exact Hw. }
  destruct (for_lt_with rowBytesClipped _ s) as [j w']. exact H.
Qed.

Lemma pp_ada_chunks (fuel : nat) (h rowBytes rowBytesClipped limit : Z)
    (bitmap : image) (i rowStart : Z) (w : World) (hs : list Z) (w' : World) :
  ada_chunks fuel h rowBytes rowBytesClipped limit bitmap i rowStart w
  = Some (hs, w') ->
  pp w' = pp w.
Proof.
  revert i rowStart w hs w'.
  induction fuel as [|fuel IH]; intros i rowStart w hs w' H; simpl in H.
  - destruct (rowStart <? h); [discriminate|]. inversion H. reflexivity.
  - destruct (rowStart <? h); [|inversion H; reflexivity].
    match type of H with
    | context [ada_send_chunk ?c ?rb ?rc ?bm (?j, ?x)] =>
        pose proof (pp_ada_send_chunk c rb rc bm j x) as E;
        destruct (ada_send_chunk c rb rc bm (j, x)) as [i1 w1]
    end.
    simpl in E.
    destruct (ada_chunks fuel h rowBytes rowBytesClipped limit bitmap i1
                (rowStart + limit) w1) as [[hs1 w2]|] eqn:R; [|discriminate].
    inversion H; subst. rewrite (IH _ _ _ _ _ R), E. reflexivity.
Qed.

Lemma for_lt_opt_inv {A : Type} (P : A -> Prop) (n : Z)
    (body : Z -> A -> option A) (s r : A) :
  P s ->
  (forall i a b, P a -> body i a = Some b -> P b) ->
  for_lt_opt n body s = Some r -> P r.
Proof.
  intros H0 Hb. unfold for_lt_opt.
  generalize (seq 0 (Z.to_nat n)) as l. intros l. revert s H0.
  assert (N : forall l0 : list nat,
             fold_left (fun acc i => match acc with
                                     | Some a => body (Z.of_nat i) a
                                     | None => None
                                     end) l0 None = None).
  { induction l0; simpl; auto. }
  induction l as [|i l IH]; intros s H0 H; simpl in H.
  - inversion H; subst. exact H0.
  - destruct (body (Z.of_nat i) s) as [b|] eqn:E.
    + apply (IH b); [eapply Hb; eassumption | exact H].
    + rewrite N in H. discriminate.
Qed.

Lemma pp_ada_stream_chunk (chunkHeight rowBytes rowBytesClipped : Z)
    (src : source) (w : World) (src' : source) (w' : World) :
  ada_stream_chunk chunkHeight rowBytes rowBytesClipped (src, w)
  = Some (src', w') ->
  pp w' = pp w.
Proof.
  unfold ada_stream_chunk. intros H.
  assert (Step : forall (k : Z) (f : Z -> Z -> World -> World)
                   (a b : source * World),
             pp (snd a) = pp w ->
             (forall c x, pp (f 0 c x) = pp x) ->
             for_lt_opt k
               (fun _ '(src, wd) =>
                  match read_blocking src with
                  | Some (c, src0) => Some (src0, f 0 c wd)
                  | None => None
                  end) a = Some b ->
             pp (snd b) = pp w).
  { intros k f a b Ha Hf Hk.
    revert Hk.
    apply (for_lt_opt_inv (fun s => pp (snd s) = pp w)); [exact Ha|].
    intros _ [s1 x1] [s2 x2] Hx Hy.
    destruct (read_blocking s1) as [[c s3]|]; [|discriminate].
    inversion Hy; subst. simpl. rewrite Hf. exact Hx. }
  change (pp (snd (src', w')) = pp w). revert H.
  apply (for_lt_opt_inv (fun s => pp (snd s) = pp w)); [reflexivity|].
  intros _ a b Ha Hb.
  destruct (for_lt_opt rowBytesClipped _ a) as [m|] eqn:E1; [|discriminate].
  apply (Step _ (fun _ c x => stream_write c x) a m Ha) in E1;
    [|reflexivity].
  apply (Step _ (fun _ _ x => x) m b E1) in Hb; [exact Hb | reflexivity].
Qed.

Lemma pp_ada_stream_chunks (fuel : nat) (h rowBytes rowBytesClipped limit : Z)
    (src : source) (rowStart : Z) (w w' : World) :
  ada_stream_chunks fuel h rowBytes rowBytesClipped limit src rowStart w
  = Some w' ->
  pp w' = pp w.
Proof.
  revert src rowStart w.
  induction fuel as [|fuel IH]; intros src rowStart w H; simpl in H.
  - destruct (rowStart <? h); [discriminate|]. inversion H. reflexivity.
  - destruct (rowStart <? h); [|inversion H; reflexivity].
    match type of H with
    | context [ada_stream_chunk ?c ?rb ?rc (?s, ?x)] =>
        destruct (ada_stream_chunk c rb rc (s, x)) as [[s1 w1]|] eqn:E;
        [apply pp_ada_stream_chunk in E | discriminate]
    end.
    rewrite (IH _ _ _ H), E. reflexivity.
Qed.

Lemma pp_barcode_copy (fuel : nat) (text : list Z) (i : Z) (w w' : World) :
  barcode_copy fuel text i w = Some w' -> pp w' = pp w.
Proof.
  revert i w. induction fuel as [|fuel IH]; intros i w H; simpl in H.
  - discriminate.
  - destruct (negb (uint8 (char_at text i) =? 0)).
    + rewrite (IH _ _ H). reflexivity.
    + inversion H. reflexivity.
Qed.

Lemma pp_hasPaper_poll (n : nat) (w : World) :
  pp (snd (hasPaper_poll n w)) = pp w.
Proof.
  revert w. induction n as [|n IH]; intros w; [reflexivity|].
  cbn [hasPaper_poll]. unfold stream_available.
  destruct (match incoming w with
            | (t, _) :: _ => t <=? clock w
            | [] => false
            end).
  - unfold stream_read, emit. cbn [incoming pp log clock].
    destruct (incoming w) as [|[t b] rest]; [reflexivity|].
    destruct (t <=? clock w); reflexivity.
  - rewrite IH. reflexivity.
Qed.

(** ** The column *)

Lemma column_kept (w w' : World) :
  column (pp w') = column (pp w) ->
  column_inv (pp w) ->
  maxColumn (pp w) <= maxColumn (pp w') ->
  column_inv (pp w').
Proof. unfold column_inv. intros E H M. rewrite E. lia. Qed.

Lemma uint8_le (z : Z) : 0 <= z -> uint8 z <= z.
Proof. intros H. unfold uint8. apply Z.mod_le; lia. Qed.

(** [write] keeps [maxColumn], and the column within it. *)
Lemma write_cols (c : Z) (w : World) :
  maxColumn (pp (snd (write c w))) = maxColumn (pp w) /\
  (column_inv (pp w) -> column_inv (pp (snd (write c w)))).
Proof.
  unfold write. cbn [snd].
  destruct (uint8 c =? 0x13) eqn:E.
  - unfold write_run. rewrite E. cbn [negb snd]. split; [reflexivity|auto].
  - rewrite (write_run_unfold c w E). cbv zeta.
    destruct (written_byte c =? ASCII_LF) eqn:EL; cbn [orb].
    + cbn [snd]. split; [reflexivity|]. unfold column_inv.
      cbn [upd set_prevByte set_column pp column maxColumn stream_write emit].
      change (uint8 0) with 0. lia.
    + destruct (column (pp w) =? maxColumn (pp w)) eqn:EC; cbn [snd].
      * split; [reflexivity|]. unfold column_inv.
        cbn [upd set_prevByte set_column pp column maxColumn stream_write emit].
        change (uint8 0) with 0. lia.
      * split; [reflexivity|]. unfold column_inv.
        unfold upd, set_prevByte, set_column. cbn [pp column maxColumn].
        apply Z.eqb_neq in EC. intros H.
        pose proof (uint8_range (column (pp w) + 1)).
        pose proof (uint8_le (column (pp w) + 1)).
        rewrite pp_stream_write. lia.
Qed.

Lemma keeps_columns_seq (f g : Op) :
  keeps_columns f -> keeps_columns g -> keeps_columns (f ;; g).
Proof.
  intros Hf Hg w. unfold seq_op.
  destruct (Hf w) as [M I]. destruct (Hg (f w)) as [M' I'].
  split; [rewrite M', M; reflexivity | auto].
Qed.

Lemma write_keeps (c : Z) : keeps_columns (write_ c).
Proof. intros w. apply write_cols. Qed.

Lemma print_keeps (s : list Z) : keeps_columns (print s).
Proof.
  unfold print. induction s as [|c s IH]; intros w.
  - split; [reflexivity | auto].
  - cbn [fold_left]. destruct (IH (write_ c w)) as [M I].
    destruct (write_keeps c w) as [M' I'].
    split; [rewrite M, M'; reflexivity | auto].
Qed.

Lemma feed_manually_keeps (x : nat) : keeps_columns (feed_manually x).
Proof.
  induction x as [|x IH]; cbn [feed_manually].
  - intros w. split; [reflexivity | auto].
  - apply keeps_columns_seq; [apply write_keeps | exact IH].
Qed.

Lemma feed_keeps (x : Z) : keeps_columns (feed x).
Proof.
  unfold feed. destruct (264 <=? PRINTER_FIRMWARE).
  - intros w. split; [reflexivity|]. unfold column_inv, seq_op.
    cbn [upd set_prevByte set_column pp column maxColumn writeBytes3 seq_op
         stream_write emit].
    change (uint8 0) with 0. lia.
  - apply feed_manually_keeps.
Qed.

Lemma test_keeps : keeps_columns test.
Proof.
  unfold test, println.
  apply keeps_columns_seq; [apply keeps_columns_seq | apply feed_keeps];
    apply print_keeps.
Qed.

Lemma wake_pp (w : World) : pp (wake w) = pp w.
Proof.
  unfold wake, seq_op. destruct (264 <=? PRINTER_FIRMWARE); [reflexivity|].
  rewrite pp_for_lt_write. reflexivity.
Qed.

Lemma setDefault_column (w : World) :
  column (pp (setDefault w)) = column (pp w) /\
  maxColumn (pp (setDefault w)) = 32.
Proof.
  unfold setDefault, inverseOff. destruct (268 <=? PRINTER_FIRMWARE);
    split; reflexivity.
Qed.

Lemma begin_cols (heatTime : Z) (w : World) :
  column (pp (begin heatTime w)) = 0 /\ maxColumn (pp (begin heatTime w)) = 32.
Proof.
  set (pre := wake;; reset;; writeBytes2 ASCII_ESC (chr "7");;
              writeBytes3 11 heatTime 40;;
              (fun w0 : World =>
                 if dtrPin (pp w0) <? 255
                 then (pinMode_pullup (dtrPin (pp w0));;
                       writeBytes3 ASCII_GS (chr "a") (Z.shiftl 1 5);;
                       upd (set_dtrEnabled true)) w0
                 else w0);;
              upd (set_dotPrintTime 1);; upd (set_dotFeedTime 1);;
              upd (set_maxChunkHeight 255)).
  change (begin heatTime w) with (setDefault (pre w)).
  destruct (setDefault_column (pre w)) as [C M].
  rewrite C, M. split; [|reflexivity].
  subst pre. unfold seq_op.
  cbn [pp upd column set_maxChunkHeight set_dotFeedTime set_dotPrintTime].
  match goal with
  | |- context [if ?b then _ else _] => destruct b
  end;
    cbn [pp upd column set_dtrEnabled writeBytes3 seq_op stream_write emit
         pinMode_pullup writeBytes2];
    unfold reset, seq_op; destruct (264 <=? PRINTER_FIRMWARE); reflexivity.
Qed.

Lemma printBitmap_pp (wi h : Z) (bitmap : image) (fromProgMem : bool)
    (w : World) :
  pp (printBitmap wi h bitmap fromProgMem w) = set_prevByte ASCII_LF (pp w).
Proof.
  unfold printBitmap.
  match goal with
  | |- context [send_rows ?r ?c ?b (?i, ?x)] =>
      pose proof (pp_send_rows r c b i x) as E;
      destruct (send_rows r c b (i, x)) as [i' w']
  end.
  cbn [snd] in E. cbn [upd pp]. rewrite E. reflexivity.
Qed.

Lemma defineBitImage_pp (wi h : Z) (bitmap : image) (w : World) :
  pp (defineBitImage wi h bitmap w) = set_prevByte ASCII_LF (pp w).
Proof.
  unfold defineBitImage.
  match goal with
  | |- context [send_rows ?r ?c ?b (?i, ?x)] =>
      pose proof (pp_send_rows r c b i x) as E;
      destruct (send_rows r c b (i, x)) as [i' w']
  end.
  cbn [snd] in E. cbn [upd pp]. rewrite E. reflexivity.
Qed.

Lemma defineNVBitmap_pp (wi h : Z) (bitmap : image) (w : World) :
  pp (defineNVBitmap wi h bitmap w) = pp w.
Proof. unfold defineNVBitmap. rewrite pp_send_rows. reflexivity. Qed.

Lemma defineNVBitmap2_pp (w1 h1 : Z) (bitmap1 : image) (w2 h2 : Z)
    (bitmap2 : image) (w : World) :
  pp (defineNVBitmap2 w1 h1 bitmap1 w2 h2 bitmap2 w) = pp w.
Proof.
  unfold defineNVBitmap2.
  match goal with
  | |- context [let '(_, wd) := send_rows ?r ?c ?b (?i, ?x) in _] =>
      pose proof (pp_send_rows r c b i x) as E;
      destruct (send_rows r c b (i, x)) as [i' w']
  end.
  cbn [snd] in E. rewrite pp_send_rows. exact E.
Qed.

Lemma printBitmap_ada_pp (wi h : Z) (bitmap : image) (fromProgMem : bool)
    (w : World) (hs : list Z) (w' : World) :
  printBitmap_ada wi h bitmap fromProgMem w = Some (hs, w') ->
  pp w' = set_prevByte ASCII_LF (pp w).
Proof.
  unfold printBitmap_ada. intros H.
  destruct (ada_chunkHeightLimit wi (pp w)) as [limit|]; [|discriminate].
  destruct (ada_chunks _ _ _ _ _ _ _ _ _) as [[hs1 w1]|] eqn:E; [|discriminate].
  apply pp_ada_chunks in E. inversion H; subst. cbn [upd pp]. rewrite E.
  reflexivity.
Qed.

Lemma printBitmap_ada_stream_pp (wi h : Z) (src : source) (w w' : World) :
  printBitmap_ada_stream wi h src w = Some w' ->
  pp w' = set_prevByte ASCII_LF (pp w).
Proof.
  unfold printBitmap_ada_stream. intros H.
  destruct (ada_chunkHeightLimit wi (pp w)) as [limit|]; [|discriminate].
  destruct (ada_stream_chunks _ _ _ _ _ _ _ _) as [w1|] eqn:E; [|discriminate].
  apply pp_ada_stream_chunks in E. inversion H; subst. cbn [upd pp].
  rewrite E. reflexivity.
Qed.

Lemma printBitmap_ada_header_pp (src : source) (w w' : World) :
  printBitmap_ada_header src w = Some w' ->
  pp w' = set_prevByte ASCII_LF (pp w).
Proof.
  unfold printBitmap_ada_header. intros H.
  destruct (source_read src) as [r1 s1].
  destruct (source_read s1) as [r2 s2].
  destruct (source_read s2) as [r3 s3].
  destruct (source_read s3) as [r4 s4].
  apply printBitmap_ada_stream_pp in H. exact H.
Qed.

Lemma hasPaper_pp (w : World) : pp (snd (hasPaper w)) = pp w.
Proof.
  unfold hasPaper.
  pose proof (pp_hasPaper_poll 10 (writeBytes3 0x10 0x04 4 w)) as E.
  destruct (hasPaper_poll 10 (writeBytes3 0x10 0x04 4 w)) as [st w1].
  exact E.
Qed.

Lemma printQRcode_pp (text : list Z) (errCorrect moduleSize model timeoutQR : Z)
    (w : World) :
  pp (printQRcode text errCorrect moduleSize model timeoutQR w)
  = set_prevByte ASCII_LF (pp w).
Proof.
  unfold printQRcode, reprintQRcode, seq_op.
  cbn [upd pp writeBytes4 seq_op stream_write emit].
  rewrite pp_for_lt_write. reflexivity.
Qed.

Lemma printBarcode_cols (text : list Z) (type : Z) (w w' : World) :
  printBarcode text type w = Some w' ->
  maxColumn (pp w') = maxColumn (pp w) /\
  (column_inv (pp w) -> column_inv (pp w')).
Proof.
  unfold printBarcode. intros H.
  destruct (feed_keeps 1 w) as [M I].
  set (w1 := (feed 1;; writeBytes3 ASCII_GS (chr "H") 2;;
              writeBytes3 ASCII_GS (chr "w") 3;;
              writeBytes3 ASCII_GS (chr "k") type) w) in H.
  assert (E1 : pp w1 = pp (feed 1 w)) by reflexivity.
  assert (E2 : exists w2, pp w2 = pp w1 /\ w' = upd (set_prevByte ASCII_LF) w2).
  { destruct (264 <=? PRINTER_FIRMWARE).
    - cbn [option_map] in H. inversion H. eexists. split; [|reflexivity].
      unfold seq_op. rewrite pp_for_lt_write. reflexivity.
    - destruct (barcode_copy 256 text 0 w1) as [w2|] eqn:B; [|discriminate].
      cbn [option_map] in H. inversion H. exists w2.
      split; [apply (pp_barcode_copy _ _ _ _ _ B) | reflexivity]. }
  destruct E2 as (w2 & E2 & ->). cbn [upd pp].
  unfold column_inv. cbn [set_prevByte column maxColumn].
  rewrite E2, E1. split; [exact M | exact I].
Qed.

Lemma land_252 (x : Z) : Z.land x 252 = 4 * ((x / 4) mod 64).
Proof.
  change 252 with (Z.shiftl 63 2).
  assert (E : Z.land x (Z.shiftl 63 2)
              = Z.shiftl (Z.land (Z.shiftr x 2) 63) 2).
  { apply Z.bits_inj'. intros i Hi.
    rewrite Z.land_spec.
    destruct (Z.lt_ge_cases i 2) as [Hlo|Hhi].
    - rewrite !Z.shiftl_spec_low by exact Hlo. apply andb_false_r.
    - rewrite !Z.shiftl_spec by exact Hi.
      rewrite Z.land_spec, Z.shiftr_spec by lia.
      replace (i - 2 + 2) with i by lia. reflexivity. }
  rewrite E. change 63 with (Z.ones 6).
  rewrite Z.land_ones by lia. rewrite Z.shiftr_div_pow2, Z.shiftl_mul_pow2 by lia.
  change (2 ^ 2) with 4. change (2 ^ 6) with 64. lia.
Qed.

(** [tab] moves the column to the next multiple of 4 (of what a byte holds). *)
Lemma tab_cols (w : World) :
  maxColumn (pp (tab w)) = maxColumn (pp w) /\
  column (pp (tab w)) = 4 * (((column (pp w) + 4) / 4) mod 64).
Proof.
  unfold tab, seq_op.
  cbn [upd pp writeBytes1 stream_write emit set_column column maxColumn].
  split; [reflexivity|]. rewrite land_252. apply uint8_small.
  pose proof (Z.mod_pos_bound ((column (pp w) + 4) / 4) 64). lia.
Qed.

Lemma tab_column_inv (w : World) :
  column_inv (pp w) ->
  column (pp w) < maxColumn (pp w) ->
  maxColumn (pp w) mod 4 = 0 ->
  column_inv (pp (tab w)).
Proof.
  unfold column_inv. intros H L D. destruct (tab_cols w) as [M C].
  rewrite M, C.
  pose proof (Z.mod_pos_bound ((column (pp w) + 4) / 4) 64).
  pose proof (Z.mod_le ((column (pp w) + 4) / 4) 64).
  assert (0 <= (column (pp w) + 4) / 4) by (apply Z.div_pos; lia).
  assert ((column (pp w) + 4) / 4 <= maxColumn (pp w) / 4).
  { apply Z.div_le_lower_bound; [lia|].
    pose proof (Z.div_mod (maxColumn (pp w)) 4).
    pose proof (Z.div_mod (column (pp w) + 4) 4).
    pose proof (Z.mod_pos_bound (column (pp w) + 4) 4).
    assert (4 * ((column (pp w) + 4) / 4) <= maxColumn (pp w) + 3) by lia.
    assert (maxColumn (pp w) = 4 * (maxColumn (pp w) / 4)) by lia.
    lia. }
  pose proof (Z.div_mod (maxColumn (pp w)) 4). lia.
Qed.

Ltac column_same w :=
  apply (column_kept w); [reflexivity | assumption | assumption].

(** C3, as far as the code keeps it.  A call keeps [0 <= column <=
    maxColumn] whenever it does not lower [maxColumn], except [tab] at the
    wrap position: [tab] keeps it when the column is below [maxColumn] and
    [maxColumn] is a multiple of 4 (it is 16 or 32 after any change). *)
Theorem column_inv_step (o : op) (w w' : World) :
  step o w = Some w' ->
  column_inv (pp w) ->
  maxColumn (pp w) <= maxColumn (pp w') ->
  (o = Otab ->
   column (pp w) < maxColumn (pp w) /\ maxColumn (pp w) mod 4 = 0) ->
  column_inv (pp w').
Proof.
  intros Hs Hinv Hmax Htab.
  destruct o; cbn [step] in Hs;
    try (injection Hs as <-);
    try rewrite printBitmap_pp in *;
    try rewrite defineBitImage_pp in *;
    try rewrite defineNVBitmap_pp in *;
    try rewrite defineNVBitmap2_pp in *;
    try rewrite hasPaper_pp in *;
    try rewrite printQRcode_pp in *;
    try rewrite wake_pp in *.
  - (* setTimes *) column_same w.
  - (* write *) apply write_cols, Hinv.
  - (* begin *)
    destruct (begin_cols heatTime w) as [C M]. unfold column_inv.
    rewrite C, M. lia.
  - (* reset *)
    unfold column_inv, reset, seq_op.
    destruct (264 <=? PRINTER_FIRMWARE); cbn; lia.
  - (* setDefault *)
    destruct (setDefault_column w) as [C M].
    apply (column_kept w); [exact C | assumption | assumption].
  - (* test *) apply test_keeps, Hinv.
  - (* testPage *) column_same w.
  - (* setBarcodeHeight *) column_same w.
  - (* printBarcode *) apply (printBarcode_cols _ _ _ _ Hs), Hinv.
  - (* setPrintMode *) column_same w.
  - (* unsetPrintMode *) column_same w.
  - (* writePrintMode *) column_same w.
  - (* normal *) column_same w.
  - (* inverseOn *)
    revert Hmax. unfold inverseOn.
    destruct (268 <=? PRINTER_FIRMWARE); intros Hmax; column_same w.
  - (* inverseOff *)
    revert Hmax. unfold inverseOff.
    destruct (268 <=? PRINTER_FIRMWARE); intros Hmax; column_same w.
  - column_same w.
  - column_same w.
  - column_same w.
  - column_same w.
  - column_same w.
  - column_same w.
  - column_same w.
  - column_same w.
  - column_same w.
  - column_same w.
  - (* justify *) column_same w.
  - (* feed *) apply feed_keeps, Hinv.
  - (* feedRows *)
    unfold column_inv in *. revert Hmax. unfold feedRows, seq_op.
    cbn [upd set_prevByte set_column pp column maxColumn writeBytes3 seq_op
         stream_write emit].
    change (uint8 0) with 0. lia.
  - (* flush *) column_same w.
  - (* setSize *)
    revert Hmax. unfold setSize.
    destruct (toupper value =? chr "M"); [intros Hmax; column_same w|].
    destruct (toupper value =? chr "L"); intros Hmax; column_same w.
  - (* underlineOn *) column_same w.
  - (* underlineOff *) column_same w.
  - (* printBitmap *) column_same w.
  - (* defineBitImage *) column_same w.
  - (* printDefinedBitImage *) column_same w.
  - (* defineNVBitmap *) column_same w.
  - (* defineNVBitmap2 *) column_same w.
  - (* printNVBitmap *) column_same w.
  - (* printBitmap_ada *)
    destruct (printBitmap_ada w0 h bitmap fromProgMem w) as [[hs w1]|] eqn:E;
      [|discriminate].
    cbn [option_map snd] in Hs. injection Hs as <-.
    apply printBitmap_ada_pp in E. rewrite E in *. column_same w.
  - (* printBitmap_ada, from a stream *)
    apply printBitmap_ada_stream_pp in Hs. rewrite Hs in *. column_same w.
  - (* printBitmap_ada, with a header *)
    apply printBitmap_ada_header_pp in Hs. rewrite Hs in *. column_same w.
  - (* offline *) column_same w.
  - (* online *) column_same w.
  - (* sleep *)
    revert Hmax. unfold sleep, sleepAfter.
    destruct (264 <=? PRINTER_FIRMWARE); intros Hmax; column_same w.
  - (* sleepAfter *)
    revert Hmax. unfold sleepAfter.
    destruct (264 <=? PRINTER_FIRMWARE); intros Hmax; column_same w.
  - (* wake *) column_same w.
  - (* hasPaper *) column_same w.
  - (* setLineHeight *) column_same w.
  - (* setMaxChunkHeight *) column_same w.
  - (* setCharset *) column_same w.
  - (* setCodePage *) column_same w.
  - (* tab *)
    destruct (Htab eq_refl) as [L D]. apply tab_column_inv; assumption.
  - (* setCharSpacing *) column_same w.
  - (* cut *) column_same w.
  - (* beep *) column_same w.
  - (* setBeep *) column_same w.
  - (* printQRcode *) column_same w.
  - (* reprintQRcode *) column_same w.
Qed.

(** ** The chunked bitmap print *)

(** With a limit of 0 rows the loop of [printBitmap_ada] never ends: no
    amount of fuel gives a result. *)
Lemma ada_chunks_diverge (fuel : nat) (h rowBytes rowBytesClipped limit : Z)
    (bitmap : image) (i rowStart : Z) (w : World) :
  limit <= 0 -> rowStart < h ->
  ada_chunks fuel h rowBytes rowBytesClipped limit bitmap i rowStart w = None.
Proof.
  intros Hl. revert i rowStart w.
  induction fuel as [|fuel IH]; intros i rowStart w Hr; simpl;
    replace (rowStart <? h) with true by (symmetry; apply Z.ltb_lt; lia).
  - reflexivity.
  - destruct (ada_send_chunk _ _ _ _ _) as [i1 w1].
    rewrite IH by lia. reflexivity.
Qed.



Lemma ada_rowBytes_ceil (w : Z) :
  0 < w ->
  8 * (ada_rowBytes w - 1) < w <= 8 * ada_rowBytes w.
Proof.
  intros H. unfold ada_rowBytes. rewrite Z.quot_div_nonneg by lia.
  pose proof (Z.div_mod (w + 7) 8). pose proof (Z.mod_pos_bound (w + 7) 8).
  lia.
Qed.

Lemma ada_rowBytesClipped_min (w : Z) :
  ada_rowBytesClipped w = Z.min (ada_rowBytes w) 48.
Proof.
  unfold ada_rowBytesClipped. cbv zeta.
  destruct (Z.geb_spec (ada_rowBytes w) 48); lia.
Qed.



(** The bytes of one row, and of the rows of one chunk. *)
Lemma sent_row (bitmap : image) (l : list nat) (i : Z) (w : World) :
  let r := fold_left (fun acc (_ : nat) =>
                        let '(i, wd) := acc in
                        (i + 1, stream_write (bitmap i) wd)) l (i, w) in
  fst r = i + Z.of_nat (length l) /\
  sent (snd r)
  = sent w ++ map (fun x => uint8 (bitmap (i + Z.of_nat x))) (seq 0 (length l)).
Proof.
  revert i w. induction l as [|a l IH]; intros i w; cbn [fold_left length].
  - cbn [fst snd seq map]. rewrite app_nil_r. split; [lia | reflexivity].
  - destruct (IH (i + 1) (stream_write (bitmap i) w)) as [F S].
    cbv zeta in F, S. split; [rewrite F; lia|].
    rewrite S, sent_stream_write, <- app_assoc. f_equal.
    cbn [seq map app]. rewrite Z.add_0_r. f_equal.
    rewrite <- seq_shift, map_map. apply map_ext. intros x.
    f_equal. f_equal. lia.
Qed.

Lemma sent_clipped_row (bitmap : image) (n i : Z) (w : World) :
  let r := for_lt_with n
             (fun _ '(i, wd) => (i + 1, stream_write (bitmap i) wd)) (i, w) in
  fst r = i + Z.of_nat (Z.to_nat n) /\
  sent (snd r)
  = sent w ++ map (fun x => uint8 (bitmap (i + Z.of_nat x)))
                (seq 0 (Z.to_nat n)).
Proof.
  pose proof (sent_row bitmap (seq 0 (Z.to_nat n)) i w) as R.
  cbv zeta in R. rewrite length_seq in R. exact R.
Qed.





(** * More of the driver *)

(** ** Images sent whole *)

Lemma map_seq_from {A : Type} (g : nat -> A) (n m : nat) :
  map g (seq n m) = map (fun k => g (n + k)%nat) (seq 0 m).
Proof.
  revert g. induction n as [|n IH]; intros g; [reflexivity|].
  rewrite <- seq_shift, map_map, IH. reflexivity.
Qed.

Lemma image_bytes_app (bitmap : image) (i : Z) (n m : nat) :
  image_bytes bitmap i (n + m)
  = image_bytes bitmap i n ++ image_bytes bitmap (i + Z.of_nat n) m.
Proof.
  unfold image_bytes. rewrite seq_app, map_app. f_equal.
  cbn [Nat.add]. rewrite map_seq_from. apply map_ext. intros k.
  f_equal. f_equal. lia.
Qed.

Lemma sent_send_rows_list (cols : Z) (bitmap : image) (l : list nat) (i : Z)
    (w : World) :
  let r := fold_left
             (fun acc (_ : nat) =>
                for_lt_with cols
                  (fun _ '(i, w) => (i + 1, stream_write (bitmap i) w)) acc)
             l (i, w) in
  fst r = i + Z.of_nat (length l * Z.to_nat cols) /\
  sent (snd r) = sent w ++ image_bytes bitmap i (length l * Z.to_nat cols).
Proof.
  revert i w. induction l as [|a l IH]; intros i w; cbn [fold_left length].
  - cbn [fst snd Nat.mul]. unfold image_bytes. cbn [seq map].
    rewrite app_nil_r. split; [lia | reflexivity].
  - pose proof (sent_clipped_row bitmap cols i w) as R. cbv zeta in R.
    destruct (for_lt_with cols _ (i, w)) as [i1 w1].
    cbn [fst snd] in R. destruct R as [F S]. subst i1.
    destruct (IH (i + Z.of_nat (Z.to_nat cols)) w1) as [F' S'].
    cbv zeta in F', S'. split.
    + rewrite F'. cbn [Nat.mul]. lia.
    + rewrite S', S, <- app_assoc. f_equal.
      cbn [Nat.mul]. rewrite image_bytes_app. reflexivity.
Qed.

(** [send_rows] sends the [rows * cols] bytes from [bitmap i] on, in order. *)
Lemma sent_send_rows (rows cols : Z) (bitmap : image) (i : Z) (w : World) :
  sent (snd (send_rows rows cols bitmap (i, w)))
  = sent w ++ image_bytes bitmap i (Z.to_nat rows * Z.to_nat cols).
Proof.
  pose proof (sent_send_rows_list cols bitmap (seq 0 (Z.to_nat rows)) i w) as R.
  cbv zeta in R. rewrite length_seq in R. exact (proj2 R).
Qed.



Lemma length_image_bytes (bitmap : image) (i : Z) (n : nat) :
  length (image_bytes bitmap i n) = n.
Proof. unfold image_bytes. rewrite length_map, length_seq. reflexivity. Qed.


(** X2.  [defineBitImage] sends GS *, the width in bytes [ceil(w/8)] and
    [ceil(h/8)], one byte each, then [h * ceil(w/8)] bytes of the image in
    order: [h] rows, not the [8 * ceil(h/8)] the second byte stands for, so
    the two agree only for a height that is a multiple of 8. *)
Theorem defineBitImage_bytes (w h : Z) (bitmap : image) (wd : World) :
  0 < w <= 2040 -> 0 < h <= 2040 ->
  let rowBytes := (w + 7) / 8 in
  let colBytes := (h + 7) / 8 in
  sent (defineBitImage w h bitmap wd)
  = sent wd ++ [0x1D; 0x2A; rowBytes; colBytes]
    ++ image_bytes bitmap 0 (Z.to_nat h * Z.to_nat rowBytes) /\
  1 <= rowBytes <= 255 /\ 1 <= colBytes <= 255 /\
  (h * rowBytes = 8 * colBytes * rowBytes <-> h mod 8 = 0) /\
  pp (defineBitImage w h bitmap wd) = set_prevByte ASCII_LF (pp wd).
Proof.
  intros Hw Hh rowBytes colBytes.
  assert (Q1 : Z.quot (w + 7) 8 = rowBytes)
    by (apply Z.quot_div_nonneg; lia).
  assert (Q2 : Z.quot (h + 7) 8 = colBytes)
    by (apply Z.quot_div_nonneg; lia).
  assert (R1 : 1 <= rowBytes <= 255).
  { subst rowBytes. pose proof (Z.div_mod (w + 7) 8).
    pose proof (Z.mod_pos_bound (w + 7) 8). lia. }
  assert (R2 : 1 <= colBytes <= 255 /\ 8 * (colBytes - 1) < h <= 8 * colBytes).
  { subst colBytes. pose proof (Z.div_mod (h + 7) 8).
    pose proof (Z.mod_pos_bound (h + 7) 8). lia. }
  split; [|split; [exact R1|split; [apply R2|split]]].
  - unfold defineBitImage. rewrite Q1, Q2.
    match goal with
    | |- context [send_rows ?r ?c ?b (?i, ?x)] =>
        pose proof (sent_send_rows r c b i x) as S;
        destruct (send_rows r c b (i, x)) as [i' w']
    end.
    cbn [snd] in S. rewrite sent_upd, S, sent_writeBytes4, <- app_assoc.
    rewrite (uint8_small rowBytes), (uint8_small colBytes) by lia.
    reflexivity.
  - pose proof (Z.div_mod h 8). pose proof (Z.mod_pos_bound h 8).
    split; intros E.
    + assert (h = 8 * colBytes) by nia. lia.
    + assert (h = 8 * colBytes) by lia. nia.
  - apply defineBitImage_pp.
Qed.

Lemma sent_defineNVBitmap (w h : Z) (bitmap : image) (wd : World) :
  sent (defineNVBitmap w h bitmap wd)
  = sent wd ++ [0x1C; 0x71; 1]
    ++ nv_image_bytes (Z.quot w 8) (Z.quot (h + 7) 8) w bitmap.
Proof.
  unfold defineNVBitmap, nv_image_bytes.
  rewrite sent_send_rows, sent_writeBytes4, sent_writeBytes3, <- !app_assoc.
  reflexivity.
Qed.

Lemma sent_defineNVBitmap2 (w1 h1 : Z) (bitmap1 : image) (w2 h2 : Z)
    (bitmap2 : image) (wd : World) :
  sent (defineNVBitmap2 w1 h1 bitmap1 w2 h2 bitmap2 wd)
  = sent wd ++ [0x1C; 0x71; 2]
    ++ nv_image_bytes (Z.quot w1 8) (Z.quot (h1 + 7) 8) (Z.quot w1 8 * 8)
         bitmap1
    ++ nv_image_bytes (Z.quot w2 8) (Z.quot (h2 + 7) 8) (Z.quot w2 8 * 8)
         bitmap2.
Proof.
  unfold defineNVBitmap2, nv_image_bytes.
  match goal with
  | |- context [let '(_, wd) := send_rows ?r ?c ?b (?i, ?x) in _] =>
      pose proof (sent_send_rows r c b i x) as S;
      destruct (send_rows r c b (i, x)) as [i' w']
  end.
  cbn [snd] in S.
  rewrite sent_send_rows, sent_writeBytes4, S, sent_writeBytes4,
    sent_writeBytes3, <- !app_assoc.
  reflexivity.
Qed.


(** X4.  [defineNVBitmap(w1, h1, b1, w2, h2, b2)] sends FS q 2 and then, for
    each image, what the one-image form sends after its FS q 1 for the width
    rounded down to a multiple of 8: its rows have [8 * floor(w/8)] bytes
    where the one-image form has [w]. *)
Theorem defineNVBitmap2_as_two (w1 h1 : Z) (bitmap1 : image) (w2 h2 : Z)
    (bitmap2 : image) (wd : World) :
  sent (defineNVBitmap2 w1 h1 bitmap1 w2 h2 bitmap2 wd)
  = sent wd ++ [0x1C; 0x71; 2]
    ++ skipn 3 (sent (defineNVBitmap (Z.quot w1 8 * 8) h1 bitmap1
                        (mkWorld (pp wd) [] 0 [])))
    ++ skipn 3 (sent (defineNVBitmap (Z.quot w2 8 * 8) h2 bitmap2
                        (mkWorld (pp wd) [] 0 []))) /\
  pp (defineNVBitmap2 w1 h1 bitmap1 w2 h2 bitmap2 wd) = pp wd.
Proof.
  split; [|apply defineNVBitmap2_pp].
  rewrite sent_defineNVBitmap2, !sent_defineNVBitmap.
  rewrite !Z.quot_mul by lia.
  change (sent (mkWorld (pp wd) [] 0 [])) with (@nil Z).
  cbn [app skipn]. reflexivity.
Qed.

(** ** More on the chunked bitmap print *)




(** X6.  With no handshake and a [maxChunkHeight] of 0, which is also what
    [setMaxChunkHeight(256)] stores, [printBitmap_ada] never returns for an
    image of at least one row: the chunk limit is 0 and the loop over the
    chunks makes no progress, however long it runs. *)
Theorem chunk_limit_zero_hangs (val w h : Z) (bitmap : image)
    (fromProgMem : bool) (wd : World) :
  uint8 val = 0 ->
  dtrEnabled (pp wd) = false ->
  0 < w -> 0 < h ->
  ada_chunkHeightLimit w (pp (setMaxChunkHeight val wd)) = Some 0 /\
  (forall fuel i rowStart wd0,
     rowStart < h ->
     ada_chunks fuel h (ada_rowBytes w) (ada_rowBytesClipped w) 0 bitmap
       i rowStart wd0 = None) /\
  printBitmap_ada w h bitmap fromProgMem (setMaxChunkHeight val wd) = None.
Proof.
  intros Hv Hd Hw Hh.
  pose proof (ada_rowBytes_ceil w Hw) as C.
  pose proof (ada_rowBytesClipped_min w) as M.
  assert (R : 1 <= ada_rowBytesClipped w <= 48) by lia.
  assert (L : ada_chunkHeightLimit w (pp (setMaxChunkHeight val wd)) = Some 0).
  { unfold ada_chunkHeightLimit, setMaxChunkHeight, upd, set_maxChunkHeight.
    cbn [pp dtrEnabled maxChunkHeight]. rewrite Hd, Hv.
    replace (ada_rowBytesClipped w =? 0) with false
      by (symmetry; apply Z.eqb_neq; lia).
    rewrite Z.quot_div_nonneg by lia.
    assert (1 <= 256 / ada_rowBytesClipped w)
      by (apply Z.div_le_lower_bound; lia).
    replace (256 / ada_rowBytesClipped w >? 0) with true
      by (symmetry; apply Z.gtb_lt; lia).
    reflexivity. }
  split; [exact L|]. split.
  - intros fuel i rowStart wd0 Hr. apply ada_chunks_diverge; lia.
  - unfold printBitmap_ada. rewrite L.
    rewrite ada_chunks_diverge by lia. reflexivity.
Qed.

(** ** The bitmap read from a stream *)


Lemma for_lt_opt_iter {A : Type} (n : Z) (f : A -> option A) (s : A) :
  for_lt_opt n (fun _ => f) s = Nat.iter (Z.to_nat n) (and_then f) (Some s).
Proof.
  unfold for_lt_opt.
  assert (G : forall (l : list nat) acc,
             fold_left (fun acc (_ : nat) => and_then f acc) l acc
             = Nat.iter (length l) (and_then f) acc).
  { induction l as [|a l IH]; intros acc; [reflexivity|].
    cbn [fold_left length]. rewrite IH, Nat.iter_succ_r. reflexivity. }
  change (fold_left (fun acc (_ : nat) => and_then f acc)
            (seq 0 (Z.to_nat n)) (Some s)
          = Nat.iter (Z.to_nat n) (and_then f) (Some s)).
  rewrite G, length_seq. reflexivity.
Qed.

Lemma skipn_nth_cons (data : list Z) (k : nat) :
  (k < length data)%nat ->
  skipn k data = nth k data 0 :: skipn (S k) data.
Proof.
  revert k. induction data as [|x data IH]; intros k H; cbn [length] in H.
  - lia.
  - destruct k as [|k]; [reflexivity|].
    cbn [skipn nth]. apply IH. lia.
Qed.


Section Stream.

Variable data : list Z.
Hypothesis data_bytes : Forall (fun b => 0 <= b) data.



Variables rowBytes rowBytesClipped : Z.
Hypothesis clipped_range : 0 <= rowBytesClipped <= rowBytes.





End Stream.

Lemma ada_chunkHeightLimit_nonneg (w : Z) (p : Pos_Printer) (limit : Z) :
  0 <= maxChunkHeight p ->
  ada_chunkHeightLimit w p = Some limit -> 0 <= limit.
Proof.
  unfold ada_chunkHeightLimit. cbv zeta. intros Hm H.
  destruct (dtrEnabled p); [inversion H; lia|].
  destruct (ada_rowBytesClipped w =? 0); [discriminate|].
  destruct (Z.gtb_spec (Z.quot 256 (ada_rowBytesClipped w)) (maxChunkHeight p));
    [inversion H; lia|].
  destruct (Z.ltb_spec (Z.quot 256 (ada_rowBytesClipped w)) 1);
    inversion H; lia.
Qed.


Lemma read_blocking_available (src : source) (c : Z) (rest : source) :
  read_blocking src = Some (c, rest) ->
  available src = S (available rest).
Proof.
  unfold available. induction src as [|x src IH]; cbn [read_blocking filter].
  - discriminate.
  - destruct (Z.ltb_spec x 0) as [Hneg|Hpos].
    + replace (0 <=? x) with false by (symmetry; apply Z.leb_gt; lia).
      exact IH.
    + replace (0 <=? x) with true by (symmetry; apply Z.leb_le; lia).
      intros H. inversion H; subst. reflexivity.
Qed.

Lemma iter_and_then_none {A : Type} (f : A -> option A) (n : nat) :
  Nat.iter n (and_then f) None = None.
Proof.
  induction n as [|n IH]; [reflexivity|].
  rewrite Nat.iter_succ, IH. reflexivity.
Qed.

(** A step that takes [m] bytes from the stream, repeated [n] times, takes
    [n * m]. *)
Lemma consume_iter (f : source * World -> option (source * World)) (m : nat) :
  (forall s s', f s = Some s' -> available (fst s) = (m + available (fst s'))%nat) ->
  forall n s s',
    Nat.iter n (and_then f) (Some s) = Some s' ->
    available (fst s) = (n * m + available (fst s'))%nat.
Proof.
  intros Hf. induction n as [|n IH]; intros s s' H.
  - cbn [Nat.iter] in H. inversion H. reflexivity.
  - rewrite Nat.iter_succ_r in H. cbn [and_then] in H.
    destruct (f s) as [s1|] eqn:E.
    + rewrite (Hf _ _ E), (IH _ _ H). cbn [Nat.mul]. lia.
    + rewrite iter_and_then_none in H. discriminate.
Qed.

Lemma take_byte_available (s s' : source * World) :
  take_byte s = Some s' -> available (fst s) = (1 + available (fst s'))%nat.
Proof.
  destruct s as [src w]. cbn [take_byte fst].
  destruct (read_blocking src) as [[c rest]|] eqn:E; [|discriminate].
  intros H. inversion H; subst. apply (read_blocking_available _ _ _ E).
Qed.

Lemma drop_byte_available (s s' : source * World) :
  drop_byte s = Some s' -> available (fst s) = (1 + available (fst s'))%nat.
Proof.
  destruct s as [src w]. cbn [drop_byte fst].
  destruct (read_blocking src) as [[c rest]|] eqn:E; [|discriminate].
  intros H. inversion H; subst. apply (read_blocking_available _ _ _ E).
Qed.

Lemma stream_row_available (rowBytes rowBytesClipped : Z)
    (s s' : source * World) :
  0 <= rowBytesClipped <= rowBytes ->
  stream_row rowBytes rowBytesClipped s = Some s' ->
  available (fst s) = (Z.to_nat rowBytes + available (fst s'))%nat.
Proof.
  intros R. unfold stream_row. rewrite !for_lt_opt_iter.
  destruct (Nat.iter (Z.to_nat rowBytesClipped) (and_then take_byte) (Some s))
    as [s1|] eqn:E; [|discriminate].
  cbn [and_then]. rewrite for_lt_opt_iter. intros H.
  rewrite (consume_iter take_byte 1 take_byte_available _ _ _ E).
  rewrite (consume_iter drop_byte 1 drop_byte_available _ _ _ H). lia.
Qed.

Lemma ada_stream_chunk_available (chunkHeight rowBytes rowBytesClipped : Z)
    (s s' : source * World) :
  0 <= rowBytesClipped <= rowBytes ->
  ada_stream_chunk chunkHeight rowBytes rowBytesClipped s = Some s' ->
  available (fst s)
  = (Z.to_nat chunkHeight * Z.to_nat rowBytes + available (fst s'))%nat.
Proof.
  intros R.
  change (ada_stream_chunk chunkHeight rowBytes rowBytesClipped s)
    with (for_lt_opt chunkHeight
            (fun _ => stream_row rowBytes rowBytesClipped) s).
  rewrite for_lt_opt_iter.
  apply (consume_iter (stream_row rowBytes rowBytesClipped)
           (Z.to_nat rowBytes)).
  intros a b. apply stream_row_available, R.
Qed.

Lemma ada_stream_chunks_available (fuel : nat)
    (h rowBytes rowBytesClipped limit : Z) (src : source) (rowStart : Z)
    (w w' : World) :
  0 <= rowBytesClipped <= rowBytes -> 0 <= limit ->
  ada_stream_chunks fuel h rowBytes rowBytesClipped limit src rowStart w
  = Some w' ->
  Z.max 0 (h - rowStart) * rowBytes <= Z.of_nat (available src).
Proof.
  intros R Hl. revert src rowStart w.
  induction fuel as [|fuel IH]; intros src rowStart w H;
    cbn [ada_stream_chunks] in H.
  - destruct (Z.ltb_spec rowStart h); [discriminate|]. lia.
  - destruct (Z.ltb_spec rowStart h) as [Hlt|Hge]; [|lia].
    set (c := if h - rowStart >? limit then limit else h - rowStart) in H.
    assert (Hc : 0 <= c /\ c + Z.max 0 (h - (rowStart + limit)) = h - rowStart).
    { subst c. destruct (Z.gtb_spec (h - rowStart) limit); lia. }
    destruct (ada_stream_chunk c rowBytes rowBytesClipped _) as [[s1 w1]|] eqn:E;
      [|discriminate].
    apply (ada_stream_chunk_available _ _ _ _ _ R) in E. cbn [fst] in E.
    apply IH in H. rewrite E, Nat2Z.inj_add, Nat2Z.inj_mul.
    rewrite !Z2Nat.id by lia. rewrite Z.max_r by lia. nia.
Qed.

(** X8.  [printBitmap_ada] reading from a stream never returns when the
    stream has fewer bytes to give than [h] rows of [ceil(w/8)]: it waits for
    every byte of every row, those beyond the 48 it sends and the padding of
    the last row too. *)
Theorem stream_too_short_hangs (w h : Z) (fromStream : source) (wd : World) :
  0 < w ->
  0 <= maxChunkHeight (pp wd) ->
  Z.of_nat (available fromStream) < h * ((w + 7) / 8) ->
  printBitmap_ada_stream w h fromStream wd = None.
Proof.
  intros Hw Hm Hs.
  pose proof (ada_rowBytes_ceil w Hw) as C.
  pose proof (ada_rowBytesClipped_min w) as M.
  assert (R : 0 <= ada_rowBytesClipped w <= ada_rowBytes w) by lia.
  assert (Q : ada_rowBytes w = (w + 7) / 8)
    by (unfold ada_rowBytes; apply Z.quot_div_nonneg; lia).
  unfold printBitmap_ada_stream.
  destruct (ada_chunkHeightLimit w (pp wd)) as [limit|] eqn:L; [|reflexivity].
  pose proof (ada_chunkHeightLimit_nonneg w (pp wd) limit Hm L) as Hl.
  destruct (ada_stream_chunks (Z.to_nat h) h (ada_rowBytes w)
              (ada_rowBytesClipped w) limit fromStream 0 wd) as [w'|] eqn:E;
    [|reflexivity].
  apply (ada_stream_chunks_available _ _ _ _ _ _ _ _ _ R Hl) in E.
  rewrite Z.sub_0_r, Q in E. exfalso. nia.
Qed.

(** *** Reads that find nothing *)









(** ** Text *)

Lemma print_snoc (s : list Z) (c : Z) (w : World) :
  print (s ++ [c]) w = write_ c (print s w).
Proof. unfold print. rewrite fold_left_app. reflexivity. Qed.

Lemma printed_snoc (s : list Z) (c : Z) :
  printed (s ++ [c])
  = printed s ++ (if uint8 c =? 0x13 then [] else [written_byte c]).
Proof.
  unfold printed. rewrite filter_app, map_app. cbn [filter].
  destruct (uint8 c =? 0x13); reflexivity.
Qed.

Lemma write_stripped (c : Z) (w : World) :
  (uint8 c =? 0x13) = true -> write_ c w = w.
Proof. intros E. unfold write_, write, write_run. rewrite E. reflexivity. Qed.

Lemma written_byte_uint8 (c : Z) : uint8 (written_byte c) = written_byte c.
Proof. apply uint8_small, written_byte_range. Qed.

Lemma sent_write (c : Z) (w : World) :
  (uint8 c =? 0x13) = false ->
  sent (write_ c w) = sent w ++ [written_byte c].
Proof.
  intros E. unfold write_, write. cbn [snd].
  rewrite (write_run_unfold c w E). cbv zeta.
  destruct ((written_byte c =? ASCII_LF) || (column (pp w) =? maxColumn (pp w)));
    cbn [snd]; rewrite !sent_upd, sent_stream_write, written_byte_uint8;
    reflexivity.
Qed.

Lemma sent_print (s : list Z) (w : World) :
  sent (print s w) = sent w ++ printed s.
Proof.
  induction s as [|c s IH] using rev_ind.
  - symmetry. apply app_nil_r.
  - rewrite print_snoc, printed_snoc.
    destruct (uint8 c =? 0x13) eqn:E.
    + rewrite (write_stripped _ _ E), app_nil_r. exact IH.
    + rewrite (sent_write _ _ E), IH, <- app_assoc. reflexivity.
Qed.

(** A line feed: the column back to 0 and a newline recorded, whatever the
    column was. *)
Lemma pp_write_LF (w : World) :
  pp (write_ ASCII_LF w) = set_prevByte ASCII_LF (set_column 0 (pp w)).
Proof.
  assert (E : (uint8 ASCII_LF =? 0x13) = false) by reflexivity.
  unfold write_, write. cbn [snd]. rewrite (write_run_unfold _ w E). cbv zeta.
  assert (B : written_byte ASCII_LF = ASCII_LF)
    by (unfold written_byte; destruct DENMARK; reflexivity).
  rewrite B, Z.eqb_refl. reflexivity.
Qed.

(** A character that is no line feed, on a line within its bounds. *)
Lemma pp_write_char (c : Z) (w : World) :
  (uint8 c =? 0x13) = false ->
  written_byte c <> ASCII_LF ->
  0 <= column (pp w) <= maxColumn (pp w) -> maxColumn (pp w) <= 255 ->
  let w' := write_ c w in
  maxColumn (pp w') = maxColumn (pp w) /\
  column (pp w') = (column (pp w) + 1) mod (maxColumn (pp w) + 1) /\
  prevByte (pp w')
  = (if column (pp w') =? 0 then ASCII_LF else written_byte c).
Proof.
  intros E N C M w'. subst w'. unfold write_, write. cbn [snd].
  rewrite (write_run_unfold c w E). cbv zeta.
  apply Z.eqb_neq in N. rewrite N. cbn [orb].
  destruct (Z.eqb_spec (column (pp w)) (maxColumn (pp w))) as [Q|Q];
    cbn [snd upd set_prevByte set_column pp stream_write emit maxColumn column
         prevByte].
  - split; [reflexivity|]. rewrite Q, Z.mod_same by lia.
    change (uint8 0) with 0. split; reflexivity.
  - split; [reflexivity|].
    rewrite (uint8_small (column (pp w) + 1)) by lia.
    rewrite Z.mod_small by lia.
    replace (column (pp w) + 1 =? 0) with false
      by (symmetry; apply Z.eqb_neq; lia).
    split; [reflexivity | apply written_byte_uint8].
Qed.

(** X9.  [print] of a text without line feed, on a line within its bounds.
    Every character but 0x13 goes out as one byte, in order.  The column
    counts them modulo [maxColumn + 1]: it comes back to 0 with the
    character after the one written at column [maxColumn], so the driver
    takes a line to hold [maxColumn + 1] characters (33, or 17 in double
    width).  The character recorded as the previous one is the last sent, or
    a newline when the column has just come back to 0. *)
Theorem print_column (s : list Z) (w : World) :
  0 <= column (pp w) <= maxColumn (pp w) -> maxColumn (pp w) <= 255 ->
  ~ In ASCII_LF (printed s) ->
  let w' := print s w in
  sent w' = sent w ++ printed s /\
  maxColumn (pp w') = maxColumn (pp w) /\
  column (pp w')
  = (column (pp w) + Z.of_nat (length (printed s))) mod (maxColumn (pp w) + 1) /\
  (printed s <> [] ->
   prevByte (pp w')
   = if column (pp w') =? 0 then ASCII_LF else last (printed s) 0).
Proof.
  intros C M N w'. subst w'. split; [apply sent_print|].
  induction s as [|c s IH] using rev_ind.
  - cbn [print fold_left printed filter map length Z.of_nat].
    rewrite Z.add_0_r, Z.mod_small by lia.
    split; [reflexivity|]. split; [reflexivity|]. intros F. now elim F.
  - rewrite print_snoc. rewrite printed_snoc in N |- *.
    destruct (uint8 c =? 0x13) eqn:E.
    + rewrite app_nil_r in N |- *. rewrite (write_stripped _ _ E).
      apply IH, N.
    + assert (N1 : ~ In ASCII_LF (printed s))
        by (intros F; apply N, in_or_app; left; exact F).
      assert (N2 : written_byte c <> ASCII_LF)
        by (intros F; apply N, in_or_app; right; left; exact F).
      destruct (IH N1) as (IM & IC & _).
      assert (R : 0 <= column (pp (print s w)) <= maxColumn (pp (print s w))).
      { rewrite IM, IC.
        pose proof (Z.mod_pos_bound
                      (column (pp w) + Z.of_nat (length (printed s)))
                      (maxColumn (pp w) + 1)). lia. }
      assert (M' : maxColumn (pp (print s w)) <= 255) by (rewrite IM; exact M).
      destruct (pp_write_char c (print s w) E N2 R M') as (WM & WC & WP).
      cbv zeta in WM, WC, WP.
      split; [rewrite WM; exact IM|].
      split.
      * rewrite WC, IM, IC, Z.add_mod_idemp_l by lia.
        rewrite length_app, Nat2Z.inj_add. cbn [length].
        f_equal. lia.
      * intros _. rewrite WP, last_last. reflexivity.
Qed.

(** X10.  [println] sends the text, then a carriage return and a line feed,
    both as bytes on the line, and leaves the column at 0 with a newline
    recorded, wherever the text ended. *)
Theorem println_ends_line (s : list Z) (w : World) :
  sent (println s w) = sent w ++ printed s ++ [ASCII_CR; ASCII_LF] /\
  pp (println s w)
  = set_prevByte ASCII_LF
      (set_column 0 (pp (write_ ASCII_CR (print s w)))) /\
  column (pp (println s w)) = 0 /\
  prevByte (pp (println s w)) = ASCII_LF /\
  maxColumn (pp (println s w)) = maxColumn (pp w).
Proof.
  assert (B13 : written_byte ASCII_CR = ASCII_CR)
    by (unfold written_byte; destruct DENMARK; reflexivity).
  assert (B10 : written_byte ASCII_LF = ASCII_LF)
    by (unfold written_byte; destruct DENMARK; reflexivity).
  assert (E13 : (uint8 ASCII_CR =? 0x13) = false) by reflexivity.
  assert (E10 : (uint8 ASCII_LF =? 0x13) = false) by reflexivity.
  change (println s w) with (write_ ASCII_LF (write_ ASCII_CR (print s w))).
  rewrite pp_write_LF.
  split.
  - rewrite (sent_write _ _ E10), (sent_write _ _ E13), sent_print, B13, B10.
    rewrite <- !app_assoc. reflexivity.
  - split; [reflexivity|]. split; [reflexivity|]. split; [reflexivity|].
    cbn [maxColumn set_prevByte set_column].
    destruct (write_keeps ASCII_CR (print s w)) as [M1 _].
    destruct (print_keeps s w) as [M2 _].
    rewrite M1, M2. reflexivity.
Qed.

Lemma sent_feed_manually (x : nat) (w : World) :
  sent (feed_manually x w) = sent w ++ repeat ASCII_LF x.
Proof.
  assert (B10 : written_byte ASCII_LF = ASCII_LF)
    by (unfold written_byte; destruct DENMARK; reflexivity).
  assert (E10 : (uint8 ASCII_LF =? 0x13) = false) by reflexivity.
  revert w. induction x as [|x IH]; intros w; cbn [feed_manually repeat].
  - symmetry. apply app_nil_r.
  - unfold seq_op. rewrite IH, (sent_write _ _ E10), B10, <- app_assoc.
    reflexivity.
Qed.

Lemma pp_feed_manually (x : nat) (w : World) :
  pp (feed_manually (S x) w) = set_column 0 (set_prevByte ASCII_LF (pp w)).
Proof.
  revert w. induction x as [|x IH]; intros w.
  - cbn [feed_manually]. unfold seq_op, skip. rewrite pp_write_LF. reflexivity.
  - change (feed_manually (S (S x)) w)
      with (feed_manually (S x) (write_ ASCII_LF w)).
    rewrite IH, pp_write_LF. reflexivity.
Qed.

(** X11.  [feed(x)], [x] taken as a byte.  On firmware 264 and later it
    sends ESC d x, and on older firmware [x] line feeds through [write].
    Either way the column is 0 and a newline is recorded afterwards and
    nothing else of the print state changes, except for [x = 0] on older
    firmware, where the call does nothing at all. *)
Theorem feed_lines (x : Z) (w : World) :
  sent (feed x w)
  = sent w ++ (if 264 <=? PRINTER_FIRMWARE
               then [ASCII_ESC; chr "d"; uint8 x]
               else repeat ASCII_LF (Z.to_nat (uint8 x))) /\
  (264 <= PRINTER_FIRMWARE \/ uint8 x <> 0 ->
   pp (feed x w) = set_column 0 (set_prevByte ASCII_LF (pp w))) /\
  (PRINTER_FIRMWARE < 264 -> uint8 x = 0 -> feed x w = w).
Proof.
  unfold feed. cbv zeta. pose proof (uint8_range x) as R.
  destruct (Z.leb_spec 264 PRINTER_FIRMWARE) as [F|F].
  - split; [|split].
    + unfold seq_op. rewrite !sent_upd, sent_writeBytes3, uint8_idem.
      reflexivity.
    + intros _. reflexivity.
    + intros G. lia.
  - split; [apply sent_feed_manually|]. split.
    + intros [G|G]; [lia|].
      destruct (Z.to_nat (uint8 x)) as [|n] eqn:En; [lia|].
      apply pp_feed_manually.
    + intros _ G. rewrite G. reflexivity.
Qed.

(** ** Barcodes *)

Lemma map_nth_firstn {A : Type} (f : Z -> A) (l : list Z) (n : nat) :
  (n <= length l)%nat ->
  map (fun i => f (nth i l 0)) (seq 0 n) = map f (firstn n l).
Proof.
  revert n. induction l as [|a l IH]; intros n H; cbn [length] in H.
  - replace n with O by lia. reflexivity.
  - destruct n as [|n]; [reflexivity|].
    cbn [seq map firstn nth]. f_equal.
    rewrite <- seq_shift, map_map. cbn [nth]. apply IH. lia.
Qed.

(** What the call sends before the text, after the line it feeds. *)
Lemma sent_barcode_head (type : Z) (w : World) :
  sent ((writeBytes3 ASCII_GS (chr "H") 2 ;;
         writeBytes3 ASCII_GS (chr "w") 3 ;;
         writeBytes3 ASCII_GS (chr "k") type) w)
  = sent w ++ [ASCII_GS; chr "H"; 2; ASCII_GS; chr "w"; 3;
               ASCII_GS; chr "k"; uint8 type].
Proof.
  unfold seq_op. rewrite !sent_writeBytes3, <- !app_assoc. reflexivity.
Qed.

(** The copy loop on a text without NUL of [i] characters more than those
    already sent: it sends them and the NUL, given as many rounds and one
    more. *)
Lemma barcode_copy_ends (text : list Z) (n : nat) :
  Forall (fun c => uint8 c <> 0) text ->
  (length text < 256)%nat ->
  forall (i fuel : nat) (w : World),
    (i + n = length text)%nat -> (n < fuel)%nat ->
    exists w',
      barcode_copy fuel text (Z.of_nat i) w = Some w' /\
      sent w' = sent w ++ map uint8 (skipn i text) ++ [0].
Proof.
  intros NZ L. induction n as [|n IH]; intros i fuel w Hi Hf;
    (destruct fuel as [|fuel]; [lia|]); cbn [barcode_copy];
    unfold char_at; rewrite Nat2Z.id.
  - rewrite nth_overflow by lia. change (uint8 0 =? 0) with true.
    cbn [negb]. eexists. split; [reflexivity|].
    rewrite sent_writeBytes1, skipn_all2 by lia. reflexivity.
  - assert (I : In (nth i text 0) text) by (apply nth_In; lia).
    rewrite Forall_forall in NZ. pose proof (NZ _ I) as C.
    apply Z.eqb_neq in C. rewrite C. cbn [negb].
    rewrite (uint8_small (Z.of_nat i + 1)) by lia.
    replace (Z.of_nat i + 1) with (Z.of_nat (S i)) by lia.
    destruct (IH (S i) fuel (writeBytes1 (uint8 (nth i text 0)) w))
      as (w' & E & S'); [lia | lia |].
    exists w'. split; [exact E|].
    rewrite S', sent_writeBytes1, uint8_idem, <- app_assoc.
    rewrite (skipn_nth_cons text i) by lia. reflexivity.
Qed.

(** The same loop on a text of 256 characters or more: the index is a byte
    and never leaves the first 256 characters, none of which ends the loop. *)
Lemma barcode_copy_hangs (text : list Z) :
  Forall (fun c => uint8 c <> 0) text ->
  (256 <= length text)%nat ->
  forall (fuel : nat) (i : Z) (w : World),
    0 <= i < 256 -> barcode_copy fuel text i w = None.
Proof.
  intros NZ L. induction fuel as [|fuel IH]; intros i w Hi; [reflexivity|].
  cbn [barcode_copy]. unfold char_at.
  assert (I : In (nth (Z.to_nat i) text 0) text) by (apply nth_In; lia).
  rewrite Forall_forall in NZ. pose proof (NZ _ I) as C.
  apply Z.eqb_neq in C. rewrite C. cbn [negb].
  apply IH, uint8_range.
Qed.

(** X12.  [printBarcode] on firmware 264 and later feeds a line (ESC d 1),
    sends GS H 2, GS w 3 and GS k with the type, then the length of the
    text as one byte and that many characters: a text of more than 255
    characters (and no more than 32767, which an [int] is sure to hold) is
    cut to its first 255.  It always returns, with the column at 0 and a
    newline recorded. *)
Theorem printBarcode_length_prefixed (text : list Z) (type : Z) (w : World) :
  264 <= PRINTER_FIRMWARE ->
  strlen text <= 32767 ->
  exists w',
    printBarcode text type w = Some w' /\
    sent w'
    = sent w ++ [ASCII_ESC; chr "d"; 1]
      ++ [ASCII_GS; chr "H"; 2; ASCII_GS; chr "w"; 3;
          ASCII_GS; chr "k"; uint8 type]
      ++ [Z.min (strlen text) 255] ++ map uint8 (firstn 255 text) /\
    pp w' = set_prevByte ASCII_LF (set_column 0 (pp w)).
Proof.
  intros F _. apply Z.leb_le in F. unfold printBarcode, feed. rewrite F.
  cbv zeta. eexists. split; [reflexivity|].
  set (len := if strlen text >? 255 then 255 else strlen text).
  assert (Hlen : len = Z.min (strlen text) 255 /\ 0 <= len <= 255).
  { subst len. unfold strlen. destruct (Z.gtb_spec (Z.of_nat (length text)) 255); lia. }
  destruct Hlen as [Hmin Hr].
  split.
  - rewrite sent_upd.
    change (sent ((writeBytes1 len ;;
                   for_lt len (fun i => writeBytes1 (char_at text i)))
                    ((writeBytes3 ASCII_GS (chr "H") 2 ;;
                      writeBytes3 ASCII_GS (chr "w") 3 ;;
                      writeBytes3 ASCII_GS (chr "k") type)
                       ((writeBytes3 ASCII_ESC (chr "d") (uint8 1) ;;
                         upd (set_prevByte ASCII_LF) ;;
                         upd (set_column 0)) w)))
            = sent w ++ [ASCII_ESC; chr "d"; 1]
              ++ [ASCII_GS; chr "H"; 2; ASCII_GS; chr "w"; 3;
                  ASCII_GS; chr "k"; uint8 type]
              ++ [Z.min (strlen text) 255] ++ map uint8 (firstn 255 text)).
    unfold seq_op at 1. rewrite sent_for_lt_write, sent_writeBytes1.
    rewrite sent_barcode_head. unfold seq_op. rewrite !sent_upd, sent_writeBytes3.
    rewrite <- !app_assoc. f_equal. f_equal. f_equal.
    rewrite (uint8_small len) by lia. rewrite Hmin. cbn [app]. f_equal.
    unfold char_at.
    rewrite (map_ext (fun i => uint8 (nth (Z.to_nat (Z.of_nat i)) text 0))
                     (fun i => uint8 (nth i text 0)))
      by (intros a; rewrite Nat2Z.id; reflexivity).
    rewrite map_nth_firstn by (unfold strlen; lia).
    f_equal. unfold strlen.
    destruct (Nat.le_gt_cases (length text) 255) as [S'|S'].
    + rewrite Z.min_l, Nat2Z.id by lia. rewrite !firstn_all2 by lia. reflexivity.
    + rewrite Z.min_r by lia. reflexivity.
  - unfold seq_op. cbn [upd pp]. rewrite pp_for_lt_write. reflexivity.
Qed.

(** X13.  [printBarcode] on firmware before 264 feeds a line through
    [write] and sends GS H 2, GS w 3 and GS k with the type, then the text
    and the NUL that ends it.  Its index into the text is a byte: on a text
    of 256 characters or more it goes round before the NUL is met and the
    call never returns. *)
Theorem printBarcode_nul_terminated (text : list Z) (type : Z) (w : World) :
  PRINTER_FIRMWARE < 264 ->
  Forall (fun c => uint8 c <> 0) text ->
  ((length text < 256)%nat ->
   exists w',
     printBarcode text type w = Some w' /\
     sent w'
     = sent w ++ [ASCII_LF]
       ++ [ASCII_GS; chr "H"; 2; ASCII_GS; chr "w"; 3;
           ASCII_GS; chr "k"; uint8 type]
       ++ map uint8 text ++ [0] /\
     pp w' = set_prevByte ASCII_LF (set_column 0 (pp w))) /\
  ((256 <= length text)%nat ->
   printBarcode text type w = None /\
   forall (fuel : nat) (i : Z) (w0 : World),
     0 <= i < 256 -> barcode_copy fuel text i w0 = None).
Proof.
  intros F NZ.
  assert (F' : (264 <=? PRINTER_FIRMWARE) = false) by (apply Z.leb_gt; exact F).
  assert (B10 : written_byte ASCII_LF = ASCII_LF)
    by (unfold written_byte; destruct DENMARK; reflexivity).
  assert (E10 : (uint8 ASCII_LF =? 0x13) = false) by reflexivity.
  unfold printBarcode. rewrite F'.
  set (w1 := (feed 1 ;; writeBytes3 ASCII_GS (chr "H") 2 ;;
              writeBytes3 ASCII_GS (chr "w") 3 ;;
              writeBytes3 ASCII_GS (chr "k") type) w).
  assert (P1 : pp w1 = set_prevByte ASCII_LF (set_column 0 (pp w))).
  { change (pp w1) with (pp (feed 1 w)). unfold feed. rewrite F'.
    change (Z.to_nat (uint8 1)) with 1%nat. cbn [feed_manually].
    unfold seq_op, skip. apply pp_write_LF. }
  assert (S1 : sent w1
               = sent w ++ [ASCII_LF]
                 ++ [ASCII_GS; chr "H"; 2; ASCII_GS; chr "w"; 3;
                     ASCII_GS; chr "k"; uint8 type]).
  { change w1 with ((writeBytes3 ASCII_GS (chr "H") 2 ;;
                     writeBytes3 ASCII_GS (chr "w") 3 ;;
                     writeBytes3 ASCII_GS (chr "k") type) (feed 1 w)).
    rewrite sent_barcode_head. unfold feed. rewrite F'.
    change (Z.to_nat (uint8 1)) with 1%nat. cbn [feed_manually].
    unfold seq_op, skip. rewrite (sent_write _ _ E10), B10, <- app_assoc.
    reflexivity. }
  clearbody w1. split.
  - intros L.
    destruct (barcode_copy_ends text (length text) NZ L 0%nat 256%nat w1)
      as (w' & E & S'); [reflexivity | lia |].
    change (Z.of_nat 0) with 0 in E. rewrite E. cbn [option_map].
    eexists. split; [reflexivity|]. split.
    + rewrite sent_upd, S', S1. cbn [skipn]. rewrite <- !app_assoc.
      reflexivity.
    + cbn [upd pp]. rewrite (pp_barcode_copy _ _ _ _ _ E), P1. reflexivity.
  - intros L. split.
    + rewrite (barcode_copy_hangs text NZ L 256 0 w1) by lia. reflexivity.
    + apply (barcode_copy_hangs text NZ L).
Qed.

(** ** The bitmap with its sizes in the stream *)

Lemma to_int_small (bits z : Z) :
  1 <= bits -> 0 <= z < 2 ^ (bits - 1) -> to_int bits z = z.
Proof.
  intros Hb Hz. unfold to_int. cbv zeta.
  assert (P : 2 ^ bits = 2 * 2 ^ (bits - 1)).
  { replace bits with (Z.succ (bits - 1)) at 1 by lia.
    apply Z.pow_succ_r. lia. }
  rewrite Z.mod_small by lia.
  replace (z <? 2 ^ (bits - 1)) with true by (symmetry; apply Z.ltb_lt; lia).
  reflexivity.
Qed.


Lemma to_int_16 (z : Z) :
  17 <= INT_BITS -> 0 <= z < 65536 -> to_int INT_BITS z = z.
Proof.
  intros Hb Hz. apply to_int_small; [lia|].
  assert (2 ^ 16 <= 2 ^ (INT_BITS - 1)) by (apply Z.pow_le_mono_r; lia).
  change (2 ^ 16) with 65536 in *. lia.
Qed.





(** X15.  The four bytes of the sizes are read without waiting.  When the
    stream has nothing to give at the time of the call, each read returns -1
    and both sizes come out as 65535.  Where [int] has more than 16 bits the
    call then waits for 65535 rows of 8192 bytes and does not return unless
    the stream delivers them all.  Where it has 16 the sizes arrive as -1:
    with the handshake the call returns at once with nothing printed,
    without it the chunk limit is a division by zero. *)
Theorem header_not_waited_for (rest : source) (wd : World) :
  0 <= maxChunkHeight (pp wd) ->
  let late := -1 :: -1 :: -1 :: -1 :: rest in
  (17 <= INT_BITS ->
   printBitmap_ada_header late wd
   = printBitmap_ada_stream 65535 65535 rest wd /\
   printBitmap_ada_header [] wd = printBitmap_ada_stream 65535 65535 [] wd /\
   (Z.of_nat (available rest) < 65535 * 8192 ->
    printBitmap_ada_header late wd = None) /\
   printBitmap_ada_header [] wd = None) /\
  (INT_BITS = 16 ->
   printBitmap_ada_header late wd
   = printBitmap_ada_stream (-1) (-1) rest wd /\
   printBitmap_ada_header [] wd = printBitmap_ada_stream (-1) (-1) [] wd /\
   (dtrEnabled (pp wd) = true ->
    printBitmap_ada_header late wd = Some (upd (set_prevByte ASCII_LF) wd) /\
    printBitmap_ada_header [] wd = Some (upd (set_prevByte ASCII_LF) wd)) /\
   (dtrEnabled (pp wd) = false ->
    printBitmap_ada_header late wd = None /\
    printBitmap_ada_header [] wd = None)).
Proof.
  intros Hm late. subst late.
  assert (G : forall src, Z.of_nat (available src) < 65535 * 8192 ->
                          printBitmap_ada_stream 65535 65535 src wd = None).
  { intros src Hsrc. unfold printBitmap_ada_stream.
    destruct (ada_chunkHeightLimit 65535 (pp wd)) as [limit|] eqn:L;
      [|reflexivity].
    pose proof (ada_chunkHeightLimit_nonneg 65535 (pp wd) limit Hm L) as Hl.
    destruct (ada_stream_chunks (Z.to_nat 65535) 65535 (ada_rowBytes 65535)
                (ada_rowBytesClipped 65535) limit src 0 wd) as [w'|] eqn:E;
      [|reflexivity].
    apply ada_stream_chunks_available in E;
      [|vm_compute; split; discriminate | exact Hl].
    change (Z.max 0 (65535 - 0) * ada_rowBytes 65535) with (65535 * 8192) in E.
    lia. }
  assert (H1 : forall v src,
             to_int INT_BITS 65535 = v ->
             printBitmap_ada_header (-1 :: -1 :: -1 :: -1 :: src) wd
             = printBitmap_ada_stream v v src wd /\
             printBitmap_ada_header [] wd = printBitmap_ada_stream v v [] wd).
  { intros v src <-. split; reflexivity. }
  split.
  - intros B17.
    destruct (H1 65535 rest (to_int_16 65535 B17 ltac:(lia))) as [E1 E2].
    split; [exact E1|]. split; [exact E2|]. split.
    + intros Hs. rewrite E1. apply G, Hs.
    + rewrite E2. apply G. cbn [available filter length Z.of_nat]. lia.
  - intros B16.
    assert (T : to_int INT_BITS 65535 = -1) by (rewrite B16; reflexivity).
    destruct (H1 (-1) rest T) as [E1 E2].
    split; [exact E1|]. split; [exact E2|].
    rewrite E1, E2. unfold printBitmap_ada_stream, ada_chunkHeightLimit.
    change (ada_rowBytesClipped (-1)) with 0. cbv zeta.
    split; intros D; rewrite D; split; reflexivity.
Qed.

(** ** Sleep *)

(** X16.  [sleepAfter] takes its argument as 16 bits.  Firmware 264 and
    later gets both bytes, low byte first; older firmware gets the low byte
    alone, so there a number of seconds and its remainder modulo 256 do the
    same, and a multiple of 256 sends the 0 that stands for no sleep at
    all. *)
Theorem sleepAfter_encoding (seconds : Z) (w : World) :
  let s := uint16 seconds in
  sent (sleepAfter seconds w)
  = sent w ++ (if 264 <=? PRINTER_FIRMWARE
               then [ASCII_ESC; chr "8"; s mod 256; s / 256]
               else [ASCII_ESC; chr "8"; s mod 256]) /\
  le16 (s mod 256) (s / 256) = s /\ 0 <= s / 256 < 256 /\
  (PRINTER_FIRMWARE < 264 ->
   sleepAfter seconds w = sleepAfter (seconds mod 256) w /\
   (seconds mod 256 = 0 ->
    sent (sleepAfter seconds w) = sent w ++ [ASCII_ESC; chr "8"; 0])) /\
  pp (sleepAfter seconds w) = pp w.
Proof.
  intros s.
  assert (R : 0 <= s < 65536) by (apply Z.mod_pos_bound; lia).
  assert (H8 : uint8 (Z.shiftr s 8) = s / 256).
  { rewrite Z.shiftr_div_pow2 by lia. change (2 ^ 8) with 256.
    apply uint8_small. split; [apply Z.div_pos; lia|].
    apply Z.div_lt_upper_bound; lia. }
  assert (M : uint8 (uint16 (seconds mod 256)) = uint8 s).
  { subst s. unfold uint8, uint16.
    rewrite (Z.mod_small (seconds mod 256) 65536)
      by (pose proof (Z.mod_pos_bound seconds 256); lia).
    rewrite Z.mod_mod by lia.
    rewrite (Z.mod_eq seconds 65536) by lia.
    replace (seconds - 65536 * (seconds / 65536))
      with (seconds + (- 256 * (seconds / 65536)) * 256) by lia.
    symmetry. apply Z.mod_add. lia. }
  unfold sleepAfter. fold s.
  split; [|split; [|split; [|split]]].
  - destruct (264 <=? PRINTER_FIRMWARE).
    + rewrite sent_writeBytes4, H8. reflexivity.
    + rewrite sent_writeBytes3. reflexivity.
  - unfold le16. pose proof (Z.div_mod s 256). lia.
  - split; [apply Z.div_pos; lia | apply Z.div_lt_upper_bound; lia].
  - intros F. apply Z.leb_gt in F. rewrite F.
    assert (Q : writeBytes3 ASCII_ESC (chr "8") (uint16 (seconds mod 256)) w
                = writeBytes3 ASCII_ESC (chr "8") s w).
    { unfold writeBytes3, seq_op, stream_write. rewrite M. reflexivity. }
    split; [symmetry; exact Q|].
    intros Z0. rewrite sent_writeBytes3. rewrite <- M, Z0. reflexivity.
  - destruct (264 <=? PRINTER_FIRMWARE); reflexivity.
Qed.

(** ** Tabs *)

(** X17.  [tab] sends a tab (0x09) and moves the column to the next multiple
    of 4 above it, whatever [maxColumn] is; from 252 on it goes back to 0,
    the column being a byte.  Nothing else of the print state changes. *)
Theorem tab_next_stop (w : World) :
  0 <= column (pp w) < 256 ->
  let c := column (pp w) in
  let c' := column (pp (tab w)) in
  sent (tab w) = sent w ++ [ASCII_TAB] /\
  pp (tab w) = set_column c' (pp w) /\
  (c < 252 -> c' = 4 * (c / 4 + 1) /\ c < c' <= c + 4 /\ c' mod 4 = 0) /\
  (252 <= c -> c' = 0).
Proof.
  intros R c c'. destruct (tab_cols w) as [_ C]. fold c c' in C.
  assert (Q : (c + 4) / 4 = c / 4 + 1).
  { replace (c + 4) with (c + 1 * 4) by lia. apply Z.div_add. lia. }
  assert (B : 0 <= c / 4 < 64).
  { split; [apply Z.div_pos; lia | apply Z.div_lt_upper_bound; lia]. }
  pose proof (Z.div_mod c 4) as D. pose proof (Z.mod_pos_bound c 4) as P.
  split; [apply sent_writeBytes1|]. split.
  - subst c'. unfold tab, seq_op.
    cbn [upd pp writeBytes1 stream_write emit set_column column].
    unfold set_column. rewrite uint8_idem. reflexivity.
  - rewrite Q in C. split.
    + intros L. assert (S' : c / 4 + 1 < 64) by lia.
      rewrite Z.mod_small in C by lia.
      split; [exact C|]. split; [lia|].
      rewrite C, Z.mul_comm. apply Z.mod_mul. lia.
    + intros L. assert (S' : c / 4 + 1 = 64) by lia.
      rewrite C, S'. reflexivity.
Qed.

(** ** Initialisation *)

Lemma uint8_land (a b : Z) : uint8 (Z.land a b) = Z.land (uint8 a) b.
Proof.
  unfold uint8. change 256 with (2 ^ 8). rewrite <- !Z.land_ones by lia.
  rewrite <- !Z.land_assoc, (Z.land_comm b). reflexivity.
Qed.

(** The flags [setDefault] clears: double height and bold, and inverse where
    it is a flag (before firmware 268). *)
Lemma setDefault_printMode (w : World) :
  printMode (pp (setDefault w))
  = Z.land (uint8 (printMode (pp w)))
      (Z.lnot (if 268 <=? PRINTER_FIRMWARE then 24 else 26)).
Proof.
  set (w1 := justify (chr "L") (online w)).
  assert (P1 : printMode (pp w1) = printMode (pp w)) by reflexivity.
  set (w2 := inverseOff w1).
  set (w3 := doubleHeightOff w2).
  set (w4 := setLineHeight 30 w3).
  set (w5 := boldOff w4).
  assert (E : printMode (pp (setDefault w)) = printMode (pp w5)) by reflexivity.
  rewrite E. unfold w5, boldOff. rewrite printMode_unsetPrintMode.
  change (printMode (pp w4)) with (printMode (pp w3)).
  unfold w3, doubleHeightOff. rewrite printMode_unsetPrintMode.
  unfold w2, inverseOff. destruct (268 <=? PRINTER_FIRMWARE).
  - change (printMode (pp (writeBytes3 ASCII_GS (chr "B") 0 w1)))
      with (printMode (pp w1)).
    rewrite P1, !uint8_land, uint8_idem, <- !Z.land_assoc. reflexivity.
  - rewrite printMode_unsetPrintMode, P1.
    rewrite !uint8_land, !uint8_idem, <- !Z.land_assoc. reflexivity.
Qed.

Lemma setDefault_keeps (w : World) :
  dtrPin (pp (setDefault w)) = dtrPin (pp w) /\
  dtrEnabled (pp (setDefault w)) = dtrEnabled (pp w) /\
  maxChunkHeight (pp (setDefault w)) = maxChunkHeight (pp w) /\
  dotPrintTime (pp (setDefault w)) = dotPrintTime (pp w) /\
  dotFeedTime (pp (setDefault w)) = dotFeedTime (pp w).
Proof.
  unfold setDefault, inverseOff.
  destruct (268 <=? PRINTER_FIRMWARE); repeat split.
Qed.

(** What [begin] leaves of the wiring and pacing, and of the flags. *)
Lemma begin_carries (heatTime : Z) (w : World) :
  dtrPin (pp (begin heatTime w)) = dtrPin (pp w) /\
  dtrEnabled (pp (begin heatTime w))
  = ((dtrPin (pp w) <? 255) || dtrEnabled (pp w)) /\
  (maxChunkHeight (pp (begin heatTime w)) = 255 /\
   dotPrintTime (pp (begin heatTime w)) = 1 /\
   dotFeedTime (pp (begin heatTime w)) = 1) /\
  printMode (pp (begin heatTime w))
  = Z.land (uint8 (printMode (pp w)))
      (Z.lnot (if 268 <=? PRINTER_FIRMWARE then 24 else 26)).
Proof.
  set (pre := wake;; reset;; writeBytes2 ASCII_ESC (chr "7");;
              writeBytes3 11 heatTime 40;;
              (fun w0 : World =>
                 if dtrPin (pp w0) <? 255
                 then (pinMode_pullup (dtrPin (pp w0));;
                       writeBytes3 ASCII_GS (chr "a") (Z.shiftl 1 5);;
                       upd (set_dtrEnabled true)) w0
                 else w0);;
              upd (set_dotPrintTime 1);; upd (set_dotFeedTime 1);;
              upd (set_maxChunkHeight 255)).
  change (begin heatTime w) with (setDefault (pre w)).
  destruct (begin_cols heatTime w) as [C _].
  change (begin heatTime w) with (setDefault (pre w)) in C.
  assert (D : dtrPin (pp (reset (wake w))) = dtrPin (pp w)
              /\ dtrEnabled (pp (reset (wake w))) = dtrEnabled (pp w)
              /\ printMode (pp (reset (wake w))) = printMode (pp w)).
  { unfold reset, seq_op.
    assert (W : pp (wake w) = pp w) by apply wake_pp.
    destruct (264 <=? PRINTER_FIRMWARE);
      cbn [pp upd writeBytes2 writeBytes4 seq_op skip stream_write emit
           set_barcodeHeight set_lineSpacing set_charHeight set_maxColumn
           set_column set_prevByte dtrPin dtrEnabled printMode];
      rewrite W; repeat split. }
  destruct D as (D1 & D2 & D3).
  assert (Q : dtrPin (pp (pre w)) = dtrPin (pp w)
              /\ dtrEnabled (pp (pre w))
                  = ((dtrPin (pp w) <? 255) || dtrEnabled (pp w))
              /\ printMode (pp (pre w)) = printMode (pp w)).
  { set (w0 := writeBytes3 11 heatTime 40
                 (writeBytes2 ASCII_ESC (chr "7") (reset (wake w)))).
    assert (E0 : pp w0 = pp (reset (wake w))) by reflexivity.
    set (hs := fun w1 : World =>
                 if dtrPin (pp w1) <? 255
                 then (pinMode_pullup (dtrPin (pp w1));;
                       writeBytes3 ASCII_GS (chr "a") (Z.shiftl 1 5);;
                       upd (set_dtrEnabled true)) w1
                 else w1).
    assert (E1 : pp (pre w)
                 = set_maxChunkHeight 255
                     (set_dotFeedTime 1 (set_dotPrintTime 1 (pp (hs w0)))))
      by reflexivity.
    rewrite E1.
    cbn [set_maxChunkHeight set_dotFeedTime set_dotPrintTime
         dtrPin dtrEnabled printMode].
    unfold hs. rewrite E0, D1.
    destruct (dtrPin (pp w) <? 255);
      unfold seq_op;
      cbn [pp upd set_dtrEnabled dtrPin dtrEnabled printMode orb];
      rewrite ?pp_writeBytes3; unfold pinMode_pullup, emit; cbn [pp];
      rewrite ?E0, ?D1, ?D2, ?D3; repeat split. }
  destruct Q as (Q1 & Q2 & Q3).
  assert (PM : printMode (pp (setDefault (pre w)))
               = Z.land (uint8 (printMode (pp w)))
                   (Z.lnot (if 268 <=? PRINTER_FIRMWARE then 24 else 26)))
    by (rewrite setDefault_printMode, Q3; reflexivity).
  destruct (setDefault_keeps (pre w)) as (K1 & K2 & K3 & K4 & K5).
  split; [rewrite K1; exact Q1|]. split; [rewrite K2; exact Q2|].
  split; [rewrite K3, K4, K5; repeat split | exact PM].
Qed.

(** X18.  [begin] on a printer in any state, such as the constructor leaves
    it, which sets only [dtrPin] and [dtrEnabled].  Every field of the print
    state gets its initial value
    but [printMode]: of it only the double-height and bold flags are
    cleared, and the inverse flag before firmware 268; the upside-down,
    double-width and strike flags, and the two bits without a name, stay
    what the memory held.  The handshake is switched on for a pin below 255
    and never switched off. *)
Theorem begin_any_state (heatTime : Z) (w : World) :
  let p := pp w in
  let p' := pp (begin heatTime w) in
  (prevByte p' = ASCII_LF /\ column p' = 0 /\ maxColumn p' = 32 /\
   charHeight p' = 24 /\ lineSpacing p' = 6 /\ barcodeHeight p' = 50 /\
   maxChunkHeight p' = 255 /\ dotPrintTime p' = 1 /\ dotFeedTime p' = 1) /\
  dtrPin p' = dtrPin p /\
  dtrEnabled p' = ((dtrPin p <? 255) || dtrEnabled p) /\
  printMode p'
  = Z.land (uint8 (printMode p))
      (Z.lnot (if 268 <=? PRINTER_FIRMWARE then 24 else 26)) /\
  (forall n, n = 2 \/ n = 5 \/ n = 6 \/ n = 0 \/ n = 7 ->
     Z.testbit (printMode p') n = Z.testbit (uint8 (printMode p)) n).
Proof.
  intros p p'. subst p p'.
  destruct (begin_cols heatTime w) as [C _].
  destruct (begin_carries heatTime w) as (K1 & K2 & K3 & PM).
  split; [|split; [|split; [|split]]].
  - split; [reflexivity|]. split; [exact C|].
    do 4 (split; [reflexivity|]). exact K3.
  - exact K1.
  - exact K2.
  - exact PM.
  - intros n Hn. rewrite PM, Z.land_spec, Z.lnot_spec by lia.
    destruct (268 <=? PRINTER_FIRMWARE);
      destruct Hn as [-> | [-> | [-> | [-> | ->]]]]; cbn [Z.testbit];
      apply andb_true_r.
Qed.

(** ** A reply that comes late *)

(** X19.  [hasPaper] reads whatever byte is first in the receive queue and
    empties nothing beforehand.  A reply that arrives after the tenth poll
    stays in the queue: the call answers false when its 1000 ms are over,
    and the next call takes that byte, the reply to the request before its
    own, as its answer. *)
Theorem hasPaper_late_reply (w : World) (t b : Z) (rest : list (Z * Z)) :
  incoming w = (t, b) :: rest ->
  clock w + 900 < t <= clock w + 1900 ->
  let w1 := snd (hasPaper w) in
  fst (hasPaper w) = false /\
  clock w1 = clock w + 1000 /\
  incoming w1 = (t, b) :: rest /\
  fst (hasPaper w1) = (Z.land b 4 =? 0) /\
  incoming (snd (hasPaper w1)) = rest.
Proof.
  intros Hi Ht w1. subst w1.
  set (w0 := writeBytes3 0x10 0x04 4 w).
  assert (I0 : incoming w0 = incoming w) by reflexivity.
  assert (C0 : clock w0 = clock w) by reflexivity.
  assert (H1 : hasPaper w
               = (false, mkWorld (pp w0) (log w0 ++ idle_rounds 10)
                           (clock w0 + 100 * Z.of_nat 10) (incoming w0))).
  { unfold hasPaper. fold w0.
    rewrite (hasPaper_poll_miss 10 w0) by (rewrite I0, Hi, C0; lia).
    reflexivity. }
  rewrite H1. cbn [fst snd clock incoming]. rewrite I0, Hi, C0.
  split; [reflexivity|]. split; [lia|]. split; [reflexivity|].
  unfold hasPaper.
  set (w2 := writeBytes3 0x10 0x04 4 _).
  assert (I2 : incoming w2 = (t, b) :: rest) by reflexivity.
  assert (C2 : clock w2 = clock w + 100 * Z.of_nat 10)
    by reflexivity.
  destruct (hasPaper_poll_hit 9 w2 t b rest I2) as (k & Hk & R).
  { rewrite C2. lia. }
  rewrite R. cbn [fst snd incoming]. split; reflexivity.
Qed.

(** ** QR codes *)

(** X20.  [printQRcode] sends five commands GS ( k: the model, the module
    size, the error correction level, the text, and the order to print.  A
    model outside 49..51 goes out as 50 and a module size outside 1..16 as
    3.  The text command carries the length of the text plus 3 as two
    bytes, low byte first, and then the whole text without its NUL, for a
    text of up to 65532 characters.  A newline is recorded; nothing else of
    the print state changes. *)
Theorem printQRcode_layout (text : list Z)
    (errCorrect moduleSize model timeoutQR : Z) (w : World) :
  strlen text <= 65532 ->
  exists m ms ec lo hi,
    sent (printQRcode text errCorrect moduleSize model timeoutQR w)
    = sent w
      ++ [29; 40; 107; 4; 0; 49; 65; m; 0]
      ++ [29; 40; 107; 3; 0; 49; 67; ms]
      ++ [29; 40; 107; 3; 0; 49; 69; ec]
      ++ [29; 40; 107; lo; hi; 49; 80; 48] ++ map uint8 text
      ++ [29; 40; 107; 3; 0; 49; 81; 48] /\
    49 <= m <= 51 /\ 1 <= ms <= 16 /\ 48 <= ec <= 51 /\
    (49 <= uint8 model <= 51 -> m = uint8 model) /\
    (~ 49 <= uint8 model <= 51 -> m = 50) /\
    (1 <= uint8 moduleSize <= 16 -> ms = uint8 moduleSize) /\
    (~ 1 <= uint8 moduleSize <= 16 -> ms = 3) /\
    0 <= lo < 256 /\ 0 <= hi < 256 /\ le16 lo hi = strlen text + 3 /\
    pp (printQRcode text errCorrect moduleSize model timeoutQR w)
    = set_prevByte ASCII_LF (pp w).
Proof.
  intros L.
  assert (L0 : 0 <= strlen text) by (unfold strlen; lia).
  exists (if (uint8 model <? 49) || (uint8 model >? 51) then 50 else uint8 model).
  exists (if (uint8 moduleSize <? 1) || (uint8 moduleSize >? 16)
          then 3 else uint8 moduleSize).
  exists (if (uint8 errCorrect <? 48) || (uint8 errCorrect >? 51)
          then 48 else uint8 errCorrect).
  exists ((strlen text + 3) mod 256), ((strlen text + 3) / 256).
  assert (B : forall x a b k,
             a <= k <= b ->
             let v := if (x <? a) || (x >? b) then k else x in
             a <= v <= b /\ (a <= x <= b -> v = x) /\ (~ a <= x <= b -> v = k)).
  { intros x a b k Hk v. subst v.
    destruct (Z.ltb_spec x a); cbn [orb]; [lia|].
    destruct (Z.gtb_spec x b); lia. }
  destruct (B (uint8 model) 49 51 50) as (M1 & M2 & M3); [lia|].
  destruct (B (uint8 moduleSize) 1 16 3) as (S1 & S2 & S3); [lia|].
  destruct (B (uint8 errCorrect) 48 51 48) as (E1 & _ & _); [lia|].
  cbv zeta in M1, M2, M3, S1, S2, S3, E1.
  split; [|split; [exact M1|split; [exact S1|split; [exact E1|
          split; [exact M2|split; [exact M3|split; [exact S2|
          split; [exact S3|]]]]]]]].
  - rewrite sent_printQRcode.
    assert (U : uint16 (strlen text) = strlen text)
      by (unfold uint16; apply Z.mod_small; lia).
    rewrite U, Z.rem_mod_nonneg, Z.quot_div_nonneg by lia.
    rewrite (uint8_small ((strlen text + 3) mod 256))
      by (apply Z.mod_pos_bound; lia).
    rewrite (uint8_small ((strlen text + 3) / 256))
      by (split; [apply Z.div_pos; lia | apply Z.div_lt_upper_bound; lia]).
    unfold char_at.
    rewrite (map_ext (fun i => uint8 (nth (Z.to_nat (Z.of_nat i)) text 0))
                     (fun i => uint8 (nth i text 0)))
      by (intros a; rewrite Nat2Z.id; reflexivity).
    unfold strlen at 3. rewrite Nat2Z.id.
    rewrite map_nth_firstn, firstn_all by lia.
    reflexivity.
  - split; [apply Z.mod_pos_bound; lia|].
    split; [split; [apply Z.div_pos; lia | apply Z.div_lt_upper_bound; lia]|].
    split; [|apply printQRcode_pp].
    unfold le16. pose proof (Z.div_mod (strlen text + 3) 256). lia.
Qed.

(** ** The values of the geometry *)

Lemma geometry_kept (p p' : Pos_Printer) :
  charHeight p' = charHeight p -> maxColumn p' = maxColumn p ->
  geometry_values p -> geometry_values p'.
Proof. unfold geometry_values. intros -> ->. auto. Qed.

Lemma keeps_geometry_seq (f g : Op) :
  keeps_geometry f -> keeps_geometry g -> keeps_geometry (f ;; g).
Proof.
  intros Hf Hg w. unfold seq_op.
  destruct (Hf w) as [H1 M1]. destruct (Hg (f w)) as [H2 M2].
  split; congruence.
Qed.

Lemma write_geometry (c : Z) : keeps_geometry (write_ c).
Proof.
  intros w. destruct (uint8 c =? 0x13) eqn:E.
  - rewrite (write_stripped _ _ E). split; reflexivity.
  - unfold write_, write. cbn [snd]. rewrite (write_run_unfold c w E).
    cbv zeta.
    destruct ((written_byte c =? ASCII_LF)
              || (column (pp w) =? maxColumn (pp w))); split; reflexivity.
Qed.

Lemma print_geometry (s : list Z) : keeps_geometry (print s).
Proof.
  induction s as [|c s IH] using rev_ind; intros w.
  - split; reflexivity.
  - rewrite print_snoc. destruct (write_geometry c (print s w)) as [H1 M1].
    destruct (IH w) as [H2 M2]. split; congruence.
Qed.

Lemma feed_manually_geometry (x : nat) : keeps_geometry (feed_manually x).
Proof.
  induction x as [|x IH]; cbn [feed_manually].
  - intros w. split; reflexivity.
  - apply keeps_geometry_seq; [apply write_geometry | exact IH].
Qed.

Lemma feed_geometry (x : Z) : keeps_geometry (feed x).
Proof.
  unfold feed. destruct (264 <=? PRINTER_FIRMWARE).
  - intros w. split; reflexivity.
  - apply feed_manually_geometry.
Qed.

Lemma test_geometry : keeps_geometry test.
Proof.
  unfold test, println.
  apply keeps_geometry_seq; [apply keeps_geometry_seq | apply feed_geometry];
    apply print_geometry.
Qed.

Lemma printBarcode_geometry (text : list Z) (type : Z) (w w' : World) :
  printBarcode text type w = Some w' ->
  charHeight (pp w') = charHeight (pp w) /\
  maxColumn (pp w') = maxColumn (pp w).
Proof.
  unfold printBarcode. intros H.
  destruct (feed_geometry 1 w) as [G1 G2].
  set (w1 := (feed 1;; writeBytes3 ASCII_GS (chr "H") 2;;
              writeBytes3 ASCII_GS (chr "w") 3;;
              writeBytes3 ASCII_GS (chr "k") type) w) in H.
  assert (E1 : pp w1 = pp (feed 1 w)) by reflexivity.
  assert (E2 : exists w2, pp w2 = pp w1 /\ w' = upd (set_prevByte ASCII_LF) w2).
  { destruct (264 <=? PRINTER_FIRMWARE).
    - cbn [option_map] in H. inversion H. eexists. split; [|reflexivity].
      unfold seq_op. rewrite pp_for_lt_write. reflexivity.
    - destruct (barcode_copy 256 text 0 w1) as [w2|] eqn:B; [|discriminate].
      cbn [option_map] in H. inversion H. exists w2.
      split; [apply (pp_barcode_copy _ _ _ _ _ B) | reflexivity]. }
  destruct E2 as (w2 & E2 & ->). cbn [upd pp set_prevByte charHeight maxColumn].
  rewrite E2, E1. split; assumption.
Qed.

Lemma update_geometry_values (w : World) :
  geometry_values (pp (update_geometry w)).
Proof.
  rewrite update_geometry_pp. unfold geometry_values.
  cbn [set_maxColumn set_charHeight charHeight maxColumn].
  destruct (double_height (pp w)), (double_width (pp w)); split;
    first [left; reflexivity | right; reflexivity].
Qed.

Lemma setPrintMode_values (mask : Z) (w : World) :
  geometry_values (pp (setPrintMode mask w)).
Proof. rewrite setPrintMode_pp. apply update_geometry_values. Qed.

Lemma unsetPrintMode_values (mask : Z) (w : World) :
  geometry_values (pp (unsetPrintMode mask w)).
Proof. rewrite unsetPrintMode_pp. apply update_geometry_values. Qed.

Lemma setDefault_values (w : World) : geometry_values (pp (setDefault w)).
Proof.
  unfold setDefault, inverseOff.
  destruct (268 <=? PRINTER_FIRMWARE); split;
    first [left; reflexivity | right; reflexivity].
Qed.

Lemma begin_values (heatTime : Z) (w : World) :
  geometry_values (pp (begin heatTime w)).
Proof.
  change (begin heatTime w) with (setDefault
    ((wake;; reset;; writeBytes2 ASCII_ESC (chr "7");;
      writeBytes3 11 heatTime 40;;
      (fun w0 : World =>
         if dtrPin (pp w0) <? 255
         then (pinMode_pullup (dtrPin (pp w0));;
               writeBytes3 ASCII_GS (chr "a") (Z.shiftl 1 5);;
               upd (set_dtrEnabled true)) w0
         else w0);;
      upd (set_dotPrintTime 1);; upd (set_dotFeedTime 1);;
      upd (set_maxChunkHeight 255)) w)).
  apply setDefault_values.
Qed.

Ltac geometry_same w :=
  apply (geometry_kept (pp w)); [reflexivity | reflexivity | assumption].

Ltac geometry_set :=
  split; first [left; reflexivity | right; reflexivity].

Lemma step_geometry_values (o : op) (w w' : World) :
  step o w = Some w' ->
  geometry_values (pp w) -> geometry_values (pp w').
Proof.
  intros Hs G.
  destruct o; cbn [step] in Hs;
    try (injection Hs as <-);
    try rewrite printBitmap_pp in *;
    try rewrite defineBitImage_pp in *;
    try rewrite defineNVBitmap_pp in *;
    try rewrite defineNVBitmap2_pp in *;
    try rewrite hasPaper_pp in *;
    try rewrite printQRcode_pp in *;
    try rewrite wake_pp in *.
  - (* setTimes *) geometry_same w.
  - (* write *)
    destruct (write_geometry c w) as [H1 M1].
    apply (geometry_kept (pp w)); assumption.
  - (* begin *)
    apply begin_values.
  - (* reset *)
    unfold reset, seq_op. destruct (264 <=? PRINTER_FIRMWARE); geometry_set.
  - (* setDefault *) apply setDefault_values.
  - (* test *)
    destruct (test_geometry w) as [H1 M1].
    apply (geometry_kept (pp w)); assumption.
  - (* testPage *) geometry_same w.
  - (* setBarcodeHeight *) geometry_same w.
  - (* printBarcode *)
    destruct (printBarcode_geometry _ _ _ _ Hs) as [H1 M1].
    apply (geometry_kept (pp w)); assumption.
  - (* setPrintMode *) apply setPrintMode_values.
  - (* unsetPrintMode *) apply unsetPrintMode_values.
  - (* writePrintMode *) geometry_same w.
  - (* normal *) geometry_same w.
  - (* inverseOn *)
    unfold inverseOn. destruct (268 <=? PRINTER_FIRMWARE);
      [geometry_same w | apply setPrintMode_values].
  - (* inverseOff *)
    unfold inverseOff. destruct (268 <=? PRINTER_FIRMWARE);
      [geometry_same w | apply unsetPrintMode_values].
  - apply setPrintMode_values.
  - apply unsetPrintMode_values.
  - apply setPrintMode_values.
  - apply unsetPrintMode_values.
  - apply setPrintMode_values.
  - apply unsetPrintMode_values.
  - apply setPrintMode_values.
  - apply unsetPrintMode_values.
  - apply setPrintMode_values.
  - apply unsetPrintMode_values.
  - (* justify *) geometry_same w.
  - (* feed *)
    destruct (feed_geometry x w) as [H1 M1].
    apply (geometry_kept (pp w)); assumption.
  - (* feedRows *) geometry_same w.
  - (* flush *) geometry_same w.
  - (* setSize *)
    unfold setSize.
    destruct (toupper value =? chr "M"); [geometry_set|].
    destruct (toupper value =? chr "L"); geometry_set.
  - (* underlineOn *) geometry_same w.
  - (* underlineOff *) geometry_same w.
  - (* printBitmap *) geometry_same w.
  - (* defineBitImage *) geometry_same w.
  - (* printDefinedBitImage *) geometry_same w.
  - (* defineNVBitmap *) geometry_same w.
  - (* defineNVBitmap2 *) geometry_same w.
  - (* printNVBitmap *) geometry_same w.
  - (* printBitmap_ada *)
    destruct (printBitmap_ada w0 h bitmap fromProgMem w) as [[hs w1]|] eqn:E;
      [|discriminate].
    cbn [option_map snd] in Hs. injection Hs as <-.
    apply printBitmap_ada_pp in E. rewrite E. geometry_same w.
  - (* printBitmap_ada, from a stream *)
    apply printBitmap_ada_stream_pp in Hs. rewrite Hs. geometry_same w.
  - (* printBitmap_ada, with a header *)
    apply printBitmap_ada_header_pp in Hs. rewrite Hs. geometry_same w.
  - (* offline *) geometry_same w.
  - (* online *) geometry_same w.
  - (* sleep *)
    unfold sleep, sleepAfter.
    destruct (264 <=? PRINTER_FIRMWARE); geometry_same w.
  - (* sleepAfter *)
    unfold sleepAfter.
    destruct (264 <=? PRINTER_FIRMWARE); geometry_same w.
  - (* wake *) geometry_same w.
  - (* hasPaper *) geometry_same w.
  - (* setLineHeight *) geometry_same w.
  - (* setMaxChunkHeight *) geometry_same w.
  - (* setCharset *) geometry_same w.
  - (* setCodePage *) geometry_same w.
  - (* tab *) geometry_same w.
  - (* setCharSpacing *) geometry_same w.
  - (* cut *) geometry_same w.
  - (* beep *) geometry_same w.
  - (* setBeep *) geometry_same w.
  - (* printQRcode *) geometry_same w.
  - (* reprintQRcode *) geometry_same w.
Qed.

(** X21.  Once the characters are 24 or 48 dots high and the line has 16 or
    32 columns, as after [begin], [reset] or [setDefault], no sequence of
    calls that returns leaves any other value in [charHeight] or
    [maxColumn]; and those three calls, like every change of a print mode
    flag, [setSize] included, bring such values about from any state. *)
Theorem geometry_values_kept (os : list op) (w w' : World) :
  run os w = Some w' ->
  geometry_values (pp w) ->
  geometry_values (pp w') /\
  (forall heatTime mask value w0,
     geometry_values (pp (begin heatTime w0)) /\
     geometry_values (pp (reset w0)) /\
     geometry_values (pp (setDefault w0)) /\
     geometry_values (pp (setPrintMode mask w0)) /\
     geometry_values (pp (unsetPrintMode mask w0)) /\
     geometry_values (pp (setSize value w0))).
Proof.
  intros Hr G. split.
  - revert w Hr G. induction os as [|o os IH]; intros w Hr G;
      cbn [run] in Hr.
    + injection Hr as <-. exact G.
    + destruct (step o w) as [w1|] eqn:E; [|discriminate].
      apply (IH w1 Hr). apply (step_geometry_values o w w1 E G).
  - intros heatTime mask value w0.
    split; [|split; [|split; [|split; [|split]]]].
    + apply begin_values.
    + unfold reset, seq_op. destruct (264 <=? PRINTER_FIRMWARE); geometry_set.
    + apply setDefault_values.
    + apply setPrintMode_values.
    + apply unsetPrintMode_values.
    + unfold setSize.
      destruct (toupper value =? chr "M"); [geometry_set|].
      destruct (toupper value =? chr "L"); geometry_set.
Qed.

(** ** What no call touches *)

Lemma same_wiring_seq (f g : Op) :
  same_wiring f -> same_wiring g -> same_wiring (f ;; g).
Proof. intros Hf Hg w. unfold seq_op. rewrite Hg. apply Hf. Qed.

Lemma write_wiring (c : Z) : same_wiring (write_ c).
Proof.
  intros w. destruct (uint8 c =? 0x13) eqn:E.
  - rewrite (write_stripped _ _ E). reflexivity.
  - unfold write_, write. cbn [snd]. rewrite (write_run_unfold c w E).
    cbv zeta.
    destruct ((written_byte c =? ASCII_LF)
              || (column (pp w) =? maxColumn (pp w))); reflexivity.
Qed.

Lemma print_wiring (s : list Z) : same_wiring (print s).
Proof.
  induction s as [|c s IH] using rev_ind; intros w.
  - reflexivity.
  - rewrite print_snoc, write_wiring. apply IH.
Qed.

Lemma feed_manually_wiring (x : nat) : same_wiring (feed_manually x).
Proof.
  induction x as [|x IH]; cbn [feed_manually].
  - intros w. reflexivity.
  - apply same_wiring_seq; [apply write_wiring | exact IH].
Qed.

Lemma feed_wiring (x : Z) : same_wiring (feed x).
Proof.
  unfold feed. destruct (264 <=? PRINTER_FIRMWARE).
  - intros w. reflexivity.
  - apply feed_manually_wiring.
Qed.

Lemma test_wiring : same_wiring test.
Proof.
  unfold test, println.
  apply same_wiring_seq; [apply same_wiring_seq | apply feed_wiring];
    apply print_wiring.
Qed.

Lemma printBarcode_wiring (text : list Z) (type : Z) (w w' : World) :
  printBarcode text type w = Some w' -> wiring (pp w') = wiring (pp w).
Proof.
  unfold printBarcode. intros H.
  pose proof (feed_wiring 1 w) as G.
  set (w1 := (feed 1;; writeBytes3 ASCII_GS (chr "H") 2;;
              writeBytes3 ASCII_GS (chr "w") 3;;
              writeBytes3 ASCII_GS (chr "k") type) w) in H.
  assert (E1 : pp w1 = pp (feed 1 w)) by reflexivity.
  assert (E2 : exists w2, pp w2 = pp w1 /\ w' = upd (set_prevByte ASCII_LF) w2).
  { destruct (264 <=? PRINTER_FIRMWARE).
    - cbn [option_map] in H. inversion H. eexists. split; [|reflexivity].
      unfold seq_op. rewrite pp_for_lt_write. reflexivity.
    - destruct (barcode_copy 256 text 0 w1) as [w2|] eqn:B; [|discriminate].
      cbn [option_map] in H. inversion H. exists w2.
      split; [apply (pp_barcode_copy _ _ _ _ _ B) | reflexivity]. }
  destruct E2 as (w2 & E2 & ->). rewrite <- G, <- E1, <- E2. reflexivity.
Qed.

Lemma wiring_all (o : op) (p p' : Pos_Printer) :
  wiring p' = wiring p ->
  dtrPin p' = dtrPin p /\
  (dtrEnabled p = true -> dtrEnabled p' = true) /\
  (sets_wiring o = false -> wiring p' = wiring p).
Proof.
  intros E. unfold wiring in E. inversion E as [[E1 E2 E3 E4 E5]].
  split; [reflexivity|]. split; [intros D; exact D|]. intros _.
  unfold wiring. rewrite E1, E2, E3, E4, E5. reflexivity.
Qed.

Ltac wiring_same := apply wiring_all; reflexivity.

Lemma step_wiring (o : op) (w w' : World) :
  step o w = Some w' ->
  dtrPin (pp w') = dtrPin (pp w) /\
  (dtrEnabled (pp w) = true -> dtrEnabled (pp w') = true) /\
  (sets_wiring o = false -> wiring (pp w') = wiring (pp w)).
Proof.
  intros Hs.
  destruct o; cbn [step] in Hs;
    try (injection Hs as <-);
    try rewrite printBitmap_pp in *;
    try rewrite defineBitImage_pp in *;
    try rewrite defineNVBitmap_pp in *;
    try rewrite defineNVBitmap2_pp in *;
    try rewrite hasPaper_pp in *;
    try rewrite printQRcode_pp in *;
    try rewrite wake_pp in *.
  - (* setTimes *)
    split; [reflexivity|]. split; [intros D; exact D | intros F; discriminate F].
  - (* write *)
    apply wiring_all, write_wiring.
  - (* begin *)
    destruct (begin_carries heatTime w) as (K1 & K2 & _).
    split; [exact K1|]. split; [|intros F; discriminate F].
    intros D. rewrite K2, D. apply orb_true_r.
  - (* reset *)
    unfold reset, seq_op. destruct (264 <=? PRINTER_FIRMWARE); wiring_same.
  - (* setDefault *)
    apply wiring_all. unfold wiring.
    destruct (setDefault_keeps w) as (K1 & K2 & K3 & K4 & K5).
    rewrite K1, K2, K3, K4, K5. reflexivity.
  - (* test *)
    apply wiring_all, test_wiring.
  - (* testPage *)
    wiring_same.
  - (* setBarcodeHeight *)
    wiring_same.
  - (* printBarcode *)
    apply wiring_all, (printBarcode_wiring _ _ _ _ Hs).
  - (* setPrintMode *)
    wiring_same.
  - (* unsetPrintMode *)
    wiring_same.
  - (* writePrintMode *)
    wiring_same.
  - (* normal *)
    wiring_same.
  - (* inverseOn *)
    unfold inverseOn. destruct (268 <=? PRINTER_FIRMWARE); wiring_same.
  - (* inverseOff *)
    unfold inverseOff. destruct (268 <=? PRINTER_FIRMWARE); wiring_same.
  - (* upsideDownOn *)
    wiring_same.
  - (* upsideDownOff *)
    wiring_same.
  - (* doubleHeightOn *)
    wiring_same.
  - (* doubleHeightOff *)
    wiring_same.
  - (* doubleWidthOn *)
    wiring_same.
  - (* doubleWidthOff *)
    wiring_same.
  - (* strikeOn *)
    wiring_same.
  - (* strikeOff *)
    wiring_same.
  - (* boldOn *)
    wiring_same.
  - (* boldOff *)
    wiring_same.
  - (* justify *)
    wiring_same.
  - (* feed *)
    apply wiring_all, feed_wiring.
  - (* feedRows *)
    wiring_same.
  - (* flush *)
    wiring_same.
  - (* setSize *)
    unfold setSize.
    destruct (toupper value =? chr "M"); [wiring_same|].
    destruct (toupper value =? chr "L"); wiring_same.
  - (* underlineOn *)
    wiring_same.
  - (* underlineOff *)
    wiring_same.
  - (* printBitmap *)
    wiring_same.
  - (* defineBitImage *)
    wiring_same.
  - (* printDefinedBitImage *)
    wiring_same.
  - (* defineNVBitmap *)
    wiring_same.
  - (* defineNVBitmap2 *)
    wiring_same.
  - (* printNVBitmap *)
    wiring_same.
  - (* printBitmap_ada *)
    destruct (printBitmap_ada w0 h bitmap fromProgMem w) as [[hs w1]|] eqn:E;
      [|discriminate].
    cbn [option_map snd] in Hs. injection Hs as <-.
    apply printBitmap_ada_pp in E. rewrite E. wiring_same.
  - (* printBitmap_ada, from a stream *)
    apply printBitmap_ada_stream_pp in Hs. rewrite Hs. wiring_same.
  - (* printBitmap_ada, with a header *)
    apply printBitmap_ada_header_pp in Hs. rewrite Hs. wiring_same.
  - (* offline *)
    wiring_same.
  - (* online *)
    wiring_same.
  - (* sleep *)
    unfold sleep, sleepAfter. destruct (264 <=? PRINTER_FIRMWARE); wiring_same.
  - (* sleepAfter *)
    unfold sleepAfter. destruct (264 <=? PRINTER_FIRMWARE); wiring_same.
  - (* wake *)
    wiring_same.
  - (* hasPaper *)
    wiring_same.
  - (* setLineHeight *)
    wiring_same.
  - (* setMaxChunkHeight *)
    split; [reflexivity|]. split; [intros D; exact D | intros F; discriminate F].
  - (* setCharset *)
    wiring_same.
  - (* setCodePage *)
    wiring_same.
  - (* tab *)
    wiring_same.
  - (* setCharSpacing *)
    wiring_same.
  - (* cut *)
    wiring_same.
  - (* beep *)
    wiring_same.
  - (* setBeep *)
    wiring_same.
  - (* printQRcode *)
    wiring_same.
  - (* reprintQRcode *)
    wiring_same.
Qed.

(** X22.  No call changes the handshake pin, and none switches the
    handshake off once it is on.  The cap on the rows of a chunk and the two
    dot times are assigned by [begin], [setTimes] and [setMaxChunkHeight]
    only: a sequence of other calls that returns, [reset] and [setDefault]
    among them, leaves all five as they were. *)
Theorem wiring_kept (os : list op) (w w' : World) :
  run os w = Some w' ->
  dtrPin (pp w') = dtrPin (pp w) /\
  (dtrEnabled (pp w) = true -> dtrEnabled (pp w') = true) /\
  (forallb (fun o => negb (sets_wiring o)) os = true ->
   wiring (pp w') = wiring (pp w)).
Proof.
  revert w. induction os as [|o os IH]; intros w Hr; cbn [run] in Hr.
  - injection Hr as <-. repeat split. intros D; exact D.
  - destruct (step o w) as [w1|] eqn:E; [|discriminate].
    destruct (step_wiring o w w1 E) as (S1 & S2 & S3).
    destruct (IH w1 Hr) as (I1 & I2 & I3).
    split; [rewrite I1; exact S1|]. split; [intros D; apply I2, S2, D|].
    cbn [forallb]. intros F. apply andb_true_iff in F. destruct F as [F1 F2].
    rewrite (I3 F2). apply S3. apply negb_true_iff. exact F1.
Qed.

(** ** The image in the chunks *)







(** ** Geometry and flags, call by call *)

Lemma consistent_kept (p p' : Pos_Printer) :
  printMode p' = printMode p ->
  charHeight p' = charHeight p -> maxColumn p' = maxColumn p ->
  geometry_consistent p -> geometry_consistent p'.
Proof.
  unfold geometry_consistent, double_height, double_width.
  intros -> -> ->. auto.
Qed.

Lemma write_printMode (c : Z) (w : World) :
  printMode (pp (write_ c w)) = printMode (pp w).
Proof.
  destruct (uint8 c =? 0x13) eqn:E.
  - rewrite (write_stripped _ _ E). reflexivity.
  - unfold write_, write. cbn [snd]. rewrite (write_run_unfold c w E).
    cbv zeta.
    destruct ((written_byte c =? ASCII_LF)
              || (column (pp w) =? maxColumn (pp w))); reflexivity.
Qed.

Lemma print_printMode (s : list Z) (w : World) :
  printMode (pp (print s w)) = printMode (pp w).
Proof.
  induction s as [|c s IH] using rev_ind; [reflexivity|].
  rewrite print_snoc, write_printMode. exact IH.
Qed.

Lemma feed_manually_printMode (x : nat) (w : World) :
  printMode (pp (feed_manually x w)) = printMode (pp w).
Proof.
  revert w. induction x as [|x IH]; intros w; cbn [feed_manually];
    [reflexivity|].
  unfold seq_op. rewrite IH. apply write_printMode.
Qed.

Lemma feed_printMode (x : Z) (w : World) :
  printMode (pp (feed x w)) = printMode (pp w).
Proof.
  unfold feed. destruct (264 <=? PRINTER_FIRMWARE);
    [reflexivity | apply feed_manually_printMode].
Qed.

Lemma test_printMode (w : World) :
  printMode (pp (test w)) = printMode (pp w).
Proof.
  unfold test, println, seq_op.
  rewrite feed_printMode, !print_printMode. reflexivity.
Qed.

Lemma printBarcode_printMode (text : list Z) (type : Z) (w w' : World) :
  printBarcode text type w = Some w' ->
  printMode (pp w') = printMode (pp w).
Proof.
  unfold printBarcode. intros H.
  pose proof (feed_printMode 1 w) as G.
  set (w1 := (feed 1;; writeBytes3 ASCII_GS (chr "H") 2;;
              writeBytes3 ASCII_GS (chr "w") 3;;
              writeBytes3 ASCII_GS (chr "k") type) w) in H.
  assert (E1 : pp w1 = pp (feed 1 w)) by reflexivity.
  assert (E2 : exists w2, pp w2 = pp w1 /\ w' = upd (set_prevByte ASCII_LF) w2).
  { destruct (264 <=? PRINTER_FIRMWARE).
    - cbn [option_map] in H. inversion H. eexists. split; [|reflexivity].
      unfold seq_op. rewrite pp_for_lt_write. reflexivity.
    - destruct (barcode_copy 256 text 0 w1) as [w2|] eqn:B; [|discriminate].
      cbn [option_map] in H. inversion H. exists w2.
      split; [apply (pp_barcode_copy _ _ _ _ _ B) | reflexivity]. }
  destruct E2 as (w2 & E2 & ->). cbn [upd pp set_prevByte printMode].
  rewrite E2, E1. exact G.
Qed.

Ltac consistent_same w :=
  apply (consistent_kept (pp w));
  [reflexivity | reflexivity | reflexivity | assumption].

(** Every call but five keeps the geometry in step with the flags. *)
Lemma step_consistent (o : op) (w w' : World) :
  step o w = Some w' ->
  sets_geometry_alone o = false ->
  geometry_consistent (pp w) -> geometry_consistent (pp w').
Proof.
  intros Hs N G.
  destruct o; cbn [step] in Hs; cbn [sets_geometry_alone] in N;
    try (injection Hs as <-);
    try rewrite printBitmap_pp in *;
    try rewrite defineBitImage_pp in *;
    try rewrite defineNVBitmap_pp in *;
    try rewrite defineNVBitmap2_pp in *;
    try rewrite hasPaper_pp in *;
    try rewrite printQRcode_pp in *;
    try rewrite wake_pp in *.
  - (* setTimes *)
    consistent_same w.
  - (* write *)
    destruct (write_geometry c w) as [H1 M1].
    apply (consistent_kept (pp w)); [apply write_printMode | | | ]; assumption.
  - (* begin *)
    discriminate N.
  - (* reset *)
    discriminate N.
  - (* setDefault *)
    discriminate N.
  - (* test *)
    destruct (test_geometry w) as [H1 M1].
    apply (consistent_kept (pp w)); [apply test_printMode | | | ]; assumption.
  - (* testPage *)
    consistent_same w.
  - (* setBarcodeHeight *)
    consistent_same w.
  - (* printBarcode *)
    destruct (printBarcode_geometry _ _ _ _ Hs) as [H1 M1].
    apply (consistent_kept (pp w));
      [apply (printBarcode_printMode _ _ _ _ Hs) | | | ]; assumption.
  - (* setPrintMode *)
    apply setPrintMode_consistent.
  - (* unsetPrintMode *)
    apply unsetPrintMode_consistent.
  - (* writePrintMode *)
    consistent_same w.
  - (* normal *)
    discriminate N.
  - (* inverseOn *)
    unfold inverseOn. destruct (268 <=? PRINTER_FIRMWARE);
      [consistent_same w | apply setPrintMode_consistent].
  - (* inverseOff *)
    unfold inverseOff. destruct (268 <=? PRINTER_FIRMWARE);
      [consistent_same w | apply unsetPrintMode_consistent].
  - (* upsideDownOn *)
    apply setPrintMode_consistent.
  - (* upsideDownOff *)
    apply unsetPrintMode_consistent.
  - (* doubleHeightOn *)
    apply setPrintMode_consistent.
  - (* doubleHeightOff *)
    apply unsetPrintMode_consistent.
  - (* doubleWidthOn *)
    apply setPrintMode_consistent.
  - (* doubleWidthOff *)
    apply unsetPrintMode_consistent.
  - (* strikeOn *)
    apply setPrintMode_consistent.
  - (* strikeOff *)
    apply unsetPrintMode_consistent.
  - (* boldOn *)
    apply setPrintMode_consistent.
  - (* boldOff *)
    apply unsetPrintMode_consistent.
  - (* justify *)
    consistent_same w.
  - (* feed *)
    destruct (feed_geometry x w) as [H1 M1].
    apply (consistent_kept (pp w)); [apply feed_printMode | | | ]; assumption.
  - (* feedRows *)
    consistent_same w.
  - (* flush *)
    consistent_same w.
  - (* setSize *)
    discriminate N.
  - (* underlineOn *)
    consistent_same w.
  - (* underlineOff *)
    consistent_same w.
  - (* printBitmap *)
    consistent_same w.
  - (* defineBitImage *)
    consistent_same w.
  - (* printDefinedBitImage *)
    consistent_same w.
  - (* defineNVBitmap *)
    consistent_same w.
  - (* defineNVBitmap2 *)
    consistent_same w.
  - (* printNVBitmap *)
    consistent_same w.
  - (* printBitmap_ada *)
    destruct (printBitmap_ada w0 h bitmap fromProgMem w) as [[hs w1]|] eqn:E;
      [|discriminate].
    cbn [option_map snd] in Hs. injection Hs as <-.
    apply printBitmap_ada_pp in E. rewrite E. consistent_same w.
  - (* printBitmap_ada, from a stream *)
    apply printBitmap_ada_stream_pp in Hs. rewrite Hs. consistent_same w.
  - (* printBitmap_ada, with a header *)
    apply printBitmap_ada_header_pp in Hs. rewrite Hs. consistent_same w.
  - (* offline *)
    consistent_same w.
  - (* online *)
    consistent_same w.
  - (* sleep *)
    unfold sleep, sleepAfter.
    destruct (264 <=? PRINTER_FIRMWARE); consistent_same w.
  - (* sleepAfter *)
    unfold sleepAfter.
    destruct (264 <=? PRINTER_FIRMWARE); consistent_same w.
  - (* wake *)
    consistent_same w.
  - (* hasPaper *)
    consistent_same w.
  - (* setLineHeight *)
    consistent_same w.
  - (* setMaxChunkHeight *)
    consistent_same w.
  - (* setCharset *)
    consistent_same w.
  - (* setCodePage *)
    consistent_same w.
  - (* tab *)
    consistent_same w.
  - (* setCharSpacing *)
    consistent_same w.
  - (* cut *)
    consistent_same w.
  - (* beep *)
    consistent_same w.
  - (* setBeep *)
    consistent_same w.
  - (* printQRcode *)
    consistent_same w.
  - (* reprintQRcode *)
    consistent_same w.
Qed.

(** A geometry of 24 dots and 32 columns, such as [reset], [begin] and
    [setDefault] leave, agrees with the flags that are clear. *)
Lemma consistent_plain (p : Pos_Printer) :
  charHeight p = 24 -> maxColumn p = 32 ->
  (geometry_consistent p
   <-> double_height p = false /\ double_width p = false).
Proof.
  unfold geometry_consistent. intros -> ->.
  destruct (double_height p), (double_width p); split;
    first [intros [A B]; discriminate | intros [A B]; split; reflexivity
          | intros; split; reflexivity].
Qed.

(** C4, as far as the code keeps it.  Every call but [setSize], [normal],
    [reset], [begin] and [setDefault] keeps the geometry in step with the
    flags: [charHeight] 48 exactly when the double-height flag is set (24
    otherwise), [maxColumn] 16 exactly when the double-width flag is set (32
    otherwise).  [setPrintMode] and [unsetPrintMode], which every flag call
    goes through, bring this about from any state; they set, or clear, the
    flags of their mask and keep the others; the same call again, or a call
    on flags already as asked in a consistent state, leaves the print state
    as it is.  The five other calls assign the geometry or the flags, not
    both: after them the two agree exactly when the flags that stay happen
    to fit, both clear for [normal] and [reset], the double-width flag clear
    for [begin] and [setDefault], the flags those of the size for
    [setSize]. *)
Theorem print_mode_geometry (mask value : Z) (w : World) :
  0 <= printMode (pp w) < 256 ->
  let s := pp (setPrintMode mask w) in
  let u := pp (unsetPrintMode mask w) in
  let z := pp (setSize value w) in
  (forall o w',
     step o w = Some w' -> sets_geometry_alone o = false ->
     geometry_consistent (pp w) -> geometry_consistent (pp w')) /\
  (geometry_consistent s /\ geometry_consistent u) /\
  (forall n, 0 <= n < 8 ->
     Z.testbit (printMode s) n
     = Z.testbit (printMode (pp w)) n || Z.testbit (uint8 mask) n) /\
  (forall n, 0 <= n < 8 ->
     Z.testbit (printMode u) n
     = Z.testbit (printMode (pp w)) n && negb (Z.testbit (uint8 mask) n)) /\
  (pp (setPrintMode mask (setPrintMode mask w)) = s /\
   pp (unsetPrintMode mask (unsetPrintMode mask w)) = u) /\
  (geometry_consistent (pp w) ->
   (Z.land (printMode (pp w)) (uint8 mask) = uint8 mask -> s = pp w) /\
   (Z.land (printMode (pp w)) (uint8 mask) = 0 -> u = pp w)) /\
  (printMode z = printMode (pp w) /\
   charHeight z
   = (if (toupper value =? chr "M") || (toupper value =? chr "L")
      then 48 else 24) /\
   maxColumn z = (if toupper value =? chr "L" then 16 else 32)) /\
  (geometry_consistent z
   <-> double_height (pp w)
       = ((toupper value =? chr "M") || (toupper value =? chr "L")) /\
       double_width (pp w) = (toupper value =? chr "L")) /\
  (geometry_consistent (pp w) ->
   (geometry_consistent (pp (normal w))
    <-> double_height (pp w) = false /\ double_width (pp w) = false)) /\
  (geometry_consistent (pp (reset w))
   <-> double_height (pp w) = false /\ double_width (pp w) = false) /\
  (forall heatTime,
     geometry_consistent (pp (begin heatTime w))
     <-> double_width (pp w) = false) /\
  (geometry_consistent (pp (setDefault w)) <-> double_width (pp w) = false).
Proof.
  intros R s u z.
  destruct (flag_calls_geometry mask value w R)
    as (F1 & F2 & F3 & F4 & F5 & F6).
  fold s u z in F1, F2, F3, F4, F5, F6.
  split; [intros o w' Hs N G; apply (step_consistent o w w' Hs N G)|].
  split; [exact F1|]. split; [exact F2|]. split; [exact F3|].
  split; [exact F4|]. split; [exact F5|]. split; [exact F6|].
  assert (CL : forall p : Pos_Printer,
             Z.testbit (printMode p) 4 = false ->
             charHeight p = 24 -> maxColumn p = 32 ->
             (geometry_consistent p <-> double_width p = false)).
  { intros p B4 Hh Hm.
    destruct (consistent_plain p Hh Hm) as [A B]. unfold double_height in *.
    split; [intros G; apply A, G | intros D; apply B; split; assumption]. }
  split; [|split; [|split; [|split]]].
  - (* setSize *)
    destruct F6 as (Zp & Zh & Zm).
    unfold geometry_consistent, double_height, double_width.
    rewrite Zp, Zh, Zm.
    destruct (toupper value =? chr "M"), (toupper value =? chr "L");
      cbn [orb];
      destruct (Z.testbit (printMode (pp w)) 4),
        (Z.testbit (printMode (pp w)) 5);
      split; intros [A B]; first [discriminate | split; reflexivity].
  - (* normal *)
    intros [Gh Gw].
    unfold geometry_consistent, double_height, double_width in *.
    change (printMode (pp (normal w))) with (uint8 0).
    change (charHeight (pp (normal w))) with (charHeight (pp w)).
    change (maxColumn (pp (normal w))) with (maxColumn (pp w)).
    change (Z.testbit (uint8 0) 4) with false.
    change (Z.testbit (uint8 0) 5) with false.
    rewrite Gh, Gw.
    destruct (Z.testbit (printMode (pp w)) 4),
      (Z.testbit (printMode (pp w)) 5);
      split; intros [A B]; first [discriminate | split; reflexivity].
  - (* reset *)
    assert (E : printMode (pp (reset w)) = printMode (pp w)
                /\ charHeight (pp (reset w)) = 24
                /\ maxColumn (pp (reset w)) = 32).
    { unfold reset, seq_op. destruct (264 <=? PRINTER_FIRMWARE);
        repeat split. }
    destruct E as (Ep & Eh & Em).
    destruct (consistent_plain (pp (reset w)) Eh Em) as [A B].
    unfold double_height, double_width in *. rewrite Ep in A, B.
    split; assumption.
  - (* begin *)
    intros heatTime.
    destruct (begin_carries heatTime w) as (_ & _ & _ & PM).
    assert (B5 : double_width (pp (begin heatTime w)) = double_width (pp w)).
    { unfold double_width. rewrite PM, Z.land_spec, Z.lnot_spec by lia.
      rewrite uint8_testbit by lia.
      destruct (268 <=? PRINTER_FIRMWARE); apply andb_true_r. }
    rewrite <- B5. apply CL.
    + rewrite PM, Z.land_spec, Z.lnot_spec by lia.
      destruct (268 <=? PRINTER_FIRMWARE); apply andb_false_r.
    + reflexivity.
    + destruct (begin_cols heatTime w) as [_ M]. exact M.
  - (* setDefault *)
    pose proof (setDefault_printMode w) as PM.
    assert (B5 : double_width (pp (setDefault w)) = double_width (pp w)).
    { unfold double_width. rewrite PM, Z.land_spec, Z.lnot_spec by lia.
      rewrite uint8_testbit by lia.
      destruct (268 <=? PRINTER_FIRMWARE); apply andb_true_r. }
    rewrite <- B5. apply CL.
    + rewrite PM, Z.land_spec, Z.lnot_spec by lia.
      destruct (268 <=? PRINTER_FIRMWARE); apply andb_false_r.
    + reflexivity.
    + destruct (setDefault_column w) as [_ M]. exact M.
Qed.

End Driver.

(** * Concrete runs *)

(** [begin] on a printer constructed in zeroed memory leaves [ready_printer],
    whatever the firmware revision, character set and code page; [reset]
    then changes nothing of it. *)
Lemma begin_ready (fw cs cp heatTime dtr : Z) :
  pp (begin fw cs cp heatTime (new_world dtr)) = ready_printer dtr.
Proof.
  unfold begin, setDefault, inverseOff, wake, reset, seq_op, new_world,
    ready_printer, Pos_Printer_new.
  destruct (264 <=? fw), (268 <=? fw);
    cbn [pp upd writeBytes1 writeBytes2 writeBytes3 writeBytes4 stream_write
         emit delay dtrPin seq_op skip];
    rewrite ?pp_for_lt_write;
    match goal with
    | |- context [if ?c then _ else _] => change c with (uint8 dtr <? 255)
    end;
    destruct (uint8 dtr <? 255); reflexivity.
Qed.

Lemma reset_ready (fw dtr : Z) :
  pp (reset fw (ready_world dtr)) = ready_printer dtr.
Proof. unfold reset, seq_op. destruct (264 <=? fw); reflexivity. Qed.

(** ** The character write path *)

(** An ordinary character on a fresh line: one byte time, one more column. *)
Lemma write_accounting_witness :
  uint8 65 <> 0x13 /\
  fst (write false 65 (ready_world 255)) = 1 /\
  sent (snd (write false 65 (ready_world 255))) = [65] /\
  write_delay false 65 (ready_world 255) = Some 573 /\
  column (pp (snd (write false 65 (ready_world 255)))) = 1 /\
  prevByte (pp (snd (write false 65 (ready_world 255)))) = 65.
Proof.
  assert (H : uint8 65 <> 0x13) by (vm_compute; discriminate).
  split; [exact H|].
  destruct (write_accounting false 65 (ready_world 255) H) as (A & B & C).
  split; [exact A|]. split; [exact B|].
  change ((written_byte false 65 =? ASCII_LF)
          || (column (pp (ready_world 255)) =? maxColumn (pp (ready_world 255))))
    with false in C.
  destruct C as (D & E & F & _).
  split; [exact D|]. split; [exact E | exact F].
Defined.

(** Where the arithmetic wraps.  With both dot times at
    4294967295 a line feed after a newline leaves 543 in [d], not the
    128849019423 of [BYTE_TIME + (charHeight + lineSpacing) * dotFeedTime];
    and at column 255, reached on a line that was narrowed while 20
    characters wide, one more character leaves column 0, not 256. *)
Lemma write_accounting_wraps :
  (prevByte (pp slowest_world) = ASCII_LF /\
   write_delay false ASCII_LF slowest_world = Some 543 /\
   write_delay true ASCII_LF slowest_world = Some 543 /\
   BYTE_TIME
   + (charHeight (pp slowest_world) + lineSpacing (pp slowest_world))
     * dotFeedTime (pp slowest_world) = 128849019423) /\
  (column (pp (long_line_world false)) = 255 /\
   maxColumn (pp (long_line_world false)) = 16 /\
   column (pp (snd (write false 65 (long_line_world false)))) = 0 /\
   column (pp (long_line_world true)) = 255 /\
   maxColumn (pp (long_line_world true)) = 16 /\
   column (pp (snd (write true 65 (long_line_world true)))) = 0).
Proof. vm_compute. repeat split. Qed.

(** The delay of an ordinary character and of a line on a fresh printer:
    worked out, and no trace of it in what [write] leaves. *)
Lemma write_delay_dropped_example :
  write_delay false 65 (ready_world 255) = Some 573 /\
  write false 65 (ready_world 255)
  = (1, mkWorld (set_prevByte 65 (set_column 1 (ready_printer 255)))
          [Tx 65] 0 []) /\
  write_delay false 10 (ready_world 255) = Some 603 /\
  write false 10 (ready_world 255)
  = (1, mkWorld (ready_printer 255) [Tx 10] 0 []) /\
  write false 10 (setTimes 30000 2100 (ready_world 255))
  = (1, setTimes 30000 2100 (mkWorld (ready_printer 255) [Tx 10] 0 [])) /\
  write_delay false 10 (setTimes 30000 2100 (ready_world 255)) = Some 63573.
Proof. vm_compute. repeat split. Qed.

(** C5: the carriage return of [println] reaches the printer and takes a
    column. *)
Lemma carriage_return_example :
  sent (snd (write false ASCII_CR (ready_world 255))) = [13] /\
  column (pp (snd (write false ASCII_CR (ready_world 255)))) = 1 /\
  prevByte (pp (snd (write false ASCII_CR (ready_world 255)))) = 13 /\
  sent (println false hello_world (ready_world 255))
  = [72; 101; 108; 108; 111; 32; 87; 111; 114; 108; 100; 33; 13; 10].
Proof. vm_compute. repeat split. Qed.

(** The scenario of the specification: HELLO leaves column 5. *)
Lemma hello_example :
  column (pp (print false [72; 69; 76; 76; 79] (ready_world 255))) = 5 /\
  prevByte (pp (print false [72; 69; 76; 76; 79] (ready_world 255))) = 79 /\
  sent (print false [72; 69; 76; 76; 79] (ready_world 255))
  = [72; 69; 76; 76; 79].
Proof. vm_compute. repeat split. Qed.

(** ** Parameters out of range *)

Lemma justify_unrecognised_witness :
  toupper (chr "x") <> chr "L" /\
  toupper (chr "x") <> chr "C" /\
  toupper (chr "x") <> chr "R" /\
  justify (chr "x") (ready_world 255) = justify (chr "L") (ready_world 255) /\
  sent (justify (chr "x") (ready_world 255)) = [27; 97; 0].
Proof.
  assert (HL : toupper (chr "x") <> chr "L") by (vm_compute; discriminate).
  assert (HC : toupper (chr "x") <> chr "C") by (vm_compute; discriminate).
  assert (HR : toupper (chr "x") <> chr "R") by (vm_compute; discriminate).
  repeat (split; [assumption|]).
  exact (justify_unrecognised (chr "x") (ready_world 255) HL HC HR).
Defined.

Lemma clamped_parameters_witness :
  underlineOn 5 (ready_world 255) = underlineOn 2 (ready_world 255) /\
  setBarcodeHeight 0 (ready_world 255) = setBarcodeHeight 1 (ready_world 255) /\
  printQRcode [72; 105] 7 3 50 0 (ready_world 255)
  = printQRcode [72; 105] 48 3 50 0 (ready_world 255).
Proof.
  assert (Hw : 2 < 5 < 256) by lia.
  assert (He : 0 <= 7 < 256) by lia.
  assert (Hn : ~ (48 <= 7 <= 51)) by lia.
  destruct (clamped_parameters 5 7 [72; 105] 3 50 0 (ready_world 255) Hw He Hn)
    as (A & B & C & _).
  split; [exact A|]. split; [exact B | exact C].
Defined.

Lemma setLineHeight_encoding_witness :
  10 <= 255 /\
  sent (setLineHeight 10 (ready_world 255)) = [27; 51; 24] /\
  lineSpacing (pp (setLineHeight 10 (ready_world 255))) = 0.
Proof.
  assert (H : 10 <= 255) by lia.
  split; [exact H|].
  destruct (setLineHeight_encoding 10 (ready_world 255) H) as (_ & A & B).
  split; [exact A | exact B].
Defined.

(** C7 as stated fails above 255: a line height of 256 is sent as 0, below
    the 24 the method enforces, and of 300 as 44; the line spacing becomes
    232 and 20. *)
Lemma setLineHeight_no_upper_clamp :
  sent (setLineHeight 256 (ready_world 255)) = [27; 51; 0] /\
  lineSpacing (pp (setLineHeight 256 (ready_world 255))) = 232 /\
  sent (setLineHeight 300 (ready_world 255)) = [27; 51; 44] /\
  lineSpacing (pp (setLineHeight 300 (ready_world 255))) = 20.
Proof. vm_compute. repeat split. Qed.

(** ** Print mode and geometry *)

(** Double width on, then a character through [step]; double width off. *)
Lemma print_mode_geometry_witness :
  0 <= printMode (pp (ready_world 255)) < 256 /\
  maxColumn (pp (setPrintMode DOUBLE_WIDTH_MASK (ready_world 255))) = 16 /\
  charHeight (pp (setPrintMode DOUBLE_WIDTH_MASK (ready_world 255))) = 24 /\
  pp (unsetPrintMode DOUBLE_WIDTH_MASK (ready_world 255))
  = pp (ready_world 255) /\
  geometry_consistent (pp (tab (ready_world 255))).
Proof.
  assert (R : 0 <= printMode (pp (ready_world 255)) < 256)
    by (vm_compute; split; [discriminate | reflexivity]).
  split; [exact R|].
  destruct (print_mode_geometry 268 false 4 23 16 DOUBLE_WIDTH_MASK (chr "L")
              (ready_world 255) R)
    as (I & (G & _) & _ & _ & _ & K & _).
  destruct G as [Gh Gw]. split; [exact Gw|]. split; [exact Gh|].
  split; [apply K; [split|]; reflexivity|].
  apply (I Otab); [reflexivity | reflexivity | split; reflexivity].
Defined.

(** C4 as stated fails for the five calls that assign the geometry or the
    flags alone, each from a state in which the two agree.  [setSize('L')]
    and [setSize('M')] on a printer with no flag set double the height,
    [setSize('L')] the width too, and the flags stay clear.  After
    [doubleHeightOn], [normal] clears the flag and leaves the 48 dots, and
    [reset] restores the 24 dots and leaves the flag.  After
    [doubleWidthOn], [begin] and [setDefault] restore the 32 columns and
    leave the flag. *)
Lemma geometry_consistency_broken :
  (geometry_consistentb (pp (ready_world 255)) = true /\
   charHeight (pp (setSize (chr "L") (ready_world 255))) = 48 /\
   maxColumn (pp (setSize (chr "L") (ready_world 255))) = 16 /\
   double_height (pp (setSize (chr "L") (ready_world 255))) = false /\
   double_width (pp (setSize (chr "L") (ready_world 255))) = false /\
   geometry_consistentb (pp (setSize (chr "L") (ready_world 255))) = false /\
   geometry_consistentb (pp (setSize (chr "M") (ready_world 255))) = false) /\
  (geometry_consistentb (pp (doubleHeightOn (ready_world 255))) = true /\
   double_height (pp (normal (doubleHeightOn (ready_world 255)))) = false /\
   charHeight (pp (normal (doubleHeightOn (ready_world 255)))) = 48 /\
   geometry_consistentb (pp (normal (doubleHeightOn (ready_world 255))))
   = false /\
   double_height (pp (reset 268 (doubleHeightOn (ready_world 255)))) = true /\
   charHeight (pp (reset 268 (doubleHeightOn (ready_world 255)))) = 24 /\
   geometry_consistentb (pp (reset 268 (doubleHeightOn (ready_world 255))))
   = false /\
   geometry_consistentb (pp (reset 0 (doubleHeightOn (ready_world 255))))
   = false) /\
  (geometry_consistentb (pp (doubleWidthOn (ready_world 255))) = true /\
   double_width (pp (begin 268 4 23 120 (doubleWidthOn (ready_world 255))))
   = true /\
   maxColumn (pp (begin 268 4 23 120 (doubleWidthOn (ready_world 255))))
   = 32 /\
   geometry_consistentb
     (pp (begin 268 4 23 120 (doubleWidthOn (ready_world 255)))) = false /\
   geometry_consistentb
     (pp (begin 0 4 23 120 (doubleWidthOn (ready_world 255)))) = false /\
   double_width (pp (setDefault 268 4 23 (doubleWidthOn (ready_world 255))))
   = true /\
   maxColumn (pp (setDefault 268 4 23 (doubleWidthOn (ready_world 255))))
   = 32 /\
   geometry_consistentb
     (pp (setDefault 268 4 23 (doubleWidthOn (ready_world 255)))) = false /\
   geometry_consistentb
     (pp (setDefault 0 4 23 (doubleWidthOn (ready_world 255)))) = false).
Proof. vm_compute. repeat split. Qed.

(** ** The column *)

Lemma column_inv_step_witness :
  step 268 false 4 23 16 Otab (ready_world 255) = Some (tab (ready_world 255)) /\
  column_inv (pp (ready_world 255)) /\
  column_inv (pp (tab (ready_world 255))).
Proof.
  assert (S : step 268 false 4 23 16 Otab (ready_world 255)
              = Some (tab (ready_world 255))) by reflexivity.
  assert (I : column_inv (pp (ready_world 255)))
    by (vm_compute; split; discriminate).
  split; [exact S|]. split; [exact I|].
  apply (column_inv_step 268 false 4 23 16 Otab (ready_world 255) _ S I).
  - vm_compute. discriminate.
  - intros _. split; reflexivity.
Defined.

(** C3 as stated fails: after 20 characters, double width (or
    [setSize('L')]) leaves column 20 and [maxColumn] 16; at the end of a full
    line of 32, [tab] moves the column to 36.  The last two lines give the
    same as runs of calls that start with [reset]. *)
Lemma column_inv_broken :
  (column (pp (doubleWidthOn (print false (repeat 65 20) (ready_world 255))))
   = 20 /\
   maxColumn (pp (doubleWidthOn (print false (repeat 65 20) (ready_world 255))))
   = 16 /\
   column_invb
     (pp (doubleWidthOn (print true (repeat 65 20) (ready_world 255))))
   = false) /\
  (column (pp (setSize (chr "L") (print false (repeat 65 20) (ready_world 255))))
   = 20 /\
   maxColumn
     (pp (setSize (chr "L") (print false (repeat 65 20) (ready_world 255))))
   = 16) /\
  (column (pp (print false (repeat 65 32) (ready_world 255))) = 32 /\
   column (pp (tab (print false (repeat 65 32) (ready_world 255)))) = 36 /\
   maxColumn (pp (tab (print false (repeat 65 32) (ready_world 255)))) = 32 /\
   column_invb (pp (tab (print true (repeat 65 32) (ready_world 255))))
   = false) /\
  option_map (fun w => column_invb (pp w))
    (run 268 false 4 23 16 (Oreset :: repeat (Owrite 65) 20 ++ [OdoubleWidthOn])
       (ready_world 255)) = Some false /\
  option_map (fun w => column_invb (pp w))
    (run 0 true 4 23 16 (Oreset :: repeat (Owrite 65) 32 ++ [Otab])
       (ready_world 255)) = Some false.
Proof. vm_compute. repeat split. Qed.

(** ** The chunked bitmap print *)


Lemma chunker_example :
  option_map fst (printBitmap_ada 384 16 black false (ready_world 255))
  = Some [5; 5; 5; 1].
Proof. vm_compute. reflexivity. Qed.


(** ** The paper status poll *)

(** Nothing comes: ten polls, false.  A byte with bit 2 clear after 250 ms:
    found by the fourth poll, true; with bit 2 set: false; after 950 ms: too
    late, false. *)
Lemma hasPaper_examples :
  fst (hasPaper (ready_world 255)) = false /\
  log (snd (hasPaper (ready_world 255)))
  = [Tx 16; Tx 4; Tx 4] ++ idle_rounds 10 /\
  fst (hasPaper (mkWorld (ready_printer 255) [] 0 [(250, 0)])) = true /\
  log (snd (hasPaper (mkWorld (ready_printer 255) [] 0 [(250, 0)])))
  = [Tx 16; Tx 4; Tx 4] ++ idle_rounds 3 ++ [Avail true; Rx 0] /\
  fst (hasPaper (mkWorld (ready_printer 255) [] 0 [(250, 4)])) = false /\
  fst (hasPaper (mkWorld (ready_printer 255) [] 0 [(950, 0)])) = false.
Proof. vm_compute. repeat split. Qed.

(** ** Images sent whole *)


(** 8 dots by 3 rows: the command announces one byte by one byte (8 rows),
    three bytes follow. *)
Lemma defineBitImage_bytes_witness :
  (0 < 8 <= 2040 /\ 0 < 3 <= 2040) /\
  sent (defineBitImage 8 3 black (ready_world 255))
  = [29; 42; 1; 1; 255; 255; 255].
Proof.
  assert (Hw : 0 < 8 <= 2040) by lia.
  assert (Hh : 0 < 3 <= 2040) by lia.
  split; [split; [exact Hw | exact Hh]|].
  destruct (defineBitImage_bytes 8 3 black (ready_world 255) Hw Hh)
    as (E & _).
  rewrite E. reflexivity.
Defined.


(** ** More on the chunked bitmap print *)


(** [setMaxChunkHeight(256)] on a printer without the handshake. *)
Lemma chunk_limit_zero_hangs_witness :
  (uint8 256 = 0 /\ dtrEnabled (pp (ready_world 255)) = false /\
   0 < 8 /\ 0 < 1) /\
  printBitmap_ada 8 1 black false (setMaxChunkHeight 256 (ready_world 255))
  = None.
Proof.
  assert (Hv : uint8 256 = 0) by reflexivity.
  assert (Hd : dtrEnabled (pp (ready_world 255)) = false) by reflexivity.
  assert (Hw : 0 < 8) by lia.
  assert (Hh : 0 < 1) by lia.
  split; [split; [exact Hv | split; [exact Hd | split; [exact Hw | exact Hh]]]|].
  destruct (chunk_limit_zero_hangs 256 8 1 black false (ready_world 255)
              Hv Hd Hw Hh) as (_ & _ & E).
  exact E.
Defined.

(** ** The bitmap read from a stream *)


Lemma stream_too_short_hangs_witness :
  (0 < 12 /\ 0 <= maxChunkHeight (pp (ready_world 255)) /\
   Z.of_nat (available [1; 2; 3]) < 2 * ((12 + 7) / 8)) /\
  printBitmap_ada_stream 12 2 [1; 2; 3] (ready_world 255) = None.
Proof.
  assert (Hw : 0 < 12) by lia.
  assert (Hm : 0 <= maxChunkHeight (pp (ready_world 255)))
    by (vm_compute; discriminate).
  assert (Hs : Z.of_nat (available [1; 2; 3]) < 2 * ((12 + 7) / 8))
    by (vm_compute; reflexivity).
  split; [split; [exact Hw | split; [exact Hm | exact Hs]]|].
  exact (stream_too_short_hangs 12 2 [1; 2; 3] (ready_world 255) Hw Hm Hs).
Defined.

(** ** Text *)

(** 40 characters on a fresh line of 32 columns: the column is back at 0
    after the 33rd and ends at 7. *)
Lemma print_column_witness :
  (0 <= column (pp (ready_world 255)) <= maxColumn (pp (ready_world 255)) /\
   maxColumn (pp (ready_world 255)) <= 255) /\
  column (pp (print false (repeat 65 40) (ready_world 255))) = 7 /\
  column (pp (print false (repeat 65 33) (ready_world 255))) = 0 /\
  prevByte (pp (print false (repeat 65 33) (ready_world 255))) = ASCII_LF.
Proof.
  assert (C : 0 <= column (pp (ready_world 255))
              <= maxColumn (pp (ready_world 255)))
    by (vm_compute; split; discriminate).
  assert (M : maxColumn (pp (ready_world 255)) <= 255)
    by (vm_compute; discriminate).
  assert (N : forall n, ~ In ASCII_LF (printed false (repeat 65 n))).
  { intros n H. unfold printed in H. apply in_map_iff in H.
    destruct H as (x & E & H). apply filter_In in H. destruct H as [H _].
    apply repeat_spec in H. subst x. discriminate E. }
  split; [split; [exact C | exact M]|].
  destruct (print_column false (repeat 65 40) (ready_world 255) C M (N 40%nat))
    as (_ & _ & E40 & _).
  destruct (print_column false (repeat 65 33) (ready_world 255) C M (N 33%nat))
    as (_ & _ & E33 & P33).
  split; [rewrite E40; reflexivity|].
  split; [rewrite E33; reflexivity|].
  rewrite P33 by discriminate. rewrite E33. reflexivity.
Defined.

(** ** Barcodes *)

(** Three characters on firmware 268. *)
Lemma printBarcode_length_prefixed_witness :
  (264 <= 268 /\ strlen [65; 66; 67] <= 32767) /\
  option_map sent (printBarcode 268 false [65; 66; 67] 4 (ready_world 255))
  = Some [27; 100; 1; 29; 72; 2; 29; 119; 3; 29; 107; 4; 3; 65; 66; 67].
Proof.
  assert (F : 264 <= 268) by lia.
  assert (L : strlen [65; 66; 67] <= 32767) by (vm_compute; discriminate).
  split; [split; [exact F | exact L]|].
  destruct (printBarcode_length_prefixed 268 false [65; 66; 67] 4
              (ready_world 255) F L) as (w' & E & S' & _).
  rewrite E. cbn [option_map]. rewrite S'. reflexivity.
Defined.

(** The same on firmware 260: a line feed, and a NUL after the text. *)
Lemma printBarcode_nul_terminated_witness :
  (260 < 264 /\ Forall (fun c => uint8 c <> 0) [65; 66; 67]) /\
  option_map sent (printBarcode 260 false [65; 66; 67] 4 (ready_world 255))
  = Some [10; 29; 72; 2; 29; 119; 3; 29; 107; 4; 65; 66; 67; 0].
Proof.
  assert (F : 260 < 264) by lia.
  assert (N : Forall (fun c => uint8 c <> 0) [65; 66; 67])
    by (repeat constructor; discriminate).
  split; [split; [exact F | exact N]|].
  destruct (printBarcode_nul_terminated 260 false [65; 66; 67] 4
              (ready_world 255) F N) as (S' & _).
  destruct S' as (w' & E & S' & _); [vm_compute; lia|].
  rewrite E. cbn [option_map]. rewrite S'. reflexivity.
Defined.

(** ** The bitmap with its sizes in the stream *)


(** The four bytes of the sizes arrive too late, the image after them: with
    an [int] of 32 bits, and with one of 16 and the handshake. *)
Lemma header_not_waited_for_witness :
  (0 <= maxChunkHeight (pp (ready_world 255)) /\
   0 <= maxChunkHeight (pp (ready_world 2))) /\
  printBitmap_ada_header 32 [-1; -1; -1; -1; 8; 0; 2; 0; 129; 66]
    (ready_world 255)
  = None /\
  option_map sent
    (printBitmap_ada_header 16 [-1; -1; -1; -1; 8; 0; 2; 0; 129; 66]
       (ready_world 2))
  = Some [].
Proof.
  assert (Hm : 0 <= maxChunkHeight (pp (ready_world 255)))
    by (vm_compute; discriminate).
  assert (Hm2 : 0 <= maxChunkHeight (pp (ready_world 2)))
    by (vm_compute; discriminate).
  split; [split; [exact Hm | exact Hm2]|].
  destruct (header_not_waited_for 32 [8; 0; 2; 0; 129; 66] (ready_world 255)
              Hm) as (W & _).
  destruct (header_not_waited_for 16 [8; 0; 2; 0; 129; 66] (ready_world 2)
              Hm2) as (_ & N).
  split.
  - destruct W as (_ & _ & E & _); [lia|].
    apply E. vm_compute. reflexivity.
  - destruct N as (_ & _ & D & _); [reflexivity|].
    destruct D as (E & _); [reflexivity|].
    rewrite E. reflexivity.
Defined.

(** ** Tabs *)

(** From a fresh line, and after five characters. *)
Lemma tab_next_stop_witness :
  (0 <= column (pp (ready_world 255)) < 256) /\
  column (pp (tab (ready_world 255))) = 4 /\
  sent (tab (ready_world 255)) = [9].
Proof.
  assert (R : 0 <= column (pp (ready_world 255)) < 256)
    by (vm_compute; split; [discriminate | reflexivity]).
  split; [exact R|].
  destruct (tab_next_stop (ready_world 255) R) as (S' & _ & T & _).
  split; [|exact S'].
  destruct T as (T & _); [vm_compute; reflexivity|]. exact T.
Defined.

(** ** A reply that comes late *)

(** The printer answers after 950 ms that it has paper (0): the call that
    asked says no, the next says yes. *)
Lemma hasPaper_late_reply_witness :
  (incoming (mkWorld (ready_printer 255) [] 0 [(950, 0)]) = [(950, 0)] /\
   clock (mkWorld (ready_printer 255) [] 0 [(950, 0)]) + 900 < 950
   <= clock (mkWorld (ready_printer 255) [] 0 [(950, 0)]) + 1900) /\
  fst (hasPaper (mkWorld (ready_printer 255) [] 0 [(950, 0)])) = false /\
  fst (hasPaper (snd (hasPaper (mkWorld (ready_printer 255) [] 0 [(950, 0)]))))
  = true.
Proof.
  assert (Hi : incoming (mkWorld (ready_printer 255) [] 0 [(950, 0)])
               = [(950, 0)]) by reflexivity.
  assert (Ht : clock (mkWorld (ready_printer 255) [] 0 [(950, 0)]) + 900 < 950
               <= clock (mkWorld (ready_printer 255) [] 0 [(950, 0)]) + 1900)
    by (vm_compute; split; [reflexivity | discriminate]).
  split; [split; [exact Hi | exact Ht]|].
  destruct (hasPaper_late_reply (mkWorld (ready_printer 255) [] 0 [(950, 0)])
              950 0 [] Hi Ht) as (E1 & _ & _ & E2 & _).
  split; [exact E1 | exact E2].
Defined.

(** ** QR codes *)

(** Two characters, and a model and a module size out of range. *)
Lemma printQRcode_layout_witness :
  (strlen [72; 105] <= 65532) /\
  exists m ms ec lo hi,
    sent (printQRcode [72; 105] 49 0 7 0 (ready_world 255))
    = [29; 40; 107; 4; 0; 49; 65; m; 0]
      ++ [29; 40; 107; 3; 0; 49; 67; ms]
      ++ [29; 40; 107; 3; 0; 49; 69; ec]
      ++ [29; 40; 107; lo; hi; 49; 80; 48] ++ [72; 105]
      ++ [29; 40; 107; 3; 0; 49; 81; 48] /\
    m = 50 /\ ms = 3 /\ le16 lo hi = 5.
Proof.
  assert (L : strlen [72; 105] <= 65532) by (vm_compute; discriminate).
  split; [exact L|].
  destruct (printQRcode_layout [72; 105] 49 0 7 0 (ready_world 255) L)
    as (m & ms & ec & lo & hi & S' & _ & _ & _ & _ & M & _ & MS & _ & _ & E & _).
  exists m, ms, ec, lo, hi.
  split; [exact S'|].
  split; [apply M; change (uint8 7) with 7; lia|].
  split; [apply MS; change (uint8 0) with 0; lia | exact E].
Defined.

(** ** The values of the geometry *)

(** Double width, a character, large size, a line. *)
Lemma geometry_values_kept_witness :
  (run 268 false 0 0 16
     [OdoubleWidthOn; Owrite 65; OsetSize 76; Ofeed 1] (ready_world 255)
   = Some (feed 268 false 1
             (setSize 76
                (write_ false 65 (doubleWidthOn (ready_world 255))))) /\
   geometry_values (pp (ready_world 255))) /\
  geometry_values
    (pp (feed 268 false 1
           (setSize 76 (write_ false 65 (doubleWidthOn (ready_world 255)))))).
Proof.
  assert (R : run 268 false 0 0 16
                [OdoubleWidthOn; Owrite 65; OsetSize 76; Ofeed 1]
                (ready_world 255)
              = Some (feed 268 false 1
                        (setSize 76
                           (write_ false 65
                              (doubleWidthOn (ready_world 255))))))
    by reflexivity.
  assert (G : geometry_values (pp (ready_world 255)))
    by (split; [left | right]; reflexivity).
  split; [split; [exact R | exact G]|].
  destruct (geometry_values_kept 268 false 0 0 16 _ _ _ R G) as (K & _).
  exact K.
Defined.

(** ** What no call touches *)

(** The handshake in use and chunks capped at 5 rows: [reset], [setDefault],
    double width and a tab leave it so. *)
Lemma wiring_kept_witness :
  (run 268 false 0 0 16 [Oreset; OsetDefault; OdoubleWidthOn; Otab]
     handshake_world
   = Some (tab (doubleWidthOn
                  (setDefault 268 0 0 (reset 268 handshake_world))))) /\
  wiring (pp (tab (doubleWidthOn
                     (setDefault 268 0 0 (reset 268 handshake_world)))))
  = (2, true, 5, 1, 1).
Proof.
  assert (R : run 268 false 0 0 16 [Oreset; OsetDefault; OdoubleWidthOn; Otab]
                handshake_world
              = Some (tab (doubleWidthOn
                             (setDefault 268 0 0
                                (reset 268 handshake_world)))))
    by reflexivity.
  split; [exact R|].
  destruct (wiring_kept 268 false 0 0 16 _ _ _ R) as (_ & _ & K).
  rewrite K by reflexivity. reflexivity.
Defined.

(** ** The image in the chunks *)

